(** * Metrics and insights engine of the AI content pipeline

    A shallow embedding of [src/performance_analyzer.py]
    ([PerformanceAnalyzer.calculate_metrics], [_calculate_engagement_score],
    [compare_to_benchmarks], [identify_trends], [suggest_optimization]) and
    the properties its specification states about them, followed by the
    route of [dashboard.py] that serves the trends ([get_trends]) and by
    further properties of the same code.

    Python values are modelled as the interpreter has them: [int] is an
    unbounded integer ([Z]), [float] is an IEEE 754 binary64 number (Rocq's
    primitive [float]), a [dict] with string keys is a [gmap string _], and a
    raised exception is a [Raise] in the [result] monad. *)

From Stdlib Require Import ZArith Floats String Lia Bool.
From stdpp Require Import base option gmap strings list.
Set Warnings "-inexact-float".

Local Open Scope Z_scope.

(** ** Exceptions and the result monad *)

Inductive exn := ZeroDivisionError | OverflowError.

Inductive result (A : Type) : Type :=
| Ok (a : A)
| Raise (e : exn).
Arguments Ok {A} a.
Arguments Raise {A} e.

#[global] Instance result_ret : MRet result := fun A a => Ok a.
#[global] Instance result_bind : MBind result := fun A B f r =>
  match r with Ok a => f a | Raise e => Raise e end.
#[global] Instance result_fmap : FMap result := fun A B f r =>
  match r with Ok a => Ok (f a) | Raise e => Raise e end.

(** ** Python numbers *)

Module Py.

(** A number is an [int] or a [float]. *)
Inductive num :=
| Int (z : Z)
| Float (f : float).

(** The integer [z] as an exact, not normalised, binary float [z * 2^0]. *)
Definition SF_of_Z (z : Z) : spec_float :=
  match z with
  | Z0 => S754_zero false
  | Zpos p => S754_finite false p 0
  | Zneg p => S754_finite true p 0
  end.

(** [float(z)] as the arithmetic operators apply it to an [int] operand
    (PyLong_AsDouble): [z] rounded to the nearest binary64, ties to even;
    OverflowError when that is out of range. *)
Definition float_of_int (z : Z) : result float :=
  match binary_normalize prec emax z 0 false with
  | S754_infinity _ => Raise OverflowError
  | r => Ok (SF2Prim r)
  end.

(** [a / b] on two [int]s (long_true_divide): the exact quotient rounded
    once to the nearest binary64, ties to even.  [SFdiv]'s core divides
    mantissas of any size, so it is applied to the integers themselves. *)
Definition int_truediv (a b : Z) : result float :=
  if b =? 0 then Raise ZeroDivisionError
  else match SFdiv prec emax (SF_of_Z a) (SF_of_Z b) with
       | S754_infinity _ => Raise OverflowError
       | q => Ok (SF2Prim q)
       end.

(** [x / y] on two [float]s (float_div). *)
Definition float_truediv (x y : float) : result float :=
  if (y =? 0)%float then Raise ZeroDivisionError else Ok (x / y)%float.

(** Coercion of an operand of mixed arithmetic. *)
Definition to_float (v : num) : result float :=
  match v with
  | Int z => float_of_int z
  | Float f => Ok f
  end.

Definition truediv (a b : num) : result num :=
  match a, b with
  | Int x, Int y => Float <$> int_truediv x y
  | _, _ => x ← to_float a; y ← to_float b; Float <$> float_truediv x y
  end.

Definition arith (fz : Z -> Z -> Z) (ff : float -> float -> float)
    (a b : num) : result num :=
  match a, b with
  | Int x, Int y => Ok (Int (fz x y))
  | _, _ => x ← to_float a; y ← to_float b; Ok (Float (ff x y))
  end.

Definition add : num -> num -> result num := arith Z.add PrimFloat.add.
Definition sub : num -> num -> result num := arith Z.sub PrimFloat.sub.
Definition mul : num -> num -> result num := arith Z.mul PrimFloat.mul.

(** Comparison of the finite float [m * 2^e] ([m > 0]) with the integer [z]. *)
Definition cmp_scaled (m : positive) (e : Z) (z : Z) : comparison :=
  if 0 <=? e then Zpos m * 2 ^ e ?= z else Zpos m ?= z * 2 ^ (- e).

(** A [float] against an [int] (float_richcompare): the comparison is exact,
    the integer is not rounded to a float first.  [None] for a NaN. *)
Definition float_cmp_int (x : float) (z : Z) : option comparison :=
  match Prim2SF x with
  | S754_nan => None
  | S754_zero _ => Some (0 ?= z)
  | S754_infinity s => Some (if s then Lt else Gt)
  | S754_finite false m e => Some (cmp_scaled m e z)
  | S754_finite true m e => Some (CompOpp (cmp_scaled m e (- z)))
  end.

(** [a < b]. *)
Definition lt (a b : num) : bool :=
  match a, b with
  | Int x, Int y => x <? y
  | Float x, Float y => (x <? y)%float
  | Float x, Int y => bool_decide (float_cmp_int x y = Some Lt)
  | Int x, Float y => bool_decide (float_cmp_int y x = Some Gt)
  end.

(** [a > b]: the reflected [b < a]. *)
Definition gt (a b : num) : bool := lt b a.

(** [a == b]. *)
Definition eq (a b : num) : bool :=
  match a, b with
  | Int x, Int y => x =? y
  | Float x, Float y => (x =? y)%float
  | Float x, Int y => bool_decide (float_cmp_int x y = Some Eq)
  | Int x, Float y => bool_decide (float_cmp_int y x = Some Eq)
  end.

(** [a <= b]. *)
Definition le (a b : num) : bool :=
  match a, b with
  | Int x, Int y => x <=? y
  | Float x, Float y => (x <=? y)%float
  | Float x, Int y =>
      bool_decide (float_cmp_int x y = Some Lt ∨ float_cmp_int x y = Some Eq)
  | Int x, Float y =>
      bool_decide (float_cmp_int y x = Some Gt ∨ float_cmp_int y x = Some Eq)
  end.

(** [min(a, b)] and [max(a, b)] (min_max): the first argument is kept
    unless the second is strictly smaller, respectively strictly larger. *)
Definition min (a b : num) : num := if lt b a then b else a.
Definition max (a b : num) : num := if gt b a then b else a.

(** The integer nearest to [m / 2^k], ties to the even one. *)
Definition div_pow2_half_even (m : Z) (k : Z) : Z :=
  let d := 2 ^ k in
  let q := m / d in
  let r := m mod d in
  match 2 * r ?= d with
  | Lt => q
  | Gt => q + 1
  | Eq => if Z.even q then q else q + 1
  end.

(** The integer nearest to [m * 2^e], ties to the even one. *)
Definition scaled_half_even (m : Z) (e : Z) : Z :=
  if 0 <=? e then m * 2 ^ e else div_pow2_half_even m (- e).

(** [round(x, ndigits)] on a [float], for [0 <= ndigits] within the range
    double_round serves: the exact binary value of [x] is rounded to
    [ndigits] decimal places, ties to even (dtoa mode 3), and that decimal
    is read back as the nearest binary64 (strtod).  NaN, the infinities and
    the zeros round to themselves. *)
Definition float_round (x : float) (ndigits : nat) : float :=
  match Prim2SF x with
  | S754_finite s m e =>
      let scale := 10 ^ Z.of_nat ndigits in
      let n := scaled_half_even (Zpos m * scale) e in
      let sn := match n with
                | Zpos p => S754_finite s p 0
                | _ => S754_zero s
                end in
      SF2Prim (SFdiv prec emax sn (SF_of_Z scale))
  | _ => x
  end.

(** [round(v, ndigits)] with [ndigits >= 0]: an [int] is returned as it is. *)
Definition round (v : num) (ndigits : nat) : num :=
  match v with
  | Int z => Int z
  | Float x => Float (float_round x ndigits)
  end.

(** [sum(values)] as in CPython 3.8 to 3.11, the versions the package
    declares: a left fold of [+] from the [int] 0. *)
Definition sum (vs : list num) : result num :=
  foldl (fun acc v => a ← acc; add a v) (Ok (Int 0)) vs.

(** The value of a finite float, as an integer multiple of [2 ^ ez]. *)
Definition scaled (s : bool) (m : positive) (e ez : Z) : Z :=
  cond_Zopp s (Z.pos m * 2 ^ (e - ez)).

End Py.

(** * The analyzer *)

(** ** Data model *)

(** A [dict] of numbers under string keys: raw counts, derived metrics. *)
Abbreviation num_dict := (gmap string Py.num).

(** [d.get(key, 0)]. *)
Definition get0 (d : num_dict) (key : string) : Py.num :=
  default (Py.Int 0) (d !! key).

(** A row of the campaign history: its [persona] entry, when it has one,
    and its numeric entries. *)
Record history_record := {
  persona : option string;
  fields : num_dict;
}.

(** A value of the [performance] map of [compare_to_benchmarks]. *)
Record benchmark_entry := {
  actual : Py.num;
  benchmark : float;
  difference : Py.num;
  difference_percent : Py.num;
  bench_status : string;
}.

(** The [dict] [compare_to_benchmarks] returns. *)
Record comparison := {
  comparison_metrics : num_dict;
  comparison_benchmarks : list (string * float);
  performance : gmap string benchmark_entry;
}.

(** A value of the [trends] map of [identify_trends]. *)
Record trend_entry := {
  campaigns_analyzed : nat;
  avg_open_rate : Py.num;
  avg_click_rate : Py.num;
  open_rate_trend : string;
  click_rate_trend : string;
  open_rate_change : Py.num;
  click_rate_change : Py.num;
}.

(** The [dict] [identify_trends] returns; a key that is not set is [None]. *)
Record trend_report := {
  status : string;
  message : option string;
  personas_analyzed : option nat;
  trends : option (gmap string trend_entry);
  analyzed_at : option string;
}.

(** ** calculate_metrics *)

Definition _calculate_engagement_score (opens clicks unsubscribes sent : Z)
    : result Py.num :=
  if sent =? 0 then Ok (Py.Float 0)
  else
    open_ratio ← Py.truediv (Py.Int opens) (Py.Int sent);
    open_score ← Py.mul open_ratio (Py.Int 30);
    click_ratio ← Py.truediv (Py.Int clicks) (Py.Int sent);
    click_score ← Py.mul click_ratio (Py.Int 50);
    unsub_ratio ← Py.truediv (Py.Int unsubscribes) (Py.Int sent);
    unsub_penalty ← Py.mul unsub_ratio (Py.Int 20);
    total ← Py.add open_score click_score;
    net ← Py.sub total unsub_penalty;
    raw ← Py.mul net (Py.Int 100);
    let score := Py.max (Py.Int 0) (Py.min (Py.Int 100) raw) in
    Ok (Py.round score 2).

(** [n / d if d > 0 else 0]. *)
Definition rate (n d : Z) : result Py.num :=
  if 0 <? d then Py.truediv (Py.Int n) (Py.Int d) else Ok (Py.Int 0).

Definition calculate_metrics (raw_data : gmap string Z)
    : result num_dict :=
  let sent := default 0 (raw_data !! "sent") in
  let opens := default 0 (raw_data !! "opens") in
  let clicks := default 0 (raw_data !! "clicks") in
  let bounces := default 0 (raw_data !! "bounces") in
  let unsubscribes := default 0 (raw_data !! "unsubscribes") in
  open_rate ← rate opens sent;
  click_rate ← rate clicks sent;
  click_to_open_rate ← rate clicks opens;
  bounce_rate ← rate bounces sent;
  unsubscribe_rate ← rate unsubscribes sent;
  engagement_score ←
    _calculate_engagement_score opens clicks unsubscribes sent;
  Ok (<["contacts_sent" := Py.Int sent]>
     (<["opens" := Py.Int opens]>
     (<["clicks" := Py.Int clicks]>
     (<["bounces" := Py.Int bounces]>
     (<["unsubscribes" := Py.Int unsubscribes]>
     (<["open_rate" := open_rate]>
     (<["click_rate" := click_rate]>
     (<["click_to_open_rate" := click_to_open_rate]>
     (<["bounce_rate" := bounce_rate]>
     (<["unsubscribe_rate" := unsubscribe_rate]>
     (<["engagement_score" := engagement_score]> ∅))))))))))).

(** ** compare_to_benchmarks *)

(** Industry benchmarks, in the order of the [dict] literal. *)
Definition benchmarks : list (string * float) :=
  [("open_rate", 0.21%float);
   ("click_rate", 0.10%float);
   ("unsubscribe_rate", 0.005%float)].

(** The body of the loop over [benchmarks.items()]. *)
Definition compare_metric (metrics : num_dict) (metric : string)
    (benchmark : float) : result benchmark_entry :=
  let actual := get0 metrics metric in
  diff ← Py.sub actual (Py.Float benchmark);
  diff_percent ←
    (if Py.gt (Py.Float benchmark) (Py.Int 0)
     then ratio ← Py.truediv diff (Py.Float benchmark);
          Py.mul ratio (Py.Int 100)
     else Ok (Py.Int 0));
  let status :=
    if Py.gt diff (Py.Int 0) then "above"
    else if Py.lt diff (Py.Int 0) then "below"
    else "at" in
  Ok {| actual := actual; benchmark := benchmark; difference := diff;
        difference_percent := diff_percent; bench_status := status |}.

Definition compare_to_benchmarks (metrics : num_dict) : result comparison :=
  perf ← foldl (fun acc '(metric, benchmark) =>
                  perf ← acc;
                  entry ← compare_metric metrics metric benchmark;
                  Ok (<[metric := entry]> perf))
               (Ok ∅) benchmarks;
  Ok {| comparison_metrics := metrics;
        comparison_benchmarks := benchmarks;
        performance := perf |}.

(** ** identify_trends *)

(** [by_persona] is a [dict] of lists, iterated in insertion order: an
    association list with one pair per key.  [dict_append d k x] is
    [if k not in d: d[k] = []] followed by [d[k].append(x)]. *)
Fixpoint dict_append {A} (d : list (string * list A)) (k : string) (x : A)
    : list (string * list A) :=
  match d with
  | [] => [(k, [x])]
  | (k', xs) :: d' =>
      if decide (k' = k) then (k', xs ++ [x]) :: d'
      else (k', xs) :: dict_append d' k x
  end.

(** [data.get('persona', 'unknown')]. *)
Definition persona_of (data : history_record) : string :=
  default "unknown" (persona data).

Definition group_by_persona (historical_data : list history_record)
    : list (string * list history_record) :=
  foldl (fun by_persona data => dict_append by_persona (persona_of data) data)
        [] historical_data.

(** [sum(r.get(key, 0) for r in records) / n]. *)
Definition mean_of (key : string) (records : list history_record) (n : nat)
    : result Py.num :=
  s ← Py.sum (map (fun r => get0 (fields r) key) records);
  Py.truediv s (Py.Int (Z.of_nat n)).

Definition trend_label (second_half first_half : Py.num) : string :=
  if Py.gt second_half first_half then "improving" else "declining".

(** The body of the loop over [by_persona.items()], past the size test. *)
Definition analyze_records (records : list history_record)
    : result trend_entry :=
  let n := length records in
  avg_open ← mean_of "open_rate" records n;
  avg_click ← mean_of "click_rate" records n;
  let mid := (n / 2)%nat in
  first_half_open ← mean_of "open_rate" (take mid records) mid;
  second_half_open ← mean_of "open_rate" (drop mid records) (n - mid);
  first_half_click ← mean_of "click_rate" (take mid records) mid;
  second_half_click ← mean_of "click_rate" (drop mid records) (n - mid);
  open_change ← Py.sub second_half_open first_half_open;
  click_change ← Py.sub second_half_click first_half_click;
  Ok {| campaigns_analyzed := n;
        avg_open_rate := avg_open;
        avg_click_rate := avg_click;
        open_rate_trend := trend_label second_half_open first_half_open;
        click_rate_trend := trend_label second_half_click first_half_click;
        open_rate_change := open_change;
        click_rate_change := click_change |}.

(** The loop over [by_persona.items()], from the empty [trends]. *)
Definition collect_trends (by_persona : list (string * list history_record))
    : result (gmap string trend_entry) :=
  foldl (fun acc '(persona, records) =>
           trends ← acc;
           if (length records <? 2)%nat then Ok trends
           else entry ← analyze_records records;
                Ok (<[persona := entry]> trends))
        (Ok ∅) by_persona.

(** [now] is the reading of the clock, [datetime.now().isoformat()]. *)
Definition identify_trends (now : string)
    (historical_data : list history_record) : result trend_report :=
  if (length historical_data <? 2)%nat then
    Ok {| status := "insufficient_data";
          message := Some "Need at least 2 campaigns for trend analysis";
          personas_analyzed := None; trends := None; analyzed_at := None |}
  else
    let by_persona := group_by_persona historical_data in
    trends ← collect_trends by_persona;
    Ok {| status := "success";
          message := None;
          personas_analyzed := Some (size trends);
          trends := Some trends;
          analyzed_at := Some now |}.

(** ** suggest_optimization *)

Definition msg_subject_line : string :=
  "Subject Line: Open rate is below 20%. Try A/B testing subject lines with personalization, numbers, or urgency to improve opens.".
Definition msg_call_to_action : string :=
  "Call-to-Action: Click rate is low. Strengthen your CTAs with action verbs, create urgency, and ensure links are prominent and compelling.".
Definition msg_email_design : string :=
  "Email Design: Click-to-open rate is under 30%. Improve email layout, use more visuals, and make CTAs more prominent.".
Definition msg_send_time : string :=
  "⏰ Send Time: Good opens but low clicks suggests timing issues. Test different send times (Tuesday-Thursday, 10am or 2pm often perform well).".
Definition msg_segmentation : string :=
  "👥 Segmentation: Consider further segmenting your audience based on engagement history and interests for more personalized content.".
Definition msg_strong_performance : string :=
  "✨ Strong Performance! Consider using this as a template for future campaigns. Document what worked well (timing, subject line, content angle).".
Definition msg_normal_ranges : string :=
  "Performance is within normal ranges. Continue monitoring and testing variations.".

(** [if cond: suggestions.append(msg)]. *)
Definition append_if (cond : bool) (msg : string) (suggestions : list string)
    : list string :=
  if cond then suggestions ++ [msg] else suggestions.

Definition suggest_optimization (metrics : num_dict)
    (content_context : gmap string string) : list string :=
  let suggestions := [] in
  let open_rate := get0 metrics "open_rate" in
  let click_rate := get0 metrics "click_rate" in
  let cto_rate := get0 metrics "click_to_open_rate" in
  let suggestions :=
    append_if (Py.lt open_rate (Py.Float 0.20)) msg_subject_line suggestions in
  let suggestions :=
    append_if (Py.lt click_rate (Py.Float 0.08)) msg_call_to_action
      suggestions in
  let suggestions :=
    append_if (Py.lt cto_rate (Py.Float 0.30)) msg_email_design suggestions in
  let suggestions :=
    append_if (Py.gt open_rate (Py.Float 0.25)
               && Py.lt click_rate (Py.Float 0.10))
      msg_send_time suggestions in
  let suggestions :=
    append_if (Py.lt open_rate (Py.Float 0.22)) msg_segmentation suggestions in
  let suggestions :=
    append_if (Py.gt open_rate (Py.Float 0.30)
               && Py.gt click_rate (Py.Float 0.12))
      msg_strong_performance suggestions in
  match suggestions with
  | [] => [msg_normal_ranges]
  | _ => suggestions
  end.

(** * The dashboard *)

(** ** get_trends *)

(** What went wrong in a route: the exception of the storage call, by its
    message, or the exception of the analysis.  The route reports
    [str(e)] of either. *)
Inductive failure :=
| storage_failure (msg : string)
| analysis_failure (e : exn).

(** The [dict] a route hands to [jsonify]:
    [{'status': 'success', 'trends': trends}] or
    [{'status': 'error', 'message': str(e)}]. *)
Inductive trends_body :=
| body_success (trends : trend_report)
| body_error (e : failure).

(** The route [/api/trends]: the body and the HTTP status of the answer.
    [read] is what [storage.get_historical_performance(limit=20)] gave, its
    rows or the message of the exception it raised; the whole body of the
    route is under one [try]. *)
Definition get_trends (now : string)
    (read : string + list history_record) : trends_body * Z :=
  match read with
  | inl msg => (body_error (storage_failure msg), 500)
  | inr historical =>
      match identify_trends now historical with
      | Ok trends => (body_success trends, 200)
      | Raise e => (body_error (analysis_failure e), 500)
      end
  end.

(** * The specification's reading of the operations *)

(** ** Rate calculator *)

(** An operator applied to two expressions, the left one evaluated first. *)
Definition binop (op : Py.num → Py.num → result Py.num)
    (x y : result Py.num) : result Py.num :=
  a ← x; b ← y; op a b.

Declare Scope pyexpr_scope.
Delimit Scope pyexpr_scope with py.
Notation "x + y" := (binop Py.add x y) : pyexpr_scope.
Notation "x - y" := (binop Py.sub x y) : pyexpr_scope.
Notation "x * y" := (binop Py.mul x y) : pyexpr_scope.
Notation "x / y" := (binop Py.truediv x y) : pyexpr_scope.

(** An [int] literal or variable in an expression. *)
Definition lit (z : Z) : result Py.num := Ok (Py.Int z).

(** The engagement score as one expression:
    [round(max(0, min(100, ((opens/sent)*30 + (clicks/sent)*50
                            - (unsubscribes/sent)*20) * 100)), 2)]. *)
Definition engagement_formula (opens clicks unsubscribes sent : Z)
    : result Py.num :=
  raw ← (((lit opens / lit sent) * lit 30
          + (lit clicks / lit sent) * lit 50
          - (lit unsubscribes / lit sent) * lit 20) * lit 100)%py;
  Ok (Py.round (Py.max (Py.Int 0) (Py.min (Py.Int 100) raw)) 2).

(** [raw_data.get(key, 0)] on the raw counts. *)
Definition count (raw_data : gmap string Z) (key : string) : Z :=
  default 0 (raw_data !! key).

(** Every count given has at most 1023 bits: its quotients are in the
    range of a [float]. *)
Definition counts_in_range (raw_data : gmap string Z) : Prop :=
  map_Forall (fun _ z => Z.abs z < 2 ^ 1023) raw_data.

(** A score is within [0, 100], bounds included. *)
Definition within_0_100 (v : Py.num) : bool :=
  Py.le (Py.Int 0) v && Py.le v (Py.Int 100).

(** [n / 100], for [n] hundredths, as [round(_, 2)] reads it back. *)
Definition of_hundredths (n : Z) : float :=
  SF2Prim (SFdiv prec emax
             match n with
             | Zpos p => S754_finite false p 0
             | _ => S754_zero false
             end
             (Py.SF_of_Z (10 ^ Z.of_nat 2))).

(** ** Benchmark comparator *)

(** The status the specification gives a metric against its benchmark:
    "above" iff the metric is greater, "below" iff it is smaller, "at" iff
    it equals the benchmark. *)
Definition status_spec (status : string) (actual benchmark : Py.num) : Prop :=
  (status = "above" ↔ Py.gt actual benchmark = true) ∧
  (status = "below" ↔ Py.lt actual benchmark = true) ∧
  (status = "at" ↔ Py.eq actual benchmark = true).

(** The status as the sign of a float difference gives it: a metric that
    is not a number is neither greater nor smaller than its benchmark and
    falls to "at", though it equals nothing. *)
Definition status_or_nan (status : string) (actual benchmark : Py.num)
    : Prop :=
  (status = "above" ↔ Py.gt actual benchmark = true) ∧
  (status = "below" ↔ Py.lt actual benchmark = true) ∧
  (status = "at" ↔
     Py.eq actual benchmark = true ∨ actual = Py.Float nan).

(** The status from the sign of the difference. *)
Definition sign_status (diff : Py.num) : string :=
  if Py.gt diff (Py.Int 0) then "above"
  else if Py.lt diff (Py.Int 0) then "below"
  else "at".

(** A metric value that converts to a [float]: an [int] of at most 1023
    bits, or any [float]. *)
Definition convertible (v : Py.num) : Prop :=
  match v with
  | Py.Int z => Z.abs z < 2 ^ 1023
  | Py.Float _ => True
  end.

(** A finite float strictly between 0 and 1. *)
Definition small_positive (c : float) : Prop :=
  ∃ m e, Prim2SF c = S754_finite false m e ∧ e <= -53.

(** ** Trend analyzer *)

(** The records of [historical_data] whose persona is [p], in order. *)
Definition persona_group (p : string) (historical_data : list history_record)
    : list history_record :=
  filter (fun r => persona_of r = p) historical_data.

(** A rate field of a record, [r.get(key, 0)]. *)
Definition rate_of (key : string) (r : history_record) : Py.num :=
  get0 (fields r) key.

(** The arithmetic mean of a rate over a list of records: the sum of the
    rate over the records, divided by their number. *)
Definition mean_rate (key : string) (records : list history_record)
    : result Py.num :=
  s ← Py.sum (map (rate_of key) records);
  Py.truediv s (Py.Int (Z.of_nat (length records))).

(** What the specification says of the trend entry of a persona group
    [g]: both averages are the mean over the whole group; each trend
    compares the mean over [g[mid..N]] with the mean over [g[0..mid]],
    [mid = N // 2], and each change is their difference. *)
Definition trend_entry_spec (g : list history_record) (e : trend_entry)
    : Prop :=
  let mid := (length g / 2)%nat in
  mean_rate "open_rate" g = Ok (avg_open_rate e) ∧
  mean_rate "click_rate" g = Ok (avg_click_rate e) ∧
  ∃ first_open second_open first_click second_click,
    mean_rate "open_rate" (take mid g) = Ok first_open ∧
    mean_rate "open_rate" (drop mid g) = Ok second_open ∧
    mean_rate "click_rate" (take mid g) = Ok first_click ∧
    mean_rate "click_rate" (drop mid g) = Ok second_click ∧
    open_rate_trend e =
      (if Py.gt second_open first_open then "improving" else "declining") ∧
    click_rate_trend e =
      (if Py.gt second_click first_click then "improving" else "declining") ∧
    Py.sub second_open first_open = Ok (open_rate_change e) ∧
    Py.sub second_click first_click = Ok (click_rate_change e).

(** Every numeric field a record of the history holds is a [float], as
    the rows of the performance table are. *)
Definition float_rates (historical_data : list history_record) : Prop :=
  Forall (fun r => map_Forall (fun _ v => ∃ x, v = Py.Float x) (fields r))
    historical_data.

(** A sum of rates: the [int] 0 of an empty sum or a [float]. *)
Definition zero_or_float (v : Py.num) : Prop :=
  v = Py.Int 0 ∨ ∃ x, v = Py.Float x.

(** The step of the loop of [collect_trends]. *)
Definition collect_step (acc : result (gmap string trend_entry))
    (item : string * list history_record) :=
  let '(persona, records) := item in
  trends ← acc;
  if (length records <? 2)%nat then Ok trends
  else entry ← analyze_records records;
       Ok (<[persona := entry]> trends).

(** [d.get(k)] on a [dict] kept as an association list. *)
Fixpoint dict_get {A} (d : list (string * A)) (k : string) : option A :=
  match d with
  | [] => None
  | (k', v) :: d' => if decide (k' = k) then Some v else dict_get d' k
  end.

(** ** Optimization rule engine *)

(** The rule table of the optimisation engine: six threshold predicates
    over a metrics set, each with its message, in declaration order. *)
Definition rule_1 (m : num_dict) : bool :=
  Py.lt (get0 m "open_rate") (Py.Float 0.20).
Definition rule_2 (m : num_dict) : bool :=
  Py.lt (get0 m "click_rate") (Py.Float 0.08).
Definition rule_3 (m : num_dict) : bool :=
  Py.lt (get0 m "click_to_open_rate") (Py.Float 0.30).
Definition rule_4 (m : num_dict) : bool :=
  Py.gt (get0 m "open_rate") (Py.Float 0.25)
  && Py.lt (get0 m "click_rate") (Py.Float 0.10).
Definition rule_5 (m : num_dict) : bool :=
  Py.lt (get0 m "open_rate") (Py.Float 0.22).
Definition rule_6 (m : num_dict) : bool :=
  Py.gt (get0 m "open_rate") (Py.Float 0.30)
  && Py.gt (get0 m "click_rate") (Py.Float 0.12).

Definition rule_table : list ((num_dict -> bool) * string) :=
  [(rule_1, msg_subject_line);
   (rule_2, msg_call_to_action);
   (rule_3, msg_email_design);
   (rule_4, msg_send_time);
   (rule_5, msg_segmentation);
   (rule_6, msg_strong_performance)].

(** The messages of the rules that match, in rule-declaration order. *)
Definition matching_messages (m : num_dict) : list string :=
  map snd (List.filter (fun r => fst r m) rule_table).

(** The chain of guarded appends, on the six rule predicates. *)
Definition fired (m : num_dict) : list string :=
  append_if (rule_6 m) msg_strong_performance
    (append_if (rule_5 m) msg_segmentation
       (append_if (rule_4 m) msg_send_time
          (append_if (rule_3 m) msg_email_design
             (append_if (rule_2 m) msg_call_to_action
                (append_if (rule_1 m) msg_subject_line []))))).

(** The messages of the six rules. *)
Definition rule_messages : list string :=
  [msg_subject_line; msg_call_to_action; msg_email_design; msg_send_time;
   msg_segmentation; msg_strong_performance].

(** ** Sample inputs *)

(** The raw counts of the specification's scenario. *)
Definition scenario_counts : gmap string Z :=
  <["sent" := 100]> (<["opens" := 30]> (<["clicks" := 12]>
  (<["bounces" := 2]> (<["unsubscribes" := 1]> ∅)))).

(** The metrics set of the specification's second rule-engine example. *)
Definition strong_metrics : num_dict :=
  <["open_rate" := Py.Float 0.35]> (<["click_rate" := Py.Float 0.15]> ∅).

(** A metrics set whose open rate is not a number. *)
Definition nan_metrics : num_dict := <["open_rate" := Py.Float nan]> ∅.

(** Three campaigns, two of them for the same persona. *)
Definition three_campaigns : list history_record :=
  [ {| persona := Some "founders";
       fields := <["open_rate" := Py.Float 0.35]>
                 (<["click_rate" := Py.Float 0.12]> ∅) |};
    {| persona := Some "creatives";
       fields := <["open_rate" := Py.Float 0.3]> ∅ |};
    {| persona := Some "founders";
       fields := <["open_rate" := Py.Float 0.4]>
                 (<["click_rate" := Py.Float 0.1]> ∅) |} ].

(** Two records, two personas. *)
Definition two_personas : list history_record :=
  [ {| persona := Some "founders";
       fields := <["open_rate" := Py.Float 0.3]> ∅ |};
    {| persona := Some "creatives";
       fields := <["open_rate" := Py.Float 0.4]> ∅ |} ].

(** ** Further predicates *)

(** A rate is within [0, 1], bounds included. *)
Definition within_0_1 (v : Py.num) : bool :=
  Py.le (Py.Int 0) v && Py.le v (Py.Int 1).

(** The five rates of a metrics set. *)
Definition rate_keys : list string :=
  ["open_rate"; "click_rate"; "click_to_open_rate"; "bounce_rate";
   "unsubscribe_rate"].

(** The forms an engagement score takes: the [int] 0 or 100 the clamp
    leaves, or a [float] that is a number of hundredths. *)
Definition score_shape (v : Py.num) : Prop :=
  v = Py.Int 0 ∨ v = Py.Int 100 ∨
  ∃ n, 0 <= n <= 10000 ∧ v = Py.Float (of_hundredths n).

(** A float that is not above 0: a zero, a negative number or the
    negative infinity. *)
Definition not_positive (s : spec_float) : Prop :=
  match s with
  | S754_zero _ | S754_finite true _ _ | S754_infinity true => True
  | _ => False
  end.

(** No record of the list holds the key. *)
Definition lacks_key (key : string) (records : list history_record) : Prop :=
  Forall (fun r => fields r !! key = None) records.

(** The open rate and the click rate of every record, where the record
    holds them, are [float]s, as the REAL columns of the performance table
    give them; the other fields are free. *)
Definition readable_rates (records : list history_record) : Prop :=
  Forall (fun r => zero_or_float (rate_of "open_rate" r) ∧
                   zero_or_float (rate_of "click_rate" r)) records.

(** ** Further sample inputs *)

(** Counts with a negative [sent], as a caller could pass them. *)
Definition negative_counts : gmap string Z :=
  <["sent" := -100]> (<["opens" := -30]> ∅).

(** A campaign that nobody opened. *)
Definition unopened_counts : gmap string Z :=
  <["sent" := 100]> (<["unsubscribes" := 2]> ∅).

(** The metrics set of the specification's first rule-engine example. *)
Definition weak_metrics : num_dict :=
  <["open_rate" := Py.Float 0.15]>
  (<["click_rate" := Py.Float 0.05]>
  (<["click_to_open_rate" := Py.Float 0.20]> ∅)).

(** Two campaigns for the founders, with an open rate and no click
    rate. *)
Definition two_founders : list history_record :=
  [ {| persona := Some "founders";
       fields := <["open_rate" := Py.Float 0.35]> ∅ |};
    {| persona := Some "founders";
       fields := <["open_rate" := Py.Float 0.4]> ∅ |} ].

(** A history in which a rate is an [int] beyond the range of a
    [float]. *)
Definition huge_rate_history : list history_record :=
  [ {| persona := Some "founders";
       fields := <["open_rate" := Py.Int (2 ^ 1024)]> ∅ |};
    {| persona := Some "founders";
       fields := <["open_rate" := Py.Float 0.5]> ∅ |} ].

(** A row of the performance table, with its integer columns. *)
Definition table_row : history_record :=
  {| persona := Some "founders";
     fields := <["contacts_sent" := Py.Int 3]>
               (<["opens" := Py.Int 1]>
               (<["open_rate" := Py.Float 0.3]>
               (<["click_rate" := Py.Float 0.1]> ∅))) |}.

(** * Properties *)

(** ** The numeric model on known values

    Values the interpreter (CPython 3.11) gives, reproduced by the model. *)

(** [1 / 3]; [(2**53 + 1) / 1], a tie that goes to the even float. *)
Example int_truediv_rounds :
  Py.int_truediv 1 3 = Ok 0.3333333333333333%float ∧
  Py.int_truediv (2 ^ 53 + 1) 1 = Ok 9007199254740992%float.
Proof. by vm_compute. Qed.

(** [2**1024 / 1] is too large for a float; [7 / 0] divides by zero. *)
Example int_truediv_raises :
  Py.int_truediv (2 ^ 1024) 1 = Raise OverflowError ∧
  Py.int_truediv 7 0 = Raise ZeroDivisionError.
Proof. by vm_compute. Qed.

(** [round(0.125, 2)] is a tie and goes to the even digit; [2.675] is
    below the tie in binary; [99.999] rounds up to [100.0]. *)
Example round_two_places :
  Py.round (Py.Float 0.125) 2 = Py.Float 0.12 ∧
  Py.round (Py.Float 2.675) 2 = Py.Float 2.67 ∧
  Py.round (Py.Float 99.999) 2 = Py.Float 100 ∧
  Py.round (Py.Int 100) 2 = Py.Int 100.
Proof. by vm_compute. Qed.

(** [min(100, nan)] keeps its first argument. *)
Example clamp_nan :
  Py.max (Py.Int 0) (Py.min (Py.Int 100) (Py.Float nan)) = Py.Int 100.
Proof. by vm_compute. Qed.

(** A float against an integer it cannot hold: [2.0**53 < 2**53 + 1]. *)
Example float_int_exact :
  Py.lt (Py.Float 9007199254740992) (Py.Int 9007199254740993) = true.
Proof. by vm_compute. Qed.

(** [sum([0.1, 0.2, 0.3])], added from the left. *)
Example sum_from_left :
  Py.sum [Py.Float 0.1; Py.Float 0.2; Py.Float 0.3]
    = Ok (Py.Float 0.6000000000000001).
Proof. by vm_compute. Qed.

(** The scenario of the specification: 30 opens, 12 clicks, 2 bounces and
    1 unsubscribe out of 100 sent. *)
Example scenario_metrics :
  (fun m => (m !! "open_rate", m !! "click_rate", m !! "click_to_open_rate",
             m !! "bounce_rate", m !! "unsubscribe_rate",
             m !! "engagement_score"))
    <$> calculate_metrics scenario_counts
  = Ok (Some (Py.Float 0.3), Some (Py.Float 0.12), Some (Py.Float 0.4),
        Some (Py.Float 0.02), Some (Py.Float 0.01), Some (Py.Int 100)).
Proof. by vm_compute. Qed.

(** A score below the ceiling: 1 open out of 10000 sent. *)
Example low_score :
  _calculate_engagement_score 1 0 0 10000 = Ok (Py.Float 0.3).
Proof. by vm_compute. Qed.

(** ** The result monad *)

Lemma bind_Ok {A B} (m : result A) (f : A → result B) b :
  m ≫= f = Ok b ↔ ∃ a, m = Ok a ∧ f a = Ok b.
Proof.
  destruct m as [a|e]; cbn; [|split; [done|by intros (?&?&?)]].
  split; [by exists a|by intros (?&[= <-]&?)].
Qed.

Lemma bind_Raise {A B} (m : result A) (f : A → result B) e :
  m ≫= f = Raise e ↔ m = Raise e ∨ ∃ a, m = Ok a ∧ f a = Raise e.
Proof.
  destruct m as [a|e']; cbn.
  - split.
    + intros Hf. right. by exists a.
    + intros [?|(?&?&?)]; by simplify_eq.
  - split.
    + intros [= ->]. by left.
    + intros [?|(?&?&?)]; by simplify_eq.
Qed.

Lemma fmap_Ok {A B} (m : result A) (f : A → B) b :
  f <$> m = Ok b ↔ ∃ a, m = Ok a ∧ b = f a.
Proof.
  destruct m as [a|e]; cbn; [|split; [done|by intros (?&?&?)]].
  split; [intros [= <-]; by exists a|by intros (?&[= <-]&->)].
Qed.

(** Takes apart a successful run of a sequence of binds. *)
Ltac inv_bind H :=
  repeat match type of H with
  | _ ≫= _ = Ok _ =>
      let a := fresh "v" in let Ha := fresh "Hv" in
      apply bind_Ok in H as (a & Ha & H)
  end.

Lemma foldl_Raise {A B} (f : result A → B → result A) e (l : list B) :
  (∀ b, f (Raise e) b = Raise e) → foldl f (Raise e) l = Raise e.
Proof. intros Hf. induction l as [|b l IH]; simpl; [done|by rewrite Hf]. Qed.

(** Runs the binds whose first computation is a value. *)
Ltac run := cbn [mbind result_bind fmap result_fmap mret result_ret].

(** The same on every hypothesis, nested binds included. *)
Ltac inv_binds :=
  repeat match goal with
  | H : _ ≫= _ = Ok _ |- _ =>
      let a := fresh "v" in let Ha := fresh "Hv" in
      apply bind_Ok in H as (a & Ha & H)
  | H : Ok _ = Ok _ |- _ => injection H as H
  end.

(** ** Rounding to binary64

    Facts on the rounding functions of [SpecFloat], which specify the
    primitive floats: the shape, the sign, the validity and the range of a
    rounded result. *)

Module SF.

Abbreviation fexp := (SpecFloat.fexp prec emax).
Abbreviation emin := (SpecFloat.emin prec emax).

Lemma fexp_eq e : fexp e = Z.max (e - 53) (-1074).
Proof. reflexivity. Qed.

Lemma digits2_pos_size p : digits2_pos p = Pos.size p.
Proof. induction p as [p IH|p IH|]; simpl; by rewrite ?IH. Qed.

Lemma Zdigits2_log2 m : 0 < m → Zdigits2 m = Z.log2 m + 1.
Proof.
  destruct m as [|p|p]; [lia| |lia]. intros _.
  destruct p as [p|p|]; simpl; rewrite ?digits2_pos_size; lia.
Qed.

Lemma Zdigits2_nonneg m : 0 <= Zdigits2 m.
Proof. destruct m; simpl; lia. Qed.

Lemma Zdigits2_pos m : 0 < m → 0 < Zdigits2 m.
Proof. destruct m; simpl; lia. Qed.

Lemma Zdigits2_bounds m :
  0 < m → 2 ^ (Zdigits2 m - 1) <= m < 2 ^ Zdigits2 m.
Proof.
  intros Hm. rewrite Zdigits2_log2 by done.
  replace (Z.log2 m + 1 - 1) with (Z.log2 m) by lia.
  apply Z.log2_spec. done.
Qed.

Lemma Zdigits2_le m n : 0 <= m <= n → Zdigits2 m <= Zdigits2 n.
Proof.
  intros [Hm Hmn]. destruct (decide (m = 0)) as [->|Hne].
  - apply Zdigits2_nonneg.
  - rewrite !Zdigits2_log2 by lia.
    pose proof (Z.log2_le_mono m n Hmn). lia.
Qed.

Lemma Zdigits2_succ m : 0 <= m → Zdigits2 (m + 1) <= Zdigits2 m + 1.
Proof.
  intros Hm. destruct (decide (m = 0)) as [->|Hne]; [done|].
  rewrite !Zdigits2_log2 by lia.
  pose proof (Z.log2_succ_le m). unfold Z.succ in *. lia.
Qed.

Lemma Zdigits2_div_pow2 m n :
  0 < m → 0 <= n →
  Zdigits2 (m / 2 ^ n) = Z.max 0 (Zdigits2 m - n).
Proof.
  intros Hm Hn. rewrite <- Z.shiftr_div_pow2 by done.
  destruct (decide (Z.shiftr m n = 0)) as [Hz|Hnz].
  - rewrite Hz. apply Z.shiftr_eq_0_iff in Hz as [?|[_ Hlog]]; [lia|].
    rewrite (Zdigits2_log2 m) by done. simpl. lia.
  - assert (0 < Z.shiftr m n).
    { pose proof (Z.shiftr_nonneg m n). lia. }
    rewrite !Zdigits2_log2 by done.
    rewrite Z.log2_shiftr by done.
    assert (¬ Z.log2 m < n).
    { intros Hlt. apply Hnz. apply Z.shiftr_eq_0; lia. }
    lia.
Qed.

Lemma shr_1_m r : 0 <= shr_m r → shr_m (shr_1 r) = shr_m r / 2.
Proof.
  destruct r as [m rb sb]. simpl. intros Hm.
  destruct m as [|[p|p|]|p]; simpl; [done| | |done|lia].
  - apply Z.div_unique with 1; lia.
  - apply Z.div_unique with 0; lia.
Qed.

Lemma pow2_xO n : 2 ^ Z.pos n~0 = 2 ^ Z.pos n * 2 ^ Z.pos n.
Proof. rewrite <- Z.pow_add_r by lia. f_equal. lia. Qed.

Lemma pow2_xI n : 2 ^ Z.pos n~1 = 2 * (2 ^ Z.pos n * 2 ^ Z.pos n).
Proof.
  rewrite <- Z.pow_add_r, <- Z.pow_succ_r by lia. f_equal. lia.
Qed.

Lemma iter_shr_1_m n r :
  0 <= shr_m r →
  shr_m (SpecFloat.iter_pos shr_1 n r) = shr_m r / 2 ^ Zpos n.
Proof.
  revert r. induction n as [n IH|n IH|]; intros r Hr;
    cbn [SpecFloat.iter_pos].
  - assert (0 <= shr_m (shr_1 r))
      by (rewrite shr_1_m by done; apply Z.div_pos; lia).
    assert (0 <= shr_m (SpecFloat.iter_pos shr_1 n (shr_1 r)))
      by (rewrite IH by done; apply Z.div_pos; lia).
    rewrite !IH, shr_1_m by done.
    rewrite !Z.div_div by lia. by rewrite pow2_xI.
  - assert (0 <= shr_m (SpecFloat.iter_pos shr_1 n r))
      by (rewrite IH by done; apply Z.div_pos; lia).
    rewrite !IH by done.
    rewrite !Z.div_div by lia. by rewrite pow2_xO.
  - by rewrite shr_1_m.
Qed.

Lemma shr_record_of_loc_m m l : shr_m (shr_record_of_loc m l) = m.
Proof. by destruct l as [|[]]. Qed.

(** [shr_fexp] truncates the mantissa down to the exponent of the format. *)
Lemma shr_fexp_spec m e l :
  0 <= m →
  let e1 := Z.max e (fexp (Zdigits2 m + e)) in
  snd (shr_fexp prec emax m e l) = e1 ∧
  shr_m (fst (shr_fexp prec emax m e l)) = m / 2 ^ (e1 - e).
Proof.
  intros Hm e1. unfold shr_fexp, shr. subst e1.
  destruct (fexp (Zdigits2 m + e) - e) as [|n|n] eqn:Hn; cbn [fst snd].
  - rewrite shr_record_of_loc_m.
    replace (Z.max e _ - e) with 0 by lia. rewrite Z.div_1_r. lia.
  - rewrite iter_shr_1_m by (by rewrite shr_record_of_loc_m).
    rewrite shr_record_of_loc_m.
    replace (Z.max e _ - e) with (Z.pos n) by lia. lia.
  - rewrite shr_record_of_loc_m.
    replace (Z.max e _ - e) with 0 by lia. rewrite Z.div_1_r. lia.
Qed.

Lemma round_nearest_even_bounds m l :
  m <= round_nearest_even m l <= m + 1.
Proof. destruct l as [|[]]; simpl; try lia. destruct (Z.even m); lia. Qed.

(** The shape of a rounded result: the mantissa is truncated to the format,
    moved by at most one unit, and truncated once more. *)
Lemma binary_round_aux_spec sx mx ex lx :
  0 <= mx →
  ∃ m2,
    let e1 := Z.max ex (fexp (Zdigits2 mx + ex)) in
    let m1 := mx / 2 ^ (e1 - ex) in
    let e2 := Z.max e1 (fexp (Zdigits2 m2 + e1)) in
    m1 <= m2 <= m1 + 1 ∧
    binary_round_aux prec emax sx mx ex lx =
      match m2 / 2 ^ (e2 - e1) with
      | Z0 => S754_zero sx
      | Zpos m => if e2 <=? 971 then S754_finite sx m e2 else S754_infinity sx
      | Zneg _ => S754_nan
      end.
Proof.
  intros Hm. unfold binary_round_aux.
  destruct (shr_fexp_spec mx ex lx Hm) as [He1 Hm1].
  destruct (shr_fexp prec emax mx ex lx) as [mrs' e'] eqn:E1.
  cbn [fst snd] in He1, Hm1.
  set (m2 := round_nearest_even (shr_m mrs') (loc_of_shr_record mrs')).
  exists m2. cbv zeta.
  pose proof (round_nearest_even_bounds (shr_m mrs') (loc_of_shr_record mrs'))
    as Hb. fold m2 in Hb. rewrite Hm1 in Hb. split; [done|].
  assert (0 <= m2).
  { assert (0 <= mx / 2 ^ (Z.max ex (fexp (Zdigits2 mx + ex)) - ex))
      by (apply Z.div_pos; lia). lia. }
  destruct (shr_fexp_spec m2 e' loc_Exact) as [He2 Hm3]; [done|].
  destruct (shr_fexp prec emax m2 e' loc_Exact) as [mrs'' e''] eqn:E2.
  cbn [fst snd] in He2, Hm3. subst e' e''. rewrite Hm3. reflexivity.
Qed.

(** The facts on the digits of the three mantissas of a rounding. *)
Lemma rounding_digits mx ex m2 :
  0 <= mx →
  let e1 := Z.max ex (fexp (Zdigits2 mx + ex)) in
  let m1 := mx / 2 ^ (e1 - ex) in
  let e2 := Z.max e1 (fexp (Zdigits2 m2 + e1)) in
  let m3 := m2 / 2 ^ (e2 - e1) in
  m1 <= m2 <= m1 + 1 →
  0 <= m1 ∧ 0 <= m3 ∧
  (mx = 0 → Zdigits2 m1 = 0) ∧
  (0 < mx → Zdigits2 m1 = Z.max 0 (Zdigits2 mx - (e1 - ex))) ∧
  Zdigits2 m1 <= Zdigits2 m2 <= Zdigits2 m1 + 1 ∧
  (m2 = 0 → Zdigits2 m3 = 0) ∧
  (0 < m2 → Zdigits2 m3 = Z.max 0 (Zdigits2 m2 - (e2 - e1))) ∧
  (0 < m3 ↔ 0 < Zdigits2 m3) ∧ (0 < m2 ↔ 0 < Zdigits2 m2) ∧
  (0 < mx ↔ 0 < Zdigits2 mx).
Proof.
  intros Hmx e1 m1 e2 m3 Hm2.
  assert (0 <= m1) by (apply Z.div_pos; lia).
  assert (0 <= m3) by (apply Z.div_pos; lia).
  assert (∀ m, 0 <= m → (0 < m ↔ 0 < Zdigits2 m)) as Hpos.
  { intros m Hm. split; [apply Zdigits2_pos|].
    destruct m; simpl; lia. }
  split_and!; try done.
  - intros ->. subst m1. by rewrite Z.div_0_l by lia.
  - intros Hpos'. subst m1. apply Zdigits2_div_pow2; lia.
  - apply Zdigits2_le. lia.
  - etrans; [apply (Zdigits2_le m2 (m1 + 1)); lia|].
    by apply Zdigits2_succ.
  - intros Hz. subst m3. rewrite Hz. by rewrite Z.div_0_l by lia.
  - intros Hpos'. subst m3. apply Zdigits2_div_pow2; lia.
  - by apply Hpos.
  - apply Hpos. lia.
  - by apply Hpos.
Qed.

(** Names the exponents and mantissas of a rounding and keeps the facts
    on their digits. *)
Ltac name_rounding mx ex m2 Hmx Hb :=
  let Hdig := fresh "Hdig" in
  pose proof (rounding_digits mx ex m2 Hmx Hb) as Hdig;
  cbv zeta in Hdig |- *;
  set (f1 := fexp (Zdigits2 mx + ex)) in *;
  set (e1 := Z.max ex f1) in *;
  set (m1 := mx / 2 ^ (e1 - ex)) in *;
  set (f2 := fexp (Zdigits2 m2 + e1)) in *;
  set (e2 := Z.max e1 f2) in *;
  set (m3 := m2 / 2 ^ (e2 - e1)) in *;
  destruct Hdig as
    (Hm1 & Hm3 & Hd1z & Hd1 & Hd2 & Hd3z & Hd3 & Hp3 & Hp2 & Hpx);
  assert (f1 = Z.max (Zdigits2 mx + ex - 53) (-1074)) as Hf1
    by apply fexp_eq;
  assert (f2 = Z.max (Zdigits2 m2 + e1 - 53) (-1074)) as Hf2
    by apply fexp_eq;
  assert (Zdigits2 m1 + e1 = Z.max e1 (Zdigits2 mx + ex)
          ∨ mx = 0 ∧ Zdigits2 m1 = 0) as Hx1
    by (destruct (decide (mx = 0)) as [Hz|Hnz];
        [right; split; [done|by apply Hd1z]
        |left; rewrite Hd1 by lia; clear; lia]);
  clearbody f1 f2 m1 m3.

Lemma binary_round_aux_not_infinity sx mx ex lx s :
  0 <= mx → Zdigits2 mx + ex <= 1023 → ex <= 970 →
  binary_round_aux prec emax sx mx ex lx ≠ S754_infinity s.
Proof.
  intros Hmx Hd He.
  destruct (binary_round_aux_spec sx mx ex lx Hmx) as (m2 & Hb & ->).
  name_rounding mx ex m2 Hmx Hb.
  destruct m3 as [|p|p]; [done| |done].
  assert (e1 <= 970) as He1 by (clear -Hf1 Hd He; lia).
  assert (Zdigits2 m1 + e1 <= 1023) as Hd1'
    by (clear -Hx1 He1 Hd; lia).
  assert (e2 <= 971) as He2 by (clear -Hf2 Hd1' Hd2 He1; lia).
  by destruct (Z.leb_spec e2 971); [|lia].
Qed.

(** A positive mantissa at an exponent of the format does not round to
    zero, and the sign is kept. *)
Lemma binary_round_aux_nonzero sx mx ex lx :
  0 < mx → -1074 <= ex →
  binary_round_aux prec emax sx mx ex lx = S754_infinity sx ∨
  ∃ m e, binary_round_aux prec emax sx mx ex lx = S754_finite sx m e ∧
         Z.max ex (fexp (Zdigits2 mx + ex)) <= e.
Proof.
  intros Hmx He.
  destruct (binary_round_aux_spec sx mx ex lx) as (m2 & Hb & ->); [lia|].
  name_rounding mx ex m2 (Z.lt_le_incl _ _ Hmx) Hb.
  assert (1 <= Zdigits2 mx) as Hdx by (apply Hpx in Hmx; lia).
  assert (1 <= Zdigits2 m1) as Hd1'
    by (rewrite Hd1 by done; clear -Hf1 He Hdx; lia).
  assert (0 < m2) as Hm2 by (apply Hp2; clear -Hd1' Hd2; lia).
  assert (1 <= Zdigits2 m3) as Hd3'
    by (rewrite Hd3 by done; clear -Hf2 Hf1 He Hd2 Hd1'; lia).
  destruct m3 as [|p|p]; [done| |done].
  destruct (e2 <=? 971); [right|by left].
  exists p, e2. split; [done|]. clear. lia.
Qed.

(** A mantissa that reaches below the exponent of the format rounds to a
    number of the format. *)
Lemma binary_round_aux_valid sx mx ex lx :
  0 <= mx → ex <= fexp (Zdigits2 mx + ex) →
  valid_binary (binary_round_aux prec emax sx mx ex lx) = true.
Proof.
  intros Hmx He.
  destruct (binary_round_aux_spec sx mx ex lx Hmx) as (m2 & Hb & ->).
  name_rounding mx ex m2 Hmx Hb.
  destruct m3 as [|p|p]; [done| |done].
  destruct (Z.leb_spec e2 971) as [Hle|Hgt]; [|done].
  unfold SpecFloat.valid_binary, bounded, canonical_mantissa.
  apply andb_true_iff. split; [|by apply Z.leb_le].
  apply Z.eqb_eq. rewrite fexp_eq.
  change (Z.pos (digits2_pos p)) with (Zdigits2 (Z.pos p)).
  assert (0 < m2) as Hm2.
  { destruct (decide (m2 = 0)) as [Hz|Hnz]; [|clear -Hnz Hb Hm1; lia].
    by apply Hd3z in Hz. }
  specialize (Hd3 Hm2).
  assert (1 <= Zdigits2 (Z.pos p)) as Hdp by (simpl; lia).
  assert (Z.max (Zdigits2 m1 + e1 - 53) (-1074) = e1) as Hc1.
  { destruct Hx1 as [Hx1|[-> Hx1]].
    - rewrite Hx1. clear -Hf1 He. lia.
    - rewrite Hx1. simpl in *. clear -Hf1 He. lia. }
  clear -Hd3 Hdp Hc1 Hf2 Hd2. lia.
Qed.

Lemma pos_iter_xO m d : Z.pos (Pos.iter xO m d) = Z.pos m * 2 ^ Z.pos d.
Proof.
  induction d as [|d IH] using Pos.peano_ind.
  - simpl. lia.
  - rewrite Pos.iter_succ, Pos2Z.inj_xO, IH, Pos2Z.inj_succ, Z.pow_succ_r by lia.
    lia.
Qed.

Lemma shl_align_spec mx ex ex' :
  snd (shl_align mx ex ex') = Z.min ex ex' ∧
  Z.pos (fst (shl_align mx ex ex')) = Z.pos mx * 2 ^ (ex - Z.min ex ex').
Proof.
  unfold shl_align.
  destruct (ex' - ex) as [|d|d] eqn:Hd; cbn [fst snd].
  - replace (ex - Z.min ex ex') with 0 by lia. lia.
  - replace (ex - Z.min ex ex') with 0 by lia. lia.
  - rewrite pos_iter_xO. replace (ex - Z.min ex ex') with (Z.pos d) by lia.
    lia.
Qed.

Lemma Zdigits2_mul_pow2 m n :
  0 < m → 0 <= n → Zdigits2 (m * 2 ^ n) = Zdigits2 m + n.
Proof.
  intros Hm Hn.
  assert (0 < m * 2 ^ n) by (apply Z.mul_pos_pos; [done|by apply Z.pow_pos_nonneg]).
  rewrite !Zdigits2_log2, Z.log2_mul_pow2 by done. lia.
Qed.

(** The aligned mantissa of [binary_round]. *)
Lemma binary_round_aligned sx mx ex :
  ∃ mz ez,
    binary_round prec emax sx mx ex =
      binary_round_aux prec emax sx (Z.pos mz) ez loc_Exact ∧
    ez = Z.min ex (fexp (Zdigits2 (Z.pos mx) + ex)) ∧
    Zdigits2 (Z.pos mz) + ez = Zdigits2 (Z.pos mx) + ex.
Proof.
  unfold binary_round.
  change (Z.pos (digits2_pos mx)) with (Zdigits2 (Z.pos mx)).
  destruct (shl_align_spec mx ex (fexp (Zdigits2 (Z.pos mx) + ex)))
    as [Hez Hmz].
  destruct (shl_align mx ex _) as [mz ez]. cbn [fst snd] in *.
  exists mz, ez. split_and!; [done..|].
  rewrite Hmz, Zdigits2_mul_pow2 by lia. lia.
Qed.

Lemma binary_round_valid sx mx ex :
  valid_binary (binary_round prec emax sx mx ex) = true.
Proof.
  destruct (binary_round_aligned sx mx ex) as (mz & ez & -> & Hez & Hd).
  apply binary_round_aux_valid; [lia|]. rewrite Hd. lia.
Qed.

Lemma binary_round_not_infinity sx mx ex s :
  Zdigits2 (Z.pos mx) + ex <= 1023 →
  binary_round prec emax sx mx ex ≠ S754_infinity s.
Proof.
  intros Hlt.
  destruct (binary_round_aligned sx mx ex) as (mz & ez & -> & Hez & Hd).
  apply binary_round_aux_not_infinity; [lia|lia|].
  rewrite fexp_eq in Hez. lia.
Qed.

Lemma binary_round_nonzero sx mx ex :
  -1074 <= ex →
  binary_round prec emax sx mx ex = S754_infinity sx ∨
  ∃ m e, binary_round prec emax sx mx ex = S754_finite sx m e ∧
         fexp (Zdigits2 (Z.pos mx) + ex) <= e.
Proof.
  intros He.
  destruct (binary_round_aligned sx mx ex) as (mz & ez & -> & Hez & Hd).
  destruct (binary_round_aux_nonzero sx (Z.pos mz) ez loc_Exact)
    as [?|(m & e & ? & Hle)]; [lia|rewrite fexp_eq in Hez; lia|by left|].
  right. exists m, e. split; [done|]. rewrite Hd in Hle. lia.
Qed.

Lemma canonical_bounds m e :
  canonical_mantissa prec emax m e = true →
  -1074 <= e ∧ Z.pos m < 2 ^ 53 ∧ (-1074 < e → 2 ^ 52 <= Z.pos m).
Proof.
  unfold canonical_mantissa. intros H%Z.eqb_eq. rewrite fexp_eq in H.
  change (Z.pos (digits2_pos m)) with (Zdigits2 (Z.pos m)) in H.
  pose proof (Zdigits2_bounds (Z.pos m) eq_refl) as [Hlo Hhi].
  split; [lia|]. split.
  - eapply Z.lt_le_trans; [exact Hhi|]. apply Z.pow_le_mono_r; lia.
  - intros He. etrans; [|exact Hlo]. apply Z.pow_le_mono_r; lia.
Qed.

Lemma pow2_ge_2 n : 1 <= n → 2 <= 2 ^ n.
Proof. intros Hn. change 2 with (2 ^ 1) at 1. apply Z.pow_le_mono_r; lia. Qed.

(** On numbers of the format, the lexicographic comparison of exponent and
    mantissa is the comparison of the values. *)
Lemma canonical_lt m1 e1 m2 e2 :
  canonical_mantissa prec emax m1 e1 = true →
  canonical_mantissa prec emax m2 e2 = true →
  e1 < e2 →
  Z.pos m1 * 2 ^ (e1 - Z.min e1 e2) < Z.pos m2 * 2 ^ (e2 - Z.min e1 e2).
Proof.
  intros (? & ? & _)%canonical_bounds (? & ? & Hlo)%canonical_bounds Hlt.
  replace (e1 - Z.min e1 e2) with 0 by lia.
  replace (e2 - Z.min e1 e2) with (e2 - e1) by lia.
  pose proof (pow2_ge_2 (e2 - e1)). specialize (Hlo ltac:(lia)).
  change (2 ^ 53) with 9007199254740992 in *.
  change (2 ^ 52) with 4503599627370496 in *.
  change (2 ^ 0) with 1. nia.
Qed.

Lemma SFcompare_finite s1 m1 e1 s2 m2 e2 :
  canonical_mantissa prec emax m1 e1 = true →
  canonical_mantissa prec emax m2 e2 = true →
  SFcompare (S754_finite s1 m1 e1) (S754_finite s2 m2 e2) =
    Some (Py.scaled s1 m1 e1 (Z.min e1 e2) ?= Py.scaled s2 m2 e2 (Z.min e1 e2)).
Proof.
  intros H1 H2. unfold SFcompare, Py.scaled. f_equal.
  assert (0 < Z.pos m1 * 2 ^ (e1 - Z.min e1 e2))
    by (apply Z.mul_pos_pos; [done|apply Z.pow_pos_nonneg; lia]).
  assert (0 < Z.pos m2 * 2 ^ (e2 - Z.min e1 e2))
    by (apply Z.mul_pos_pos; [done|apply Z.pow_pos_nonneg; lia]).
  destruct s1, s2; cbn [cond_Zopp].
  - destruct (Z.compare_spec e1 e2) as [->|Hlt|Hgt].
    + by rewrite Z.min_id, Z.sub_diag, !Z.mul_1_r.
    + symmetry. apply Z.compare_gt_iff.
      pose proof (canonical_lt _ _ _ _ H1 H2 Hlt). lia.
    + symmetry. apply Z.compare_lt_iff.
      pose proof (canonical_lt _ _ _ _ H2 H1 ltac:(lia)) as Hc.
      rewrite (Z.min_comm e2 e1) in Hc. lia.
  - symmetry. apply Z.compare_lt_iff. lia.
  - symmetry. apply Z.compare_gt_iff. lia.
  - destruct (Z.compare_spec e1 e2) as [->|Hlt|Hgt].
    + rewrite Z.min_id, Z.sub_diag, !Z.mul_1_r. done.
    + symmetry. apply Z.compare_lt_iff.
      pose proof (canonical_lt _ _ _ _ H1 H2 Hlt). lia.
    + symmetry. apply Z.compare_gt_iff.
      pose proof (canonical_lt _ _ _ _ H2 H1 ltac:(lia)) as Hc.
      rewrite (Z.min_comm e2 e1) in Hc. lia.
Qed.

Lemma binary_normalize_compare_zero d ez :
  -1074 <= ez →
  SFcompare (binary_normalize prec emax d ez false) (S754_zero false) =
    Some (d ?= 0).
Proof.
  intros Hez. destruct d as [|d|d]; cbn [binary_normalize]; [done|..].
  - destruct (binary_round_nonzero false d ez Hez) as [->|(m & e & -> & _)];
      done.
  - destruct (binary_round_nonzero true d ez Hez) as [->|(m & e & -> & _)];
      done.
Qed.

(** The sign of a rounded difference is the sign of the exact difference:
    subtracting a finite number and comparing with zero is comparing the
    operands. *)
Lemma SFsub_compare_zero x sy my ey :
  valid_binary x = true →
  canonical_mantissa prec emax my ey = true →
  x ≠ S754_nan →
  SFcompare (SFsub prec emax x (S754_finite sy my ey)) (S754_zero false) =
    SFcompare x (S754_finite sy my ey).
Proof.
  intros Hx Hy Hnan. destruct x as [s|s| |sx mx ex]; [..|done|].
  - by destruct sy.
  - by destruct s.
  - cbn [valid_binary SpecFloat.valid_binary bounded] in Hx.
    apply andb_true_iff in Hx as [Hx _].
    rewrite SFcompare_finite by done. cbn [SFsub].
    pose proof (canonical_bounds _ _ Hx) as (? & _).
    pose proof (canonical_bounds _ _ Hy) as (? & _).
    rewrite binary_normalize_compare_zero by lia.
    destruct (shl_align_spec mx ex (Z.min ex ey)) as [_ ->].
    destruct (shl_align_spec my ey (Z.min ex ey)) as [_ ->].
    replace (Z.min ex (Z.min ex ey)) with (Z.min ex ey) by lia.
    replace (Z.min ey (Z.min ex ey)) with (Z.min ex ey) by lia.
    unfold Py.scaled. f_equal. symmetry. apply Z.compare_sub.
Qed.

Lemma Zdigits2_lt_pow2 z n : 0 < z < 2 ^ n → Zdigits2 z <= n.
Proof.
  intros [Hz Hlt]. rewrite Zdigits2_log2 by done.
  apply Z.log2_lt_pow2 in Hlt; [lia|done].
Qed.

(** [SFdiv] on two integers: the quotient of the shifted dividend, rounded. *)
Lemma SFdiv_Z_spec sa a sb b :
  let e' := Z.min (fexp (Zdigits2 (Z.pos a) - Zdigits2 (Z.pos b))) 0 in
  ∃ l,
    SFdiv prec emax (S754_finite sa a 0) (S754_finite sb b 0) =
      binary_round_aux prec emax (xorb sa sb)
        (Z.pos a * 2 ^ (- e') / Z.pos b) e' l.
Proof.
  cbn [SFdiv]. unfold SFdiv_core_binary.
  rewrite !Z.add_0_r, Z.sub_0_r.
  set (e' := Z.min (fexp (Zdigits2 (Z.pos a) - Zdigits2 (Z.pos b))) 0).
  assert (match 0 - e' with
          | Z.pos _ => Z.shiftl (Z.pos a) (0 - e')
          | 0 => Z.pos a
          | Z.neg _ => 0
          end = Z.pos a * 2 ^ (- e')) as ->.
  { assert (e' <= 0) by (subst e'; lia).
    destruct (0 - e') as [|n|n] eqn:Hn.
    - replace (- e') with 0 by lia. lia.
    - rewrite Z.shiftl_mul_pow2 by lia. do 2 f_equal. lia.
    - lia. }
  unfold Z.div.
  destruct (Z.div_eucl (Z.pos a * 2 ^ (- e')) (Z.pos b)) as [q r].
  by eexists.
Qed.

Lemma Zdigits2_ge x k : 0 <= k → 2 ^ k <= x → k + 1 <= Zdigits2 x.
Proof.
  intros Hk Hx. assert (0 < 2 ^ k) by (by apply Z.pow_pos_nonneg).
  rewrite Zdigits2_log2 by lia.
  pose proof (Z.log2_le_mono _ _ Hx) as Hl.
  rewrite Z.log2_pow2 in Hl by done. lia.
Qed.

(** The digits of a quotient. *)
Lemma Zdigits2_div a b s :
  0 < a → 0 < b → 0 <= s → 1 <= Zdigits2 a + s - Zdigits2 b →
  Zdigits2 a + s - Zdigits2 b <= Zdigits2 (a * 2 ^ s / b).
Proof.
  intros Ha Hb Hs Hd.
  pose proof (Zdigits2_bounds a Ha) as [Hlo _].
  pose proof (Zdigits2_bounds b Hb) as [_ Hhi].
  set (k := Zdigits2 a + s - Zdigits2 b - 1).
  replace (Zdigits2 a + s - Zdigits2 b) with (k + 1) by (subst k; lia).
  apply Zdigits2_ge; [subst k; lia|].
  apply Z.div_le_lower_bound; [done|].
  assert (0 < 2 ^ k) by (apply Z.pow_pos_nonneg; subst k; lia).
  assert (0 < 2 ^ s) by (by apply Z.pow_pos_nonneg).
  pose proof (Zdigits2_pos b Hb). pose proof (Zdigits2_pos a Ha).
  assert (2 ^ (Zdigits2 a - 1) * 2 ^ s = 2 ^ Zdigits2 b * 2 ^ k) as Heq.
  { rewrite <- !Z.pow_add_r by (subst k; lia). f_equal. subst k. lia. }
  etrans; [apply Z.mul_le_mono_nonneg_r; [lia|apply Z.lt_le_incl, Hhi]|].
  rewrite <- Heq. apply Z.mul_le_mono_nonneg_r; lia.
Qed.

(** The quotient of two integers, rounded, is a number of the format. *)
Lemma SFdiv_Z_valid sa a sb b :
  valid_binary (SFdiv prec emax (S754_finite sa a 0) (S754_finite sb b 0))
    = true.
Proof.
  destruct (SFdiv_Z_spec sa a sb b) as [l ->].
  set (d := Zdigits2 (Z.pos a) - Zdigits2 (Z.pos b)).
  set (e' := Z.min (fexp d) 0).
  assert (0 < 2 ^ (- e')) by (apply Z.pow_pos_nonneg; subst e'; lia).
  apply binary_round_aux_valid; [apply Z.div_pos; lia|].
  set (q := Z.pos a * 2 ^ (- e') / Z.pos b).
  destruct (decide (e' = -1074)) as [He|He]; [rewrite fexp_eq; lia|].
  pose proof (Zdigits2_nonneg q).
  assert (e' <= 0) by (subst e'; lia).
  assert (1 <= d - e') by (subst e'; rewrite fexp_eq in *; lia).
  pose proof (Zdigits2_div (Z.pos a) (Z.pos b) (- e')
                ltac:(done) ltac:(done) ltac:(lia) ltac:(subst d; lia)) as Hq.
  fold q in Hq. subst e'. rewrite !fexp_eq in *. lia.
Qed.

(** Rounding the quotient does not pass an integer above it. *)
Lemma SFdiv_Z_upper sa a sb b K :
  Z.pos a < 2 ^ 52 → Z.pos a < K * Z.pos b →
  SFdiv prec emax (S754_finite sa a 0) (S754_finite sb b 0)
    = S754_zero (xorb sa sb) ∨
  ∃ m e,
    SFdiv prec emax (S754_finite sa a 0) (S754_finite sb b 0)
      = S754_finite (xorb sa sb) m e ∧
    e <= 0 ∧ Z.pos m <= K * 2 ^ (- e).
Proof.
  intros Ha HK.
  destruct (SFdiv_Z_spec sa a sb b) as [l ->].
  set (e' := Z.min (fexp (Zdigits2 (Z.pos a) - Zdigits2 (Z.pos b))) 0).
  set (q := Z.pos a * 2 ^ (- e') / Z.pos b).
  assert (e' <= 0) as He' by (subst e'; lia).
  assert (0 < 2 ^ (- e')) as Hp' by (apply Z.pow_pos_nonneg; lia).
  assert (0 <= q) as Hq0 by (apply Z.div_pos; lia).
  assert (q < K * 2 ^ (- e')) as HqK.
  { apply Z.div_lt_upper_bound; [done|].
    replace (Z.pos b * (K * 2 ^ (- e'))) with (K * Z.pos b * 2 ^ (- e'))
      by ring.
    apply Z.mul_lt_mono_pos_r; lia. }
  assert (Zdigits2 q + e' <= 52) as Hdq.
  { pose proof (Zdigits2_lt_pow2 (Z.pos a) 52 ltac:(lia)).
    pose proof (Zdigits2_le q (Z.pos a * 2 ^ (- e'))) as Hle.
    rewrite Zdigits2_mul_pow2 in Hle by lia.
    assert (q <= Z.pos a * 2 ^ (- e')); [|lia].
    apply Z.div_le_upper_bound; [done|]. nia. }
  destruct (binary_round_aux_spec (xorb sa sb) q e' l Hq0) as (m2 & Hb & ->).
  pose proof (rounding_digits q e' m2 Hq0 Hb)
    as (_ & _ & Hq1 & Hq2 & [_ Hd2] & _).
  cbv zeta in *.
  set (f1 := fexp (Zdigits2 q + e')) in *.
  assert (f1 <= -1) as Hf1 by (subst f1; rewrite fexp_eq; clear -Hdq; lia).
  set (e1 := Z.max e' f1) in *.
  assert (e' <= e1 <= 0) as He1 by (clear -He' Hf1; lia).
  set (m1 := q / 2 ^ (e1 - e')) in *.
  assert (Zdigits2 m1 + e1 <= 52) as Hd1.
  { destruct (decide (q = 0)) as [Hz|Hnz].
    - rewrite (Hq1 Hz). clear -He1. lia.
    - rewrite Hq2 by lia. clear -Hdq He1. lia. }
  set (f2 := fexp (Zdigits2 m2 + e1)) in *.
  assert (f2 <= 0) as Hf2
    by (subst f2; rewrite fexp_eq; clear -Hd1 Hd2; lia).
  set (e2 := Z.max e1 f2) in *.
  assert (e1 <= e2 <= 0) as He2 by (clear -He1 Hf2; lia).
  assert (m1 < K * 2 ^ (- e1)) as Hm1.
  { subst m1. apply Z.div_lt_upper_bound; [apply Z.pow_pos_nonneg; lia|].
    replace (2 ^ (e1 - e') * (K * 2 ^ (- e1))) with (K * 2 ^ (- e')); [done|].
    replace (- e') with (e1 - e' + - e1) by (clear; lia).
    rewrite Z.pow_add_r by (clear -He1; lia). ring. }
  assert (m2 / 2 ^ (e2 - e1) <= K * 2 ^ (- e2)) as Hm3.
  { apply Z.div_le_upper_bound; [apply Z.pow_pos_nonneg; clear -He2; lia|].
    replace (2 ^ (e2 - e1) * (K * 2 ^ (- e2))) with (K * 2 ^ (- e1));
      [clear -Hb Hm1; lia|].
    replace (- e1) with (e2 - e1 + - e2) by (clear; lia).
    rewrite Z.pow_add_r by (clear -He2; lia). ring. }
  destruct (m2 / 2 ^ (e2 - e1)) as [|m3|m3] eqn:E3; [by left| |].
  - right. destruct (Z.leb_spec e2 971) as [_|Hgt]; [|clear -He2 Hgt; lia].
    exists m3, e2. split; [done|]. split; [apply He2|done].
  - exfalso. assert (0 <= m2 / 2 ^ (e2 - e1)); [|lia].
    apply Z.div_pos; [|apply Z.pow_pos_nonneg; clear -He2; lia].
    assert (0 <= m1) by (apply Z.div_pos; [done|apply Z.pow_pos_nonneg; lia]).
    lia.
Qed.

(** The quotient of two integers is in range when the dividend has at
    most 1023 bits. *)
Lemma SFdiv_Z_not_infinity sa a sb b s :
  Z.pos a < 2 ^ 1023 →
  SFdiv prec emax (S754_finite sa a 0) (S754_finite sb b 0) ≠ S754_infinity s.
Proof.
  intros Ha. destruct (SFdiv_Z_spec sa a sb b) as [l ->].
  set (e' := Z.min (fexp (Zdigits2 (Z.pos a) - Zdigits2 (Z.pos b))) 0).
  assert (e' <= 0) as He' by (subst e'; lia).
  assert (0 < 2 ^ (- e')) by (apply Z.pow_pos_nonneg; lia).
  set (q := Z.pos a * 2 ^ (- e') / Z.pos b).
  assert (0 <= q) by (apply Z.div_pos; lia).
  assert (q <= Z.pos a * 2 ^ (- e'))
    by (apply Z.div_le_upper_bound; [done|nia]).
  pose proof (Zdigits2_lt_pow2 (Z.pos a) 1023 ltac:(lia)).
  pose proof (Zdigits2_le q (Z.pos a * 2 ^ (- e')) ltac:(lia)) as Hle.
  rewrite Zdigits2_mul_pow2 in Hle by lia.
  apply binary_round_aux_not_infinity; [done| |]; clear -Hle He' H2; lia.
Qed.

(** Comparison, reflected. *)
Lemma SFcompare_antisym x y :
  valid_binary x = true → valid_binary y = true →
  SFcompare y x = CompOpp <$> SFcompare x y.
Proof.
  intros Hx Hy.
  destruct x as [sx|sx| |sx mx ex], y as [sy|sy| |sy my ey];
    try (by repeat match goal with s : bool |- _ => destruct s end).
  cbn [valid_binary SpecFloat.valid_binary bounded] in Hx, Hy.
  apply andb_true_iff in Hx as [Hx _]. apply andb_true_iff in Hy as [Hy _].
  rewrite !SFcompare_finite by done. cbn. f_equal.
  rewrite (Z.min_comm ey ex). apply Z.compare_antisym.
Qed.

(** A finite float that is not a zero is not 0. *)
Lemma cmp_scaled_0 m e : Py.cmp_scaled m e 0 = Gt.
Proof.
  unfold Py.cmp_scaled. destruct (Z.leb_spec 0 e); [|done].
  apply Z.compare_gt_iff. apply Z.mul_pos_pos; [done|].
  by apply Z.pow_pos_nonneg.
Qed.

End SF.

(** ** Python numbers *)

(** [float(z)] is in range up to 1023 bits, and it is [z] rounded. *)
Lemma float_of_int_ok z :
  Z.abs z < 2 ^ 1023 →
  ∃ y, Py.float_of_int z = Ok y ∧
       Prim2SF y = binary_normalize prec emax z 0 false.
Proof.
  intros Hz. unfold Py.float_of_int.
  assert (valid_binary (binary_normalize prec emax z 0 false) = true) as Hv.
  { destruct z; [done|apply SF.binary_round_valid..]. }
  assert (∀ s, binary_normalize prec emax z 0 false ≠ S754_infinity s) as Hi.
  { intros s. destruct z as [|p|p]; [done|..]; cbn [binary_normalize];
      apply SF.binary_round_not_infinity;
      pose proof (SF.Zdigits2_lt_pow2 (Z.pos p) 1023); lia. }
  destruct (binary_normalize prec emax z 0 false) as [s|s| |s m e] eqn:E;
    try (eexists; split; [reflexivity|by rewrite Prim2SF_SF2Prim]).
  by destruct (Hi s).
Qed.

(** The float of an integer keeps its sign; the float of a positive
    integer is at least 1. *)
Lemma float_of_int_Ok z y :
  Py.float_of_int z = Ok y →
  match z with
  | 0 => Prim2SF y = S754_zero false
  | Z.pos _ => ∃ m e, Prim2SF y = S754_finite false m e ∧ -52 <= e
  | Z.neg _ => ∃ m e, Prim2SF y = S754_finite true m e
  end.
Proof.
  unfold Py.float_of_int.
  assert (valid_binary (binary_normalize prec emax z 0 false) = true) as Hv.
  { destruct z; [done|apply SF.binary_round_valid..]. }
  intros Hy.
  assert (y = SF2Prim (binary_normalize prec emax z 0 false)
          ∧ ∀ s, binary_normalize prec emax z 0 false ≠ S754_infinity s)
    as [-> Hinf].
  { destruct (binary_normalize prec emax z 0 false) as [s|s| |s m e];
      try discriminate Hy; (split; [congruence|done]). }
  rewrite Prim2SF_SF2Prim by done.
  destruct z as [|p|p]; [done|..]; cbn [binary_normalize] in *.
  - destruct (SF.binary_round_nonzero false p 0) as [?|(m & e & Hr & He)];
      [lia|by destruct (Hinf false)|].
    exists m, e. split; [done|].
    rewrite SF.fexp_eq in He. pose proof (SF.Zdigits2_pos (Z.pos p)). lia.
  - destruct (SF.binary_round_nonzero true p 0) as [?|(m & e & Hr & He)];
      [lia|by destruct (Hinf true)|].
    by exists m, e.
Qed.

(** [a / b] on integers raises ZeroDivisionError exactly when [b] is 0. *)
Lemma int_truediv_zero_division a b :
  Py.int_truediv a b = Raise ZeroDivisionError ↔ b = 0.
Proof.
  unfold Py.int_truediv. destruct (Z.eqb_spec b 0) as [->|Hb]; [done|].
  split; [|done]. by destruct (SFdiv _ _ _ _).
Qed.

(** [a / b] on integers is in range when [a] has at most 1023 bits. *)
Lemma int_truediv_ok a b :
  b ≠ 0 → Z.abs a < 2 ^ 1023 → ∃ q, Py.int_truediv a b = Ok q.
Proof.
  intros Hb Ha. unfold Py.int_truediv.
  destruct (Z.eqb_spec b 0) as [?|_]; [done|].
  assert (∀ s, SFdiv prec emax (Py.SF_of_Z a) (Py.SF_of_Z b)
               ≠ S754_infinity s) as Hi.
  { intros s. destruct a as [|a|a], b as [|b|b]; try done;
      apply SF.SFdiv_Z_not_infinity; lia. }
  destruct (SFdiv _ _ _ _) as [s|s| |s m e]; try by eexists.
  by destruct (Hi s).
Qed.

(** *** Comparisons *)

Lemma Prim2SF_nan x : Prim2SF x = S754_nan ↔ x = nan.
Proof.
  split; [|by intros ->].
  intros H. by rewrite <- (SF2Prim_Prim2SF x), H.
Qed.

(** A float against the integer 0: the comparison of [SpecFloat]. *)
Lemma float_cmp_int_0 d :
  Py.float_cmp_int d 0 = SFcompare (Prim2SF d) (S754_zero false).
Proof.
  unfold Py.float_cmp_int. change (- 0) with 0.
  destruct (Prim2SF d) as [s|s| |[] m e]; try done;
    by rewrite (SF.cmp_scaled_0 m e).
Qed.

(** The sign of a float difference [x - c], [c] finite: the comparison of
    [x] with [c]. *)
Lemma float_sub_cmp x c sc mc ec :
  x ≠ nan → Prim2SF c = S754_finite sc mc ec →
  Py.float_cmp_int (x - c) 0 = SFcompare (Prim2SF x) (Prim2SF c).
Proof.
  intros Hx Hc. rewrite float_cmp_int_0, FloatAxioms.sub_spec, Hc.
  pose proof (Prim2SF_valid c) as Hv. rewrite Hc in Hv.
  apply andb_true_iff in Hv as [Hv _].
  apply SF.SFsub_compare_zero; [apply Prim2SF_valid|done|].
  by intros ?%Prim2SF_nan.
Qed.

Lemma float_ltb_cmp x y :
  (x <? y)%float = bool_decide (SFcompare (Prim2SF x) (Prim2SF y) = Some Lt).
Proof.
  rewrite FloatAxioms.ltb_spec. unfold SFltb.
  by destruct (SFcompare _ _) as [[]|].
Qed.

Lemma float_gtb_cmp x y :
  (y <? x)%float = bool_decide (SFcompare (Prim2SF x) (Prim2SF y) = Some Gt).
Proof.
  rewrite float_ltb_cmp.
  rewrite (SF.SFcompare_antisym (Prim2SF x) (Prim2SF y))
    by apply Prim2SF_valid.
  by destruct (SFcompare _ _) as [[]|].
Qed.

Lemma float_eqb_cmp x y :
  (x =? y)%float = bool_decide (SFcompare (Prim2SF x) (Prim2SF y) = Some Eq).
Proof.
  rewrite FloatAxioms.eqb_spec. unfold SFeqb.
  by destruct (SFcompare _ _) as [[]|].
Qed.

Lemma float_cmp_not_nan x y :
  x ≠ nan → y ≠ nan → is_Some (SFcompare (Prim2SF x) (Prim2SF y)).
Proof.
  intros Hx Hy.
  destruct (Prim2SF x) as [| | |] eqn:Ex, (Prim2SF y) as [| | |] eqn:Ey;
    try done; exfalso;
    first [by apply Hx, Prim2SF_nan|by apply Hy, Prim2SF_nan].
Qed.

(** *** Arithmetic that does not raise *)

Lemma mul_float_int q z y :
  Py.float_of_int z = Ok y →
  Py.mul (Py.Float q) (Py.Int z) = Ok (Py.Float (q * y)).
Proof. intros H. unfold Py.mul, Py.arith. cbn. by rewrite H. Qed.

Lemma add_float a b :
  Py.add (Py.Float a) (Py.Float b) = Ok (Py.Float (a + b)).
Proof. reflexivity. Qed.

Lemma sub_float a b :
  Py.sub (Py.Float a) (Py.Float b) = Ok (Py.Float (a - b)).
Proof. reflexivity. Qed.

(** The weights and the scale are exact as floats. *)
Lemma float_of_weights :
  Py.float_of_int 30 = Ok 30%float ∧ Py.float_of_int 50 = Ok 50%float ∧
  Py.float_of_int 20 = Ok 20%float ∧ Py.float_of_int 100 = Ok 100%float.
Proof. by vm_compute. Qed.

(** ** calculate_metrics *)

Lemma float_of_int_Raise z e : Py.float_of_int z = Raise e → e = OverflowError.
Proof.
  unfold Py.float_of_int.
  destruct (binary_normalize _ _ _ _ _); intros; by simplify_eq.
Qed.

Lemma to_float_Raise v e : Py.to_float v = Raise e → e = OverflowError.
Proof. destruct v; [apply float_of_int_Raise|done]. Qed.

Lemma arith_Raise fz ff a b e :
  Py.arith fz ff a b = Raise e → e = OverflowError.
Proof.
  unfold Py.arith. destruct a, b; try done;
    intros [H|(x & _ & [H|(y & _ & H)]%bind_Raise)]%bind_Raise;
    try done; by apply to_float_Raise in H.
Qed.

Lemma int_truediv_Raise a b e :
  b ≠ 0 → Py.int_truediv a b = Raise e → e = OverflowError.
Proof.
  intros Hb. unfold Py.int_truediv.
  destruct (Z.eqb_spec b 0); [done|].
  destruct (SFdiv _ _ _ _); intros; by simplify_eq.
Qed.

Lemma truediv_int_Raise a b e :
  b ≠ 0 → Py.truediv (Py.Int a) (Py.Int b) = Raise e → e = OverflowError.
Proof.
  intros Hb. cbn [Py.truediv].
  destruct (Py.int_truediv a b) eqn:E; [done|].
  intros [= <-]. by apply int_truediv_Raise in E.
Qed.

Lemma rate_Raise n d e : rate n d = Raise e → e = OverflowError.
Proof.
  unfold rate. destruct (Z.ltb_spec 0 d); [|done].
  apply truediv_int_Raise. lia.
Qed.

(** Takes apart a failed run of a sequence of binds. *)
Ltac inv_raise H :=
  repeat match type of H with
  | _ ≫= _ = Raise _ =>
      let a := fresh "v" in let Ha := fresh "Hv" in
      apply bind_Raise in H as [H|(a & Ha & H)]
  end.

Lemma _calculate_engagement_score_Raise opens clicks unsubscribes sent e :
  _calculate_engagement_score opens clicks unsubscribes sent = Raise e →
  e = OverflowError.
Proof.
  unfold _calculate_engagement_score.
  destruct (Z.eqb_spec sent 0) as [|Hs]; [done|]. intros H.
  inv_raise H;
    first [by apply truediv_int_Raise in H
          |by apply arith_Raise in H
          |done].
Qed.

Lemma calculate_metrics_Raise raw e :
  calculate_metrics raw = Raise e → e = OverflowError.
Proof.
  unfold calculate_metrics. intros H.
  inv_raise H;
    first [by apply rate_Raise in H
          |by apply _calculate_engagement_score_Raise in H
          |done].
Qed.

(** A successful run, taken apart. *)
Lemma calculate_metrics_Ok raw m :
  calculate_metrics raw = Ok m →
  ∃ open_rate click_rate click_to_open_rate bounce_rate unsubscribe_rate
    engagement_score,
    rate (count raw "opens") (count raw "sent") = Ok open_rate ∧
    rate (count raw "clicks") (count raw "sent") = Ok click_rate ∧
    rate (count raw "clicks") (count raw "opens") = Ok click_to_open_rate ∧
    rate (count raw "bounces") (count raw "sent") = Ok bounce_rate ∧
    rate (count raw "unsubscribes") (count raw "sent")
      = Ok unsubscribe_rate ∧
    _calculate_engagement_score (count raw "opens") (count raw "clicks")
      (count raw "unsubscribes") (count raw "sent") = Ok engagement_score ∧
    m !! "open_rate" = Some open_rate ∧
    m !! "click_rate" = Some click_rate ∧
    m !! "click_to_open_rate" = Some click_to_open_rate ∧
    m !! "bounce_rate" = Some bounce_rate ∧
    m !! "unsubscribe_rate" = Some unsubscribe_rate ∧
    m !! "engagement_score" = Some engagement_score.
Proof.
  unfold calculate_metrics. fold (count raw "sent") (count raw "opens")
    (count raw "clicks") (count raw "bounces") (count raw "unsubscribes").
  intros H. inv_bind H. injection H as <-.
  exists v, v0, v1, v2, v3, v4.
  split_and!; try done; by simplify_map_eq.
Qed.

Lemma _calculate_engagement_score_returns opens clicks unsubscribes sent :
  Z.abs opens < 2 ^ 1023 → Z.abs clicks < 2 ^ 1023 →
  Z.abs unsubscribes < 2 ^ 1023 →
  ∃ v, _calculate_engagement_score opens clicks unsubscribes sent = Ok v.
Proof.
  intros Ho Hc Hu. unfold _calculate_engagement_score.
  destruct (Z.eqb_spec sent 0) as [|Hs]; [by eexists|].
  cbn [Py.truediv].
  destruct (int_truediv_ok opens sent) as [qo ->]; [done..|].
  destruct (int_truediv_ok clicks sent) as [qc ->]; [done..|].
  destruct (int_truediv_ok unsubscribes sent) as [qu ->]; [done..|].
  destruct float_of_weights as (H30 & H50 & H20 & H100).
  run. rewrite (mul_float_int _ _ _ H30). run.
  rewrite (mul_float_int _ _ _ H50). run.
  rewrite (mul_float_int _ _ _ H20). run.
  rewrite add_float. run. rewrite sub_float. run.
  rewrite (mul_float_int _ _ _ H100). run. by eexists.
Qed.

Lemma rate_returns n d : Z.abs n < 2 ^ 1023 → ∃ v, rate n d = Ok v.
Proof.
  intros Hn. unfold rate. destruct (Z.ltb_spec 0 d); [|by eexists].
  cbn [Py.truediv]. destruct (int_truediv_ok n d) as [q ->]; [lia|done|].
  by eexists.
Qed.

Lemma count_in_range raw key :
  counts_in_range raw → Z.abs (count raw key) < 2 ^ 1023.
Proof.
  intros Hr. unfold count. destruct (raw !! key) as [z|] eqn:E; [|done].
  by apply (Hr key).
Qed.

(** No exception is raised on counts of at most 1023 bits. *)
Lemma calculate_metrics_returns raw :
  counts_in_range raw → ∃ m, calculate_metrics raw = Ok m.
Proof.
  intros Hr. unfold calculate_metrics.
  fold (count raw "sent") (count raw "opens")
    (count raw "clicks") (count raw "bounces") (count raw "unsubscribes").
  pose proof (count_in_range raw "opens" Hr).
  pose proof (count_in_range raw "clicks" Hr).
  pose proof (count_in_range raw "bounces" Hr).
  pose proof (count_in_range raw "unsubscribes" Hr).
  destruct (rate_returns (count raw "opens") (count raw "sent")) as [? ->];
    [done|].
  destruct (rate_returns (count raw "clicks") (count raw "sent")) as [? ->];
    [done|].
  destruct (rate_returns (count raw "clicks") (count raw "opens")) as [? ->];
    [done|].
  destruct (rate_returns (count raw "bounces") (count raw "sent")) as [? ->];
    [done|].
  destruct (rate_returns (count raw "unsubscribes") (count raw "sent"))
    as [? ->]; [done|].
  destruct (_calculate_engagement_score_returns (count raw "opens")
    (count raw "clicks") (count raw "unsubscribes") (count raw "sent"))
    as [? ->]; [done..|].
  cbn. by eexists.
Qed.

Lemma engagement_formula_score opens clicks unsubscribes sent v :
  sent ≠ 0 →
  _calculate_engagement_score opens clicks unsubscribes sent = Ok v →
  engagement_formula opens clicks unsubscribes sent = Ok v.
Proof.
  intros Hs. unfold _calculate_engagement_score, engagement_formula.
  destruct (Z.eqb_spec sent 0) as [|_]; [done|].
  intros H. inv_bind H. unfold binop, lit. run.
  rewrite Hv. run. rewrite Hv0. run. rewrite Hv1. run. rewrite Hv2. run.
  rewrite Hv5. run. rewrite Hv3. run. rewrite Hv4. run. rewrite Hv6. run.
  rewrite Hv7. run. done.
Qed.

(** *** The clamp survives the rounding *)

Lemma cmp_scaled_le m e K :
  e <= 0 → Z.pos m <= K * 2 ^ (- e) → Py.cmp_scaled m e K ≠ Gt.
Proof.
  intros He Hm. unfold Py.cmp_scaled.
  destruct (Z.leb_spec 0 e) as [He'|He']; intros Hgt%Z.compare_gt_iff.
  - replace e with 0 in * by lia. simpl in *. lia.
  - lia.
Qed.

(** A positive finite float from 0 up to the integer [K] of the format. *)
Lemma finite_within m e :
  valid_binary (S754_finite false m e) = true →
  e <= 0 → Z.pos m <= 100 * 2 ^ (- e) →
  within_0_100 (Py.Float (SF2Prim (S754_finite false m e))) = true.
Proof.
  intros Hv He Hm. unfold within_0_100, Py.le, Py.float_cmp_int.
  rewrite Prim2SF_SF2Prim by done.
  apply andb_true_iff. split; apply bool_decide_eq_true.
  - left. f_equal. apply (SF.cmp_scaled_0 m e).
  - pose proof (cmp_scaled_le m e 100 He Hm).
    destruct (Py.cmp_scaled m e 100); [by right|by left|done].
Qed.

(** Every number of hundredths from 0 to 10000 reads back within
    [0, 100]: the quotient by 100 is rounded, and the rounding does not
    pass the integer 100. *)
Lemma of_hundredths_within_0_100 n :
  0 <= n <= 10000 → within_0_100 (Py.Float (of_hundredths n)) = true.
Proof.
  intros Hn. destruct n as [|p|p]; [by vm_compute| |lia].
  destruct (decide (p = 10000%positive)) as [->|Hne]; [by vm_compute|].
  unfold of_hundredths.
  change (Py.SF_of_Z (10 ^ Z.of_nat 2)) with (S754_finite false 100 0).
  pose proof (SF.SFdiv_Z_valid false p false 100) as Hv.
  assert (Z.pos p < 2 ^ 52) as H52.
  { apply Z.le_lt_trans with 10000; [lia|done]. }
  destruct (SF.SFdiv_Z_upper false p false 100 100 H52)
    as [->|(m & e & Hr & He & Hm)]; [lia|by vm_compute|].
  rewrite Hr in *. by apply finite_within.
Qed.

Lemma div_pow2_half_even_bounds m k q :
  0 <= k → 0 <= m < q * 2 ^ k → 0 <= Py.div_pow2_half_even m k <= q.
Proof.
  intros Hk Hm. unfold Py.div_pow2_half_even.
  assert (0 < 2 ^ k) as Hd by (by apply Z.pow_pos_nonneg).
  pose proof (Z.div_mod m (2 ^ k) ltac:(lia)) as Heq.
  pose proof (Z.mod_pos_bound m (2 ^ k) Hd) as Hr.
  assert (0 <= m / 2 ^ k) by (apply Z.div_pos; lia).
  assert (m / 2 ^ k < q) by (apply Z.div_lt_upper_bound; lia).
  destruct (2 * (m mod 2 ^ k) ?= 2 ^ k); [destruct (Z.even _)|..]; lia.
Qed.

(** A float strictly between the integers 0 and [q] has between 0 and
    [q * scale] units of [1 / scale], once rounded. *)
Lemma scaled_half_even_bounds m e q scale :
  0 < scale →
  Py.cmp_scaled m e q = Lt →
  0 <= Py.scaled_half_even (Z.pos m * scale) e <= q * scale.
Proof.
  intros Hs. unfold Py.cmp_scaled, Py.scaled_half_even.
  destruct (Z.leb_spec 0 e) as [He|He]; intros Hlt;
    apply -> Z.compare_lt_iff in Hlt.
  - assert (0 < 2 ^ e) by (by apply Z.pow_pos_nonneg).
    replace (Z.pos m * scale * 2 ^ e) with (Z.pos m * 2 ^ e * scale) by ring.
    split; [repeat apply Z.mul_nonneg_nonneg; lia|].
    apply Z.mul_le_mono_nonneg_r; lia.
  - assert (0 < 2 ^ (- e)) by (apply Z.pow_pos_nonneg; lia).
    apply div_pow2_half_even_bounds; [lia|].
    split; [apply Z.mul_nonneg_nonneg; lia|].
    replace (q * scale * 2 ^ (- e)) with (q * 2 ^ (- e) * scale) by ring.
    apply Z.mul_lt_mono_pos_r; lia.
Qed.

Lemma float_round_within x :
  Py.gt (Py.Float x) (Py.Int 0) = true →
  Py.lt (Py.Float x) (Py.Int 100) = true →
  within_0_100 (Py.Float (Py.float_round x 2)) = true.
Proof.
  unfold Py.gt, Py.lt, Py.float_round, Py.float_cmp_int.
  intros H0%bool_decide_eq_true H100%bool_decide_eq_true.
  destruct (Prim2SF x) as [s|s| |[] m e]; try done.
  - by destruct s.
  - change (- 0) with 0 in H0. rewrite SF.cmp_scaled_0 in H0. discriminate H0.
  - injection H100 as H100.
    pose proof (scaled_half_even_bounds m e 100 (10 ^ Z.of_nat 2)
                  eq_refl H100) as Hn.
    apply (of_hundredths_within_0_100 _ Hn).
Qed.

(** The clamped and rounded score is within [0, 100], whatever the raw
    score: an [int], a [float], an infinity or a NaN. *)
Lemma clamp_round_within raw :
  within_0_100 (Py.round (Py.max (Py.Int 0) (Py.min (Py.Int 100) raw)) 2)
    = true.
Proof.
  unfold Py.min.
  destruct (Py.lt raw (Py.Int 100)) eqn:H100; [|done].
  unfold Py.max. destruct (Py.gt raw (Py.Int 0)) eqn:H0; [|done].
  destruct raw as [z|x]; [|by apply float_round_within].
  unfold within_0_100. cbn in *. apply andb_true_iff. lia.
Qed.

Lemma _calculate_engagement_score_within opens clicks unsubscribes sent v :
  _calculate_engagement_score opens clicks unsubscribes sent = Ok v →
  within_0_100 v = true.
Proof.
  unfold _calculate_engagement_score.
  destruct (sent =? 0); [by intros [= <-]|].
  intros H. inv_bind H. injection H as <-. apply clamp_round_within.
Qed.

Lemma rate_zero_denominator n : rate n 0 = Ok (Py.Int 0).
Proof. reflexivity. Qed.

Lemma _calculate_engagement_score_unsent opens clicks unsubscribes :
  _calculate_engagement_score opens clicks unsubscribes 0
    = Ok (Py.Float 0).
Proof. reflexivity. Qed.

(** C1: the engagement score [calculate_metrics] returns is, for
    [sent > 0], the value of
    [round(max(0, min(100, ((opens/sent)*30 + (clicks/sent)*50
    - (unsubscribes/sent)*20) * 100)), 2)], the weighted sum multiplied by
    a further 100 before the clamp and the rounding; for [sent = 0] it is
    exactly [0.0].  A score is returned for all counts of at most 1023
    bits. *)
Theorem calculate_metrics_engagement_score (raw : gmap string Z) :
  let sent := count raw "sent" in
  let opens := count raw "opens" in
  let clicks := count raw "clicks" in
  let unsubscribes := count raw "unsubscribes" in
  (counts_in_range raw → ∃ m, calculate_metrics raw = Ok m) ∧
  ∀ m, calculate_metrics raw = Ok m →
    ∃ v, m !! "engagement_score" = Some v ∧
      (0 < sent → engagement_formula opens clicks unsubscribes sent = Ok v) ∧
      (sent = 0 → v = Py.Float 0).
Proof.
  cbv zeta. split; [apply calculate_metrics_returns|].
  intros m (r1 & r2 & r3 & r4 & r5 & v & _ & _ & _ & _ & _ & Hv & Hm)
    %calculate_metrics_Ok.
  exists v. split; [apply Hm|]. split.
  - intros Hs. apply engagement_formula_score; [lia|done].
  - intros Hs. rewrite Hs, _calculate_engagement_score_unsent in Hv.
    by injection Hv.
Qed.

(** C2: the engagement score [calculate_metrics] returns is within
    [0, 100], bounds included, for all integer counts: the clamp survives the
    rounding.  A score is returned for all counts of at most 1023 bits. *)
Theorem calculate_metrics_score_within (raw : gmap string Z) :
  (counts_in_range raw → ∃ m, calculate_metrics raw = Ok m) ∧
  ∀ m, calculate_metrics raw = Ok m →
    ∃ v, m !! "engagement_score" = Some v ∧ within_0_100 v = true.
Proof.
  split; [apply calculate_metrics_returns|].
  intros m (r1 & r2 & r3 & r4 & r5 & v & _ & _ & _ & _ & _ & Hv & Hm)
    %calculate_metrics_Ok.
  exists v. split; [apply Hm|].
  by apply _calculate_engagement_score_within in Hv.
Qed.

(** C7: no division of [calculate_metrics] is by zero, whatever the
    counts; on [sent = 0] the open, click, bounce and unsubscribe rates and
    the engagement score are 0, and on [opens = 0] the click-to-open rate is
    0 whatever [clicks] is. *)
Theorem calculate_metrics_guarded (raw : gmap string Z) :
  calculate_metrics raw ≠ Raise ZeroDivisionError ∧
  (counts_in_range raw → ∃ m, calculate_metrics raw = Ok m) ∧
  ∀ m, calculate_metrics raw = Ok m →
    (count raw "sent" = 0 →
       m !! "open_rate" = Some (Py.Int 0) ∧
       m !! "click_rate" = Some (Py.Int 0) ∧
       m !! "bounce_rate" = Some (Py.Int 0) ∧
       m !! "unsubscribe_rate" = Some (Py.Int 0) ∧
       m !! "engagement_score" = Some (Py.Float 0)) ∧
    (count raw "opens" = 0 → m !! "click_to_open_rate" = Some (Py.Int 0)).
Proof.
  split; [by intros ?%calculate_metrics_Raise|].
  split; [apply calculate_metrics_returns|].
  intros m (r1 & r2 & r3 & r4 & r5 & v & H1 & H2 & H3 & H4 & H5 & Hv & Hm)
    %calculate_metrics_Ok.
  destruct Hm as (-> & -> & -> & -> & -> & ->). split.
  - intros Hs. rewrite Hs in *.
    rewrite rate_zero_denominator in H1, H2, H4, H5.
    rewrite _calculate_engagement_score_unsent in Hv. by simplify_eq.
  - intros Ho. rewrite Ho, rate_zero_denominator in H3. by simplify_eq.
Qed.

Lemma scenario_counts_in_range : counts_in_range scenario_counts.
Proof.
  unfold counts_in_range, scenario_counts.
  repeat apply map_Forall_insert_2; [done..|]. apply map_Forall_empty.
Qed.

Lemma calculate_metrics_engagement_score_witness :
  ∃ m v, calculate_metrics scenario_counts = Ok m ∧
         m !! "engagement_score" = Some v ∧
         engagement_formula 30 12 1 100 = Ok v.
Proof.
  destruct (calculate_metrics_engagement_score scenario_counts)
    as [Hret Hscore].
  destruct (Hret scenario_counts_in_range) as [m Hm].
  destruct (Hscore m Hm) as (v & Hv & Hformula & _).
  exists m, v. split_and!; [done..|]. by apply Hformula.
Defined.

Lemma calculate_metrics_score_within_witness :
  ∃ m v, calculate_metrics scenario_counts = Ok m ∧
         m !! "engagement_score" = Some v ∧ within_0_100 v = true.
Proof.
  destruct (calculate_metrics_score_within scenario_counts) as [Hret Hin].
  destruct (Hret scenario_counts_in_range) as [m Hm].
  destruct (Hin m Hm) as (v & Hv & Hw).
  exists m, v. exact (conj Hm (conj Hv Hw)).
Defined.

(** Nothing was sent, nothing was opened. *)
Lemma calculate_metrics_guarded_witness :
  ∃ m, calculate_metrics (<["clicks" := 3]> ∅) = Ok m ∧
       m !! "open_rate" = Some (Py.Int 0) ∧
       m !! "engagement_score" = Some (Py.Float 0) ∧
       m !! "click_to_open_rate" = Some (Py.Int 0).
Proof.
  destruct (calculate_metrics_guarded (<["clicks" := 3]> ∅))
    as (_ & Hret & Hzero).
  destruct Hret as [m Hm].
  { apply map_Forall_insert_2; [done|apply map_Forall_empty]. }
  destruct (Hzero m Hm) as [Hsent Hopens].
  destruct (Hsent eq_refl) as (? & _ & _ & _ & ?).
  exists m. split_and!; [done..|]. by apply Hopens.
Defined.

(** ** compare_to_benchmarks *)

(** On floats other than NaN, the sign of the difference is the comparison
    of the operands. *)
Lemma sign_status_float x c sc mc ec :
  x ≠ nan → Prim2SF c = S754_finite sc mc ec →
  status_spec (sign_status (Py.Float (x - c))) (Py.Float x) (Py.Float c).
Proof.
  intros Hx Hc. unfold status_spec, sign_status, Py.gt, Py.lt, Py.eq.
  rewrite (float_sub_cmp x c sc mc ec Hx Hc).
  rewrite float_gtb_cmp, float_ltb_cmp, float_eqb_cmp.
  assert (c ≠ nan) as Hcn by (intros ->; by vm_compute in Hc).
  destruct (float_cmp_not_nan x c Hx Hcn) as [[] ->]; by cbn.
Qed.

(** An integer against a float strictly between 0 and 1: the integer
    converted compares as the integer itself does. *)
Lemma float_of_int_cmp_small z y c :
  small_positive c → Py.float_of_int z = Ok y →
  y ≠ nan ∧
  SFcompare (Prim2SF y) (Prim2SF c) = CompOpp <$> Py.float_cmp_int c z.
Proof.
  intros (mc & ec & Hc & Hec) Hy%float_of_int_Ok.
  pose proof (Prim2SF_valid c) as Hv. rewrite Hc in Hv.
  apply andb_true_iff in Hv as [(_ & Hmc & _)%SF.canonical_bounds _].
  assert (2 ^ 53 <= 2 ^ (- ec)) as Hpow by (apply Z.pow_le_mono_r; lia).
  unfold Py.float_cmp_int. rewrite Hc. unfold Py.cmp_scaled.
  destruct (Z.leb_spec 0 ec) as [?|_]; [lia|].
  destruct z as [|p|p].
  - split; [intros ->; by vm_compute in Hy|]. by rewrite Hy.
  - destruct Hy as (m & e & HS & He).
    split; [intros ->; by vm_compute in HS|].
    rewrite HS. cbn [SFcompare fmap option_fmap option_map].
    destruct (Z.compare_spec e ec) as [?|?|?]; [lia|lia|].
    f_equal. symmetry. apply CompOpp_iff. cbn [CompOpp].
    apply Z.compare_lt_iff. nia.
  - destruct Hy as (m & e & HS).
    split; [intros ->; by vm_compute in HS|].
    rewrite HS. cbn [SFcompare fmap option_fmap option_map].
    f_equal. symmetry. apply CompOpp_iff. cbn [CompOpp].
    apply Z.compare_gt_iff. nia.
Qed.

(** The same for an [int] value against a benchmark between 0 and 1. *)
Lemma sign_status_int z y c :
  small_positive c → Py.float_of_int z = Ok y →
  status_spec (sign_status (Py.Float (y - c))) (Py.Int z) (Py.Float c).
Proof.
  intros Hc Hy.
  destruct (float_of_int_cmp_small z y c Hc Hy) as (Hnan & Hcmp).
  destruct Hc as (mc & ec & Hc & Hec).
  unfold status_spec, sign_status, Py.gt, Py.lt, Py.eq.
  rewrite (float_sub_cmp y c false mc ec Hnan Hc).
  rewrite Hcmp. unfold Py.float_cmp_int. rewrite Hc.
  destruct (Py.cmp_scaled mc ec z); by cbn.
Qed.

(** The benchmarks are floats strictly between 0 and 1. *)
Lemma benchmarks_small metric c :
  (metric, c) ∈ benchmarks →
  small_positive c ∧ Py.gt (Py.Float c) (Py.Int 0) = true
  ∧ (c =? 0)%float = false.
Proof.
  unfold benchmarks. rewrite !elem_of_cons, elem_of_nil.
  intros [[= -> ->]|[[= -> ->]|[[= -> ->]|[]]]];
    (split; [eexists _, _; split; [by vm_compute|lia]|by vm_compute]).
Qed.

(** A successful comparison of one metric. *)
Lemma compare_metric_Ok metrics metric c e :
  (metric, c) ∈ benchmarks →
  compare_metric metrics metric c = Ok e →
  actual e = get0 metrics metric ∧ benchmark e = c ∧
  Py.sub (actual e) (Py.Float c) = Ok (difference e) ∧
  (Ok (difference e) / Ok (Py.Float c) * lit 100)%py
    = Ok (difference_percent e) ∧
  bench_status e = sign_status (difference e).
Proof.
  intros (_ & Hpos & _)%benchmarks_small. unfold compare_metric.
  rewrite Hpos. intros H. inv_bind H. injection H as <-. cbn.
  by split_and!.
Qed.

Lemma compare_metric_status metrics metric c e :
  (metric, c) ∈ benchmarks →
  compare_metric metrics metric c = Ok e →
  actual e ≠ Py.Float nan →
  status_spec (bench_status e) (actual e) (Py.Float c).
Proof.
  intros Hin He Hnan.
  destruct (compare_metric_Ok _ _ _ _ Hin He) as (_ & _ & Hd & _ & ->).
  apply benchmarks_small in Hin as (Hc & _).
  destruct (actual e) as [z|x].
  - unfold Py.sub, Py.arith in Hd. cbn in Hd.
    destruct (Py.float_of_int z) as [y|] eqn:Hy; [|done].
    injection Hd as <-. by apply sign_status_int.
  - injection Hd as <-. destruct Hc as (mc & ec & Hc & _).
    apply (sign_status_float x c false mc ec); [|done].
    by intros ->.
Qed.

Lemma compare_metric_returns metrics metric c :
  (metric, c) ∈ benchmarks →
  convertible (get0 metrics metric) →
  ∃ e, compare_metric metrics metric c = Ok e.
Proof.
  intros (_ & Hpos & Hnz)%benchmarks_small Hconv. unfold compare_metric.
  rewrite Hpos.
  assert (∃ d, Py.sub (get0 metrics metric) (Py.Float c) = Ok (Py.Float d))
    as [d ->].
  { destruct (get0 metrics metric) as [z|x]; [|by eexists].
    destruct (float_of_int_ok z Hconv) as (y & Hy & _).
    unfold Py.sub, Py.arith. cbn. rewrite Hy. by eexists. }
  run. unfold Py.truediv. cbn [Py.to_float]. run.
  unfold Py.float_truediv. rewrite Hnz. run.
  destruct float_of_weights as (_ & _ & _ & H100).
  rewrite (mul_float_int _ _ _ H100). run. by eexists.
Qed.

Lemma compare_to_benchmarks_Ok metrics cmp :
  compare_to_benchmarks metrics = Ok cmp →
  ∀ metric c, (metric, c) ∈ benchmarks →
    ∃ e, performance cmp !! metric = Some e ∧
         compare_metric metrics metric c = Ok e.
Proof.
  unfold compare_to_benchmarks. cbn [foldl benchmarks]. run.
  intros H. inv_binds. subst. cbn [performance].
  intros metric c. unfold benchmarks.
  rewrite !elem_of_cons, elem_of_nil.
  intros [[= -> ->]|[[= -> ->]|[[= -> ->]|[]]]];
    eexists; (split; [by simplify_map_eq|done]).
Qed.

Lemma compare_to_benchmarks_returns metrics :
  (∀ metric c, (metric, c) ∈ benchmarks → convertible (get0 metrics metric)) →
  ∃ cmp, compare_to_benchmarks metrics = Ok cmp.
Proof.
  intros Hconv. unfold compare_to_benchmarks. cbn [foldl benchmarks]. run.
  destruct (compare_metric_returns metrics "open_rate" 0.21) as [e1 ->];
    [set_solver|apply (Hconv _ 0.21%float); set_solver|].
  run.
  destruct (compare_metric_returns metrics "click_rate" 0.10) as [e2 ->];
    [set_solver|apply (Hconv _ 0.10%float); set_solver|].
  run.
  destruct (compare_metric_returns metrics "unsubscribe_rate" 0.005)
    as [e3 ->];
    [set_solver|apply (Hconv _ 0.005%float); set_solver|].
  run. by eexists.
Qed.

(** Off the NaN the two readings of the status agree. *)
Lemma status_spec_or_nan status actual benchmark :
  actual ≠ Py.Float nan →
  status_spec status actual benchmark →
  status_or_nan status actual benchmark.
Proof.
  intros Hn (Ha & Hb & Hat). split_and!; [done..|].
  rewrite Hat. split; [by left|by intros [?|?]].
Qed.

(** A NaN is neither above nor below a benchmark, and is reported "at". *)
Lemma sign_status_nan c :
  status_or_nan (sign_status (Py.Float (nan - c)))
    (Py.Float nan) (Py.Float c).
Proof.
  unfold status_or_nan, sign_status, Py.gt, Py.lt, Py.eq.
  rewrite float_cmp_int_0, FloatAxioms.sub_spec.
  rewrite float_gtb_cmp, float_ltb_cmp, float_eqb_cmp.
  change (Prim2SF nan) with S754_nan. cbn.
  split_and!; [done..|]. split; [by right|done].
Qed.

Lemma compare_metric_status_or_nan metrics metric c e :
  (metric, c) ∈ benchmarks →
  compare_metric metrics metric c = Ok e →
  status_or_nan (bench_status e) (actual e) (Py.Float c).
Proof.
  intros Hin He.
  destruct (actual e) as [z|x] eqn:Ea.
  - rewrite <- Ea. apply status_spec_or_nan; [by rewrite Ea|].
    apply (compare_metric_status metrics metric); [done..|by rewrite Ea].
  - destruct (Prim2SF x) as [s|s| |s m ex] eqn:Ex;
      try (rewrite <- Ea; apply status_spec_or_nan;
           [rewrite Ea; intros [= ->]; by vm_compute in Ex|];
           apply (compare_metric_status metrics metric); [done..|];
           rewrite Ea; intros [= ->]; by vm_compute in Ex).
    apply Prim2SF_nan in Ex as ->.
    destruct (compare_metric_Ok _ _ _ _ Hin He) as (_ & _ & Hd & _ & ->).
    rewrite Ea in Hd. injection Hd as <-. apply sign_status_nan.
Qed.

(** C6, as the specification states it, fails: an open rate that is not a
    number is reported "at" its benchmark, which it does not equal. *)
Lemma compare_to_benchmarks_nan_at :
  (fun cmp =>
     (fun e => (bench_status e,
                Py.eq (actual e) (Py.Float (benchmark e))))
       <$> performance cmp !! "open_rate")
    <$> compare_to_benchmarks nan_metrics
  = Ok (Some ("at", false)).
Proof. by vm_compute. Qed.

(** C6, amended: for each benchmarked metric the entry reports the metric
    read from the input (0 when absent), its benchmark, the difference
    [actual - benchmark] and [difference / benchmark * 100]; for every
    metric, a NaN included, the status is "above" iff the metric is greater
    than the benchmark and "below" iff it is smaller, and it is "at" iff
    the metric equals the benchmark or is a NaN.  An entry is returned for
    every metric that converts to a float. *)
Theorem compare_to_benchmarks_entries (metrics : num_dict) :
  ((∀ metric c, (metric, c) ∈ benchmarks →
      convertible (get0 metrics metric)) →
   ∃ cmp, compare_to_benchmarks metrics = Ok cmp) ∧
  ∀ cmp, compare_to_benchmarks metrics = Ok cmp →
    ∀ metric c, (metric, c) ∈ benchmarks →
      ∃ e, performance cmp !! metric = Some e ∧
        actual e = get0 metrics metric ∧ benchmark e = c ∧
        Py.sub (actual e) (Py.Float c) = Ok (difference e) ∧
        (Ok (difference e) / Ok (Py.Float c) * lit 100)%py
          = Ok (difference_percent e) ∧
        status_or_nan (bench_status e) (actual e) (Py.Float c).
Proof.
  split; [apply compare_to_benchmarks_returns|].
  intros cmp Hcmp metric c Hin.
  destruct (compare_to_benchmarks_Ok _ _ Hcmp _ _ Hin) as (e & Hlook & He).
  exists e. split; [done|].
  destruct (compare_metric_Ok _ _ _ _ Hin He) as (Ha & Hb & Hd & Hp & _).
  split_and!; try done.
  by apply (compare_metric_status_or_nan metrics metric).
Qed.

Lemma strong_metrics_convertible metric c :
  (metric, c) ∈ benchmarks → convertible (get0 strong_metrics metric).
Proof.
  unfold benchmarks. rewrite !elem_of_cons, elem_of_nil.
  by intros [[= -> ->]|[[= -> ->]|[[= -> ->]|[]]]].
Qed.

(** An open rate of 0.35 is above its benchmark, an absent unsubscribe rate
    is below. *)
Lemma compare_to_benchmarks_entries_witness :
  ∃ cmp e1 e2,
    compare_to_benchmarks strong_metrics = Ok cmp ∧
    performance cmp !! "open_rate" = Some e1 ∧
    status_or_nan (bench_status e1) (Py.Float 0.35) (Py.Float 0.21) ∧
    performance cmp !! "unsubscribe_rate" = Some e2 ∧
    status_or_nan (bench_status e2) (Py.Int 0) (Py.Float 0.005).
Proof.
  destruct (compare_to_benchmarks_entries strong_metrics) as [Hret Hent].
  destruct (Hret strong_metrics_convertible) as [cmp Hcmp].
  destruct (Hent cmp Hcmp "open_rate" 0.21%float)
    as (e1 & H1 & Ha1 & _ & _ & _ & Hs1); [set_solver|].
  destruct (Hent cmp Hcmp "unsubscribe_rate" 0.005%float)
    as (e2 & H2 & Ha2 & _ & _ & _ & Hs2); [set_solver|].
  exists cmp, e1, e2. rewrite Ha1 in Hs1. rewrite Ha2 in Hs2.
  exact (conj Hcmp (conj H1 (conj Hs1 (conj H2 Hs2)))).
Defined.

(** ** identify_trends *)

(** C8: a history of fewer than two records gives the report with status
    "insufficient_data" and no [trends] entry; no exception is raised. *)
Theorem identify_trends_insufficient now (h : list history_record) :
  (length h < 2)%nat →
  ∃ r, identify_trends now h = Ok r ∧
       status r = "insufficient_data" ∧ trends r = None.
Proof.
  intros Hlen. unfold identify_trends.
  destruct (Nat.ltb_spec (length h) 2) as [_|Hge]; [|lia].
  eexists. split; [reflexivity|]. done.
Qed.

Lemma identify_trends_insufficient_witness :
  ∃ r, identify_trends "2024-01-01T00:00:00"
         [ {| persona := Some "founders"; fields := ∅ |} ] = Ok r ∧
       status r = "insufficient_data" ∧ trends r = None.
Proof. apply identify_trends_insufficient. simpl. lia. Defined.

Section dict.
Context {A : Type}.
Implicit Types (d : list (string * list A)) (k p : string) (x : A).

Lemma dict_get_append d k x p :
  dict_get (dict_append d k x) p =
    if decide (p = k) then Some (default [] (dict_get d k) ++ [x])
    else dict_get d p.
Proof.
  induction d as [|[k' xs] d IH]; simpl.
  - repeat case_decide; simplify_eq; done.
  - destruct (decide (k' = k)) as [->|Hk]; simpl.
    + repeat case_decide; simplify_eq; done.
    + rewrite IH. repeat case_decide; simplify_eq; done.
Qed.

Lemma dict_append_keys d k x :
  (dict_append d k x).*1 = if decide (k ∈ d.*1) then d.*1 else d.*1 ++ [k].
Proof.
  induction d as [|[k' xs] d IH].
  - destruct (decide (k ∈ ([] : list (string * list A)).*1)) as [H|H];
      [by apply elem_of_nil in H|done].
  - cbn [dict_append]. rewrite fmap_cons. cbn [fst].
    destruct (decide (k' = k)) as [->|Hk].
    + destruct (decide (k ∈ k :: d.*1)) as [H|H]; [done|].
      exfalso. apply H, list_elem_of_here.
    + rewrite fmap_cons, IH. cbn [fst].
      destruct (decide (k ∈ d.*1)) as [Hin|Hin],
        (decide (k ∈ k' :: d.*1)) as [Hin'|Hin']; try done.
      * exfalso. apply Hin'. by apply list_elem_of_further.
      * exfalso. apply elem_of_cons in Hin' as [?|?]; by simplify_eq.
Qed.

Lemma dict_append_NoDup d k x :
  NoDup d.*1 → NoDup (dict_append d k x).*1.
Proof.
  intros Hd. rewrite dict_append_keys. case_decide as Hk; [done|].
  apply NoDup_app. split_and!; [done| |apply NoDup_singleton].
  intros y Hy Hy'. apply list_elem_of_singleton in Hy'. by subst.
Qed.
End dict.

Lemma dict_get_elem_of {B} (d : list (string * B)) k v :
  NoDup d.*1 → (k, v) ∈ d ↔ dict_get d k = Some v.
Proof.
  induction d as [|[k' v'] d IH]; simpl; intros Hd.
  - split; [intros H; by apply elem_of_nil in H|done].
  - apply NoDup_cons in Hd as [Hk' Hd].
    rewrite elem_of_cons, IH by done.
    destruct (decide (k' = k)) as [->|Hne].
    + split; [intros [?|Hin]; [by simplify_eq|]|intros; left; by simplify_eq].
      exfalso. apply Hk'. apply (IH Hd) in Hin.
      apply list_elem_of_fmap. by exists (k, v).
    + split; [intros [?|?]; [by simplify_eq|done]|auto].
Qed.

Lemma group_by_persona_snoc h r :
  group_by_persona (h ++ [r]) =
    dict_append (group_by_persona h) (persona_of r) r.
Proof. unfold group_by_persona. by rewrite foldl_app. Qed.

Lemma group_by_persona_NoDup h : NoDup (group_by_persona h).*1.
Proof.
  induction h as [|r h IH] using rev_ind; [constructor|].
  rewrite group_by_persona_snoc. by apply dict_append_NoDup.
Qed.

(** The grouping loop leaves under each persona its records, in the
    caller's order, and no key for a persona without records. *)
Lemma group_by_persona_get h p :
  dict_get (group_by_persona h) p =
    match persona_group p h with
    | [] => None
    | g => Some g
    end.
Proof.
  unfold persona_group.
  induction h as [|r h IH] using rev_ind; [done|].
  rewrite group_by_persona_snoc, dict_get_append, filter_app.
  destruct (decide (p = persona_of r)) as [->|Hne].
  - rewrite IH, filter_cons_True by done. simpl.
    by destruct (filter _ h).
  - rewrite IH, filter_cons_False by done. simpl.
    by rewrite app_nil_r.
Qed.

Lemma dict_get_None {B} (d : list (string * B)) k :
  k ∉ d.*1 → dict_get d k = None.
Proof.
  induction d as [|[k' v] d IH]; [done|].
  rewrite fmap_cons, not_elem_of_cons. cbn [fst dict_get].
  intros [Hne Hk]. destruct (decide (k' = k)); [by subst|auto].
Qed.

Lemma collect_trends_foldl d : collect_trends d = foldl collect_step (Ok ∅) d.
Proof. reflexivity. Qed.

Lemma collect_step_Raise e item : collect_step (Raise e) item = Raise e.
Proof. by destruct item. Qed.

(** What the loop leaves in [trends]: an entry for each key of [by_persona]
    with at least two records, and nothing new for the other keys. *)
Lemma collect_foldl_lookup d t0 t p :
  NoDup d.*1 →
  foldl collect_step (Ok t0) d = Ok t →
  match dict_get d p with
  | None => t !! p = t0 !! p
  | Some g =>
      if (length g <? 2)%nat then t !! p = t0 !! p
      else ∃ e, analyze_records g = Ok e ∧ t !! p = Some e
  end.
Proof.
  revert t0. induction d as [|[k g] d IH]; intros t0 Hd Hfold.
  - simpl in *. by simplify_eq.
  - rewrite fmap_cons in Hd. apply NoDup_cons in Hd as [Hk Hd].
    cbn [foldl collect_step fst mbind result_bind] in Hfold.
    cbn [dict_get].
    destruct (length g <? 2)%nat eqn:Hlen.
    + specialize (IH _ Hd Hfold).
      destruct (decide (k = p)) as [->|Hne]; [|done].
      rewrite Hlen. by rewrite (dict_get_None d p) in IH.
    + destruct (analyze_records g) as [e|err] eqn:He; cbn in Hfold.
      * specialize (IH _ Hd Hfold).
        destruct (decide (k = p)) as [->|Hne].
        -- rewrite Hlen. rewrite (dict_get_None d p) in IH by done.
           exists e. by rewrite IH, lookup_insert_eq.
        -- rewrite lookup_insert_ne in IH by done. exact IH.
      * rewrite foldl_Raise in Hfold by apply collect_step_Raise. done.
Qed.

(** The loop raises only when the analysis of a group does. *)
Lemma collect_foldl_total d t0 :
  (∀ k g, (k, g) ∈ d → (2 <= length g)%nat →
          ∃ e, analyze_records g = Ok e) →
  ∃ t, foldl collect_step (Ok t0) d = Ok t.
Proof.
  revert t0. induction d as [|[k g] d IH]; intros t0 Hall.
  - by exists t0.
  - cbn [foldl collect_step mbind result_bind].
    assert (∀ k g, (k, g) ∈ d → (2 <= length g)%nat →
                   ∃ e, analyze_records g = Ok e) as Hall'
      by (intros k' g' ?; apply (Hall k' g'); by apply list_elem_of_further).
    destruct (Nat.ltb_spec (length g) 2) as [Hlt|Hge]; [by apply IH|].
    destruct (Hall k g) as [e ->]; [apply list_elem_of_here|done|].
    cbn. by apply IH.
Qed.

Lemma mean_of_mean_rate key records n :
  n = length records → mean_of key records n = mean_rate key records.
Proof. by intros ->. Qed.

(** The entry computed for a group states the means, trends and changes
    the specification describes. *)
Lemma analyze_records_spec g e :
  analyze_records g = Ok e → trend_entry_spec g e.
Proof.
  unfold analyze_records, trend_entry_spec. intros H.
  assert (length g / 2 <= length g)%nat as Hmid
    by (apply Nat.Div0.div_le_upper_bound; lia).
  rewrite !(mean_of_mean_rate _ g) in H by done.
  rewrite !(mean_of_mean_rate _ (take _ g)) in H
    by (by rewrite length_take_le).
  rewrite !(mean_of_mean_rate _ (drop _ g)) in H by (by rewrite length_drop).
  inv_bind H. injection H as <-. cbn.
  split_and!; [done..|].
  by exists v1, v2, v3, v4.
Qed.

Lemma group_by_persona_elem_of h k g :
  (k, g) ∈ group_by_persona h → g = persona_group k h.
Proof.
  intros Hin.
  apply dict_get_elem_of in Hin; [|apply group_by_persona_NoDup].
  rewrite group_by_persona_get in Hin.
  destruct (persona_group k h); by simplify_eq.
Qed.

(** The [trends] map of a successful run, persona by persona. *)
Lemma collect_trends_lookup h t p :
  collect_trends (group_by_persona h) = Ok t →
  if (length (persona_group p h) <? 2)%nat then t !! p = None
  else ∃ e, analyze_records (persona_group p h) = Ok e ∧ t !! p = Some e.
Proof.
  intros Hc. rewrite collect_trends_foldl in Hc.
  apply (collect_foldl_lookup _ _ _ p) in Hc; [|apply group_by_persona_NoDup].
  rewrite group_by_persona_get, lookup_empty in Hc.
  by destruct (persona_group p h).
Qed.

Lemma identify_trends_success now h :
  (2 <= length h)%nat →
  identify_trends now h =
    trends ← collect_trends (group_by_persona h);
    Ok {| status := "success"; message := None;
          personas_analyzed := Some (size trends);
          trends := Some trends; analyzed_at := Some now |}.
Proof.
  intros Hlen. unfold identify_trends.
  by destruct (Nat.ltb_spec (length h) 2) as [?|_]; [lia|].
Qed.

(** C9: on a history of at least two records in which no persona has two
    records, the report has status "success", zero personas analysed and
    an empty [trends] map; it is not the "insufficient_data" report. *)
Theorem identify_trends_no_group now (h : list history_record) :
  (2 <= length h)%nat →
  (∀ p, (length (persona_group p h) < 2)%nat) →
  ∃ r, identify_trends now h = Ok r ∧
       status r = "success" ∧ personas_analyzed r = Some 0%nat ∧
       trends r = Some ∅.
Proof.
  intros Hlen Hsmall. rewrite identify_trends_success by done.
  destruct (collect_foldl_total (group_by_persona h) ∅) as [t Ht].
  { intros k g Hin Hg. apply group_by_persona_elem_of in Hin as ->.
    specialize (Hsmall k). lia. }
  rewrite <- collect_trends_foldl in Ht. rewrite Ht. cbn.
  assert (t = ∅) as ->.
  { apply map_eq. intros p. rewrite lookup_empty.
    pose proof (collect_trends_lookup h t p Ht) as Hp.
    destruct (Nat.ltb_spec (length (persona_group p h)) 2) as [_|Hge];
      [done|]. specialize (Hsmall p). lia. }
  eexists. split; [reflexivity|]. by rewrite map_size_empty.
Qed.

Lemma two_personas_small p : (length (persona_group p two_personas) < 2)%nat.
Proof.
  unfold persona_group, two_personas.
  rewrite !filter_cons, filter_nil. unfold persona_of. cbn [persona default].
  repeat case_decide; simplify_eq; simpl; lia.
Qed.

Lemma identify_trends_no_group_witness :
  ∃ r, identify_trends "2024-01-01T00:00:00" two_personas = Ok r ∧
       status r = "success" ∧ personas_analyzed r = Some 0%nat ∧
       trends r = Some ∅.
Proof.
  apply identify_trends_no_group; [simpl; lia|apply two_personas_small].
Defined.

(** *** Histories of float rates raise nothing *)

Lemma add_zero_or_float a v :
  zero_or_float a → zero_or_float v →
  ∃ s, Py.add a v = Ok s ∧ zero_or_float s.
Proof.
  intros [->|[x ->]] [->|[y ->]]; eexists; (split; [reflexivity|]);
    first [by left|by right; eexists].
Qed.

Lemma sum_zero_or_float vs :
  Forall zero_or_float vs → ∃ s, Py.sum vs = Ok s ∧ zero_or_float s.
Proof.
  unfold Py.sum. assert (zero_or_float (Py.Int 0)) as Ha by (by left).
  revert Ha. generalize (Py.Int 0).
  induction vs as [|v vs IH]; intros a Ha Hvs; [by exists a|].
  apply Forall_cons in Hvs as [Hv Hvs]. cbn [foldl]. run.
  destruct (add_zero_or_float a v Ha Hv) as (s & -> & Hs). by apply IH.
Qed.

(** Division by a count of records. *)
Lemma truediv_count s n :
  zero_or_float s → 0 < n < 2 ^ 1023 →
  ∃ x, Py.truediv s (Py.Int n) = Ok (Py.Float x).
Proof.
  intros [->|[x ->]] Hn.
  - cbn [Py.truediv]. destruct (int_truediv_ok 0 n) as [q ->]; [lia|done|].
    by eexists.
  - destruct (float_of_int_ok n) as (y & Hy & _); [lia|].
    pose proof (float_of_int_Ok n y Hy) as HS.
    destruct n as [|p|p]; [lia| |lia]. destruct HS as (m & e & HS & _).
    unfold Py.truediv. cbn [Py.to_float]. run. rewrite Hy. run.
    unfold Py.float_truediv.
    rewrite float_eqb_cmp, HS. by eexists.
Qed.

Lemma rate_of_zero_or_float key r :
  map_Forall (fun _ v => ∃ x, v = Py.Float x) (fields r) →
  zero_or_float (rate_of key r).
Proof.
  intros Hr. unfold rate_of, get0.
  destruct (fields r !! key) as [v|] eqn:E; [right; by apply (Hr key)|].
  by left.
Qed.

Lemma mean_rate_returns key records :
  float_rates records →
  0 < Z.of_nat (length records) < 2 ^ 1023 →
  ∃ x, mean_rate key records = Ok (Py.Float x).
Proof.
  intros Hr Hn. unfold mean_rate.
  destruct (sum_zero_or_float (map (rate_of key) records)) as (s & -> & Hs).
  { apply Forall_map. eapply Forall_impl; [exact Hr|].
    intros r. apply rate_of_zero_or_float. }
  run. by apply truediv_count.
Qed.

Lemma analyze_records_returns records :
  float_rates records →
  (2 <= length records)%nat → Z.of_nat (length records) < 2 ^ 1023 →
  ∃ e, analyze_records records = Ok e.
Proof.
  intros Hr Hlen Hbig. unfold analyze_records.
  set (n := length records) in *. set (mid := (n / 2)%nat).
  assert (1 <= mid ∧ mid < n)%nat as [Hmid1 Hmid2].
  { subst mid. split.
    - apply Nat.div_le_lower_bound; lia.
    - apply Nat.div_lt; lia. }
  assert (float_rates (take mid records)) as Hrt by (by apply Forall_take).
  assert (float_rates (drop mid records)) as Hrd by (by apply Forall_drop).
  assert (length (take mid records) = mid) as Hlt
    by (rewrite length_take_le; [done|subst n; lia]).
  assert (length (drop mid records) = (n - mid)%nat) as Hld
    by (by rewrite length_drop).
  rewrite !(mean_of_mean_rate _ records n) by done.
  rewrite !(mean_of_mean_rate _ (take mid records) mid) by done.
  rewrite !(mean_of_mean_rate _ (drop mid records) (n - mid)) by done.
  destruct (mean_rate_returns "open_rate" records Hr) as [? ->]; [lia|].
  destruct (mean_rate_returns "click_rate" records Hr) as [? ->]; [lia|].
  destruct (mean_rate_returns "open_rate" _ Hrt) as [? ->]; [lia|].
  destruct (mean_rate_returns "open_rate" _ Hrd) as [? ->]; [lia|].
  destruct (mean_rate_returns "click_rate" _ Hrt) as [? ->]; [lia|].
  destruct (mean_rate_returns "click_rate" _ Hrd) as [? ->]; [lia|].
  run. rewrite !sub_float. run. by eexists.
Qed.

Lemma persona_group_float_rates p h :
  float_rates h → float_rates (persona_group p h).
Proof.
  unfold float_rates, persona_group. rewrite !Forall_forall.
  intros Hr r [_ Hin]%list_elem_of_filter. by apply Hr.
Qed.

Lemma identify_trends_returns now h :
  float_rates h → Z.of_nat (length h) < 2 ^ 63 →
  ∃ r, identify_trends now h = Ok r.
Proof.
  intros Hr Hlen. unfold identify_trends.
  destruct (length h <? 2)%nat; [by eexists|].
  destruct (collect_foldl_total (group_by_persona h) ∅) as [t Ht].
  { intros k g Hin Hg. apply group_by_persona_elem_of in Hin as ->.
    apply analyze_records_returns;
      [by apply persona_group_float_rates|done|].
    pose proof (length_filter (fun r => persona_of r = k) h) as Hle.
    unfold persona_group.
    assert (2 ^ 63 < 2 ^ 1023) by (by apply Z.pow_lt_mono_r). lia. }
  rewrite collect_trends_foldl, Ht. run. by eexists.
Qed.

(** C3: on a history of at least two records, the trend entry of every
    persona with at least two records (its group, in the caller's order)
    has the means over the whole group as averages; with [mid = N // 2],
    each trend is "improving" when the mean over [records[mid..N]] is
    greater than the mean over [records[0..mid]] and "declining" otherwise,
    and each change is the second-half mean minus the first-half mean.  A
    persona with fewer than two records has no entry.  A report is returned
    for every history of float rates. *)
Theorem identify_trends_entries now (h : list history_record) :
  (2 <= length h)%nat →
  (float_rates h → Z.of_nat (length h) < 2 ^ 63 →
   ∃ r, identify_trends now h = Ok r) ∧
  ∀ r, identify_trends now h = Ok r →
    ∃ t, trends r = Some t ∧
      ∀ p,
        ((length (persona_group p h) < 2)%nat → t !! p = None) ∧
        ((2 <= length (persona_group p h))%nat →
         ∃ e, t !! p = Some e ∧ trend_entry_spec (persona_group p h) e).
Proof.
  intros Hlen. split; [apply identify_trends_returns|].
  intros r. rewrite identify_trends_success by done.
  intros (t & Ht & [= <-])%bind_Ok. exists t. split; [done|].
  intros p. pose proof (collect_trends_lookup h t p Ht) as Hp.
  destruct (Nat.ltb_spec (length (persona_group p h)) 2) as [Hlt|Hge].
  - split; [done|lia].
  - split; [lia|]. intros _. destruct Hp as (e & He & Hlook).
    exists e. split; [done|]. by apply analyze_records_spec.
Qed.

Lemma three_campaigns_float_rates : float_rates three_campaigns.
Proof.
  unfold float_rates, three_campaigns.
  repeat apply Forall_cons_2; [..|apply Forall_nil_2]; cbn [fields];
    repeat apply map_Forall_insert_2; try apply map_Forall_empty;
    by eexists.
Qed.

Lemma identify_trends_entries_witness :
  ∃ r t e,
    identify_trends "2024-01-01T00:00:00" three_campaigns = Ok r ∧
    trends r = Some t ∧
    t !! "founders" = Some e ∧
    trend_entry_spec (persona_group "founders" three_campaigns) e ∧
    t !! "creatives" = None.
Proof.
  destruct (identify_trends_entries "2024-01-01T00:00:00" three_campaigns)
    as [Hret Hent]; [simpl; lia|].
  destruct (Hret three_campaigns_float_rates) as [r Hr]; [done|].
  destruct (Hent r Hr) as (t & Ht & Hp).
  destruct (Hp "founders") as [_ (e & He & Hspec)]; [by vm_compute|].
  destruct (Hp "creatives") as [Hnone _].
  exists r, t, e. split_and!; [done..|]. apply Hnone. by vm_compute.
Defined.

(** ** suggest_optimization *)

Lemma suggest_optimization_fired m ctx :
  suggest_optimization m ctx =
    match fired m with
    | [] => [msg_normal_ranges]
    | _ :: _ => fired m
    end.
Proof. reflexivity. Qed.

Lemma fired_matching m : fired m = matching_messages m.
Proof.
  unfold fired, matching_messages, rule_table, append_if.
  cbn [List.filter fst snd map].
  destruct (rule_1 m), (rule_2 m), (rule_3 m), (rule_4 m), (rule_5 m),
    (rule_6 m); reflexivity.
Qed.

(** C4: the six threshold rules are evaluated independently and in
    declaration order; the result is the list of the messages of the
    matching rules in that order, and the single default message when no
    rule matches. *)
Theorem suggest_optimization_matching (m : num_dict) ctx :
  suggest_optimization m ctx =
    match matching_messages m with
    | [] => [msg_normal_ranges]
    | _ :: _ => matching_messages m
    end.
Proof. by rewrite suggest_optimization_fired, fired_matching. Qed.

(** C5, as the specification states it, fails: on the metrics set with
    only [open_rate = 0.35] and [click_rate = 0.15] the result is not the
    single "strong performance" suggestion. *)
Lemma suggest_optimization_strong_not_alone :
  suggest_optimization strong_metrics ∅ ≠ [msg_strong_performance].
Proof. vm_compute. discriminate. Qed.

(** C5, amended: on that metrics set the absent [click_to_open_rate] reads
    as 0, so rule 3 fires too; the result is the design suggestion followed
    by the "strong performance" suggestion. *)
Theorem suggest_optimization_strong ctx :
  suggest_optimization strong_metrics ctx =
    [msg_email_design; msg_strong_performance].
Proof. vm_compute. reflexivity. Qed.

Lemma normal_ranges_not_a_rule_message : msg_normal_ranges ∉ rule_messages.
Proof.
  unfold rule_messages. rewrite !elem_of_cons, elem_of_nil.
  intros [H|[H|[H|[H|[H|[H|[]]]]]]]; discriminate H.
Qed.

Lemma append_if_length c s l n :
  (length l <= n)%nat → (length (append_if c s l) <= S n)%nat.
Proof. destruct c; simpl; rewrite ?length_app; simpl; lia. Qed.

Lemma append_if_nil c s l : append_if c s l = [] ↔ c = false ∧ l = [].
Proof.
  destruct c; simpl.
  - split; [intros H; by destruct l|intros [? _]; done].
  - split; [done|intros [_ ?]; done].
Qed.

Lemma append_if_elem c s l x : x ∈ append_if c s l → x ∈ l ∨ x = s.
Proof.
  destruct c; simpl; [|auto].
  rewrite elem_of_app, list_elem_of_singleton. tauto.
Qed.

Lemma fired_length m : (length (fired m) <= 6)%nat.
Proof. unfold fired. do 6 apply append_if_length. done. Qed.

Lemma fired_nil m :
  fired m = [] ↔
  rule_1 m = false ∧ rule_2 m = false ∧ rule_3 m = false ∧
  rule_4 m = false ∧ rule_5 m = false ∧ rule_6 m = false.
Proof. unfold fired. rewrite !append_if_nil. intuition. Qed.

Lemma fired_rule_messages m x : x ∈ fired m → x ∈ rule_messages.
Proof.
  unfold fired, rule_messages. intros H.
  repeat (apply append_if_elem in H; destruct H as [H| ->]);
    [by apply elem_of_nil in H|..]; set_solver.
Qed.

(** C10: the result is a non-empty list of at most six strings; the default
    message is in it exactly when none of the six threshold predicates
    holds, and then it is the only element. *)
Theorem suggest_optimization_shape (m : num_dict) ctx :
  let r := suggest_optimization m ctx in
  (1 <= length r <= 6)%nat ∧
  (msg_normal_ranges ∈ r ↔
     rule_1 m = false ∧ rule_2 m = false ∧ rule_3 m = false ∧
     rule_4 m = false ∧ rule_5 m = false ∧ rule_6 m = false) ∧
  (msg_normal_ranges ∈ r → r = [msg_normal_ranges]).
Proof.
  cbv zeta. rewrite suggest_optimization_fired.
  pose proof (fired_length m) as Hlen.
  pose proof (fired_nil m) as Hnil.
  pose proof (fired_rule_messages m msg_normal_ranges) as Hsub.
  pose proof normal_ranges_not_a_rule_message as Hne.
  destruct (fired m) as [|s l] eqn:E.
  - split; [simpl; lia|]. split; [|done].
    split; [intros _; by apply Hnil|intros _; apply list_elem_of_here].
  - split; [simpl in *; lia|]. split.
    + split; [intros H; by apply Hsub in H|].
      intros H. apply Hnil in H. discriminate H.
    + intros H. by apply Hsub in H.
Qed.

(** * Further properties of the analyzer *)

(** ** The order on numbers *)

(** [SFcompare] orders sign, exponent and mantissa lexicographically, so
    [<] is transitive on the floats. *)
Lemma SFcompare_lt_trans x y z :
  SFcompare x y = Some Lt → SFcompare y z = Some Lt →
  SFcompare x z = Some Lt.
Proof.
  destruct x as [sx|sx| |sx mx ex], y as [sy|sy| |sy my ey],
    z as [sz|sz| |sz mz ez]; cbn [SFcompare];
    repeat match goal with s : bool |- _ => destruct s end;
    try done.
  all: change (Pos.compare_cont Eq ?a ?b) with (Pos.compare a b).
  all: repeat match goal with
       | |- context [Z.compare ?a ?b] => destruct (Z.compare_spec a b)
       | |- context [Pos.compare ?a ?b] => destruct (Pos.compare_spec a b)
       end; try done; try lia.
Qed.

Lemma SFcompare_gt_lt x y :
  SFcompare x y = Some Gt ↔ SFcompare y x = Some Lt.
Proof.
  destruct x as [sx|sx| |sx mx ex], y as [sy|sy| |sy my ey];
    cbn [SFcompare];
    repeat match goal with s : bool |- _ => destruct s end;
    try done.
  all: change (Pos.compare_cont Eq ?a ?b) with (Pos.compare a b).
  all: rewrite (Z.compare_antisym ex ey), (Pos.compare_antisym mx my).
  all: by destruct (ex ?= ey), (mx ?= my)%positive.
Qed.

(** The mantissa of a float below 1 is below the weight of its exponent. *)
Lemma small_positive_mantissa c m e :
  Prim2SF c = S754_finite false m e → e <= -53 → Z.pos m < 2 ^ (- e).
Proof.
  intros Hc He. pose proof (Prim2SF_valid c) as Hv. rewrite Hc in Hv.
  apply andb_true_iff in Hv as [Hv _].
  apply SF.canonical_bounds in Hv as (_ & Hm & _).
  eapply Z.lt_le_trans; [done|]. apply Z.pow_le_mono_r; lia.
Qed.

(** An [int] is below a float strictly between 0 and 1 when it is at most
    0, and above it when it is at least 1. *)
Lemma lt_int_small z c :
  small_positive c → Py.lt (Py.Int z) (Py.Float c) = bool_decide (z <= 0).
Proof.
  intros (m & e & Hc & He). pose proof (small_positive_mantissa c m e Hc He).
  assert (0 < 2 ^ (- e)) by (apply Z.pow_pos_nonneg; lia).
  unfold Py.lt, Py.float_cmp_int, Py.cmp_scaled. rewrite Hc.
  destruct (Z.leb_spec 0 e); [lia|].
  apply bool_decide_ext. split.
  - intros Hgt. apply (inj Some) in Hgt. apply Z.compare_gt_iff in Hgt. nia.
  - intros Hz. f_equal. apply Z.compare_gt_iff. nia.
Qed.

Lemma gt_int_small z c :
  small_positive c → Py.gt (Py.Int z) (Py.Float c) = bool_decide (1 <= z).
Proof.
  intros (m & e & Hc & He). pose proof (small_positive_mantissa c m e Hc He).
  assert (0 < 2 ^ (- e)) by (apply Z.pow_pos_nonneg; lia).
  unfold Py.gt, Py.lt, Py.float_cmp_int, Py.cmp_scaled. rewrite Hc.
  destruct (Z.leb_spec 0 e); [lia|].
  apply bool_decide_ext. split.
  - intros Hlt. apply (inj Some) in Hlt. apply -> Z.compare_lt_iff in Hlt. nia.
  - intros Hz. f_equal. apply Z.compare_lt_iff. nia.
Qed.

(** A number below a threshold is below every larger threshold, and is
    not above it. *)
Lemma lt_threshold_mono v a b :
  small_positive a → small_positive b → (a <? b)%float = true →
  Py.lt v (Py.Float a) = true → Py.lt v (Py.Float b) = true.
Proof.
  intros Ha Hb Hab. destruct v as [z|x].
  - by rewrite !lt_int_small.
  - cbn [Py.lt]. rewrite !float_ltb_cmp in *.
    intros Hx%bool_decide_eq_true. apply bool_decide_eq_true in Hab.
    apply bool_decide_eq_true. by eapply SFcompare_lt_trans.
Qed.

Lemma lt_gt_threshold v a b :
  small_positive a → small_positive b → (a <? b)%float = true →
  Py.lt v (Py.Float a) = true → Py.gt v (Py.Float b) = false.
Proof.
  intros Ha Hb Hab. destruct v as [z|x].
  - rewrite lt_int_small, gt_int_small by done.
    intros Hz%bool_decide_eq_true. apply bool_decide_eq_false. lia.
  - cbn [Py.gt Py.lt]. rewrite !float_ltb_cmp in *.
    intros Hx%bool_decide_eq_true. apply bool_decide_eq_true in Hab.
    apply bool_decide_eq_false. intros Hbx.
    pose proof (SFcompare_lt_trans _ _ _ Hbx Hx) as Hba.
    apply SFcompare_gt_lt in Hba. congruence.
Qed.

(** The thresholds of the rules are floats strictly between 0 and 1. *)
Lemma thresholds_small :
  Forall small_positive
    [0.20; 0.22; 0.25; 0.30; 0.08; 0.10; 0.12]%float.
Proof. repeat constructor; by eexists _, _. Qed.

(** ** Quotients of integers *)

(** The rounded quotient of two integers does not pass an integer [K]
    that is above the exact quotient, whatever the size of the operands. *)
Lemma SFdiv_Z_below sa a sb b K :
  K <= 2 ^ 52 → Z.pos a < K * Z.pos b →
  SFdiv prec emax (S754_finite sa a 0) (S754_finite sb b 0)
    = S754_zero (xorb sa sb) ∨
  ∃ m e,
    SFdiv prec emax (S754_finite sa a 0) (S754_finite sb b 0)
      = S754_finite (xorb sa sb) m e ∧
    e <= 0 ∧ Z.pos m <= K * 2 ^ (- e).
Proof.
  intros HK52 HK.
  destruct (SF.SFdiv_Z_spec sa a sb b) as [l ->].
  set (e' := Z.min (SF.fexp (Zdigits2 (Z.pos a) - Zdigits2 (Z.pos b))) 0).
  set (q := Z.pos a * 2 ^ (- e') / Z.pos b).
  assert (e' <= 0) as He' by (subst e'; lia).
  assert (0 < 2 ^ (- e')) as Hp' by (apply Z.pow_pos_nonneg; lia).
  assert (0 <= q) as Hq0 by (apply Z.div_pos; lia).
  assert (q < K * 2 ^ (- e')) as HqK.
  { apply Z.div_lt_upper_bound; [done|].
    replace (Z.pos b * (K * 2 ^ (- e'))) with (K * Z.pos b * 2 ^ (- e'))
      by ring.
    apply Z.mul_lt_mono_pos_r; lia. }
  assert (Zdigits2 q + e' <= 52) as Hdq.
  { destruct (decide (q = 0)) as [->|Hq]; [cbn; lia|].
    assert (Zdigits2 q <= 52 - e'); [|lia].
    apply SF.Zdigits2_lt_pow2. split; [lia|].
    eapply Z.lt_le_trans; [apply HqK|].
    replace (52 - e') with (52 + - e') by lia.
    rewrite Z.pow_add_r by lia.
    apply Z.mul_le_mono_nonneg_r; lia. }
  destruct (SF.binary_round_aux_spec (xorb sa sb) q e' l Hq0)
    as (m2 & Hb & ->).
  pose proof (SF.rounding_digits q e' m2 Hq0 Hb)
    as (_ & _ & Hq1 & Hq2 & [_ Hd2] & _).
  cbv zeta in *.
  set (f1 := SF.fexp (Zdigits2 q + e')) in *.
  assert (f1 <= -1) as Hf1
    by (subst f1; rewrite SF.fexp_eq; clear -Hdq; lia).
  set (e1 := Z.max e' f1) in *.
  assert (e' <= e1 <= 0) as He1 by (clear -He' Hf1; lia).
  set (m1 := q / 2 ^ (e1 - e')) in *.
  assert (Zdigits2 m1 + e1 <= 52) as Hd1.
  { destruct (decide (q = 0)) as [Hz|Hnz].
    - rewrite (Hq1 Hz). clear -He1. lia.
    - rewrite Hq2 by lia. clear -Hdq He1. lia. }
  set (f2 := SF.fexp (Zdigits2 m2 + e1)) in *.
  assert (f2 <= 0) as Hf2
    by (subst f2; rewrite SF.fexp_eq; clear -Hd1 Hd2; lia).
  set (e2 := Z.max e1 f2) in *.
  assert (e1 <= e2 <= 0) as He2 by (clear -He1 Hf2; lia).
  assert (m1 < K * 2 ^ (- e1)) as Hm1.
  { subst m1. apply Z.div_lt_upper_bound; [apply Z.pow_pos_nonneg; lia|].
    replace (2 ^ (e1 - e') * (K * 2 ^ (- e1))) with (K * 2 ^ (- e')); [done|].
    replace (- e') with (e1 - e' + - e1) by (clear; lia).
    rewrite Z.pow_add_r by (clear -He1; lia). ring. }
  assert (m2 / 2 ^ (e2 - e1) <= K * 2 ^ (- e2)) as Hm3.
  { apply Z.div_le_upper_bound; [apply Z.pow_pos_nonneg; clear -He2; lia|].
    replace (2 ^ (e2 - e1) * (K * 2 ^ (- e2))) with (K * 2 ^ (- e1));
      [clear -Hb Hm1; lia|].
    replace (- e1) with (e2 - e1 + - e2) by (clear; lia).
    rewrite Z.pow_add_r by (clear -He2; lia). ring. }
  destruct (m2 / 2 ^ (e2 - e1)) as [|m3|m3] eqn:E3; [by left| |].
  - right. destruct (Z.leb_spec e2 971) as [_|Hgt]; [|clear -He2 Hgt; lia].
    exists m3, e2. split; [done|]. split; [apply He2|done].
  - exfalso. assert (0 <= m2 / 2 ^ (e2 - e1)); [|lia].
    apply Z.div_pos; [|apply Z.pow_pos_nonneg; clear -He2; lia].
    assert (0 <= m1) by (apply Z.div_pos; [done|apply Z.pow_pos_nonneg; lia]).
    lia.
Qed.

(** An integer divided by itself is exactly 1. *)
Lemma SFdiv_Z_self a :
  SFdiv prec emax (S754_finite false a 0) (S754_finite false a 0)
    = Prim2SF 1.
Proof.
  cbn [SFdiv]. unfold SFdiv_core_binary.
  rewrite Z.sub_diag, !Z.add_0_r, Z.sub_diag.
  change (Z.min (SpecFloat.fexp prec emax 0) 0) with (-53).
  change (0 - -53) with 53.
  rewrite Z.shiftl_mul_pow2 by done.
  pose proof (Z.div_eucl_eq (Z.pos a * 2 ^ 53) (Z.pos a) ltac:(done)) as Heq.
  pose proof (Z.mod_pos_bound (Z.pos a * 2 ^ 53) (Z.pos a) ltac:(done)) as Hr.
  pose proof (Z.div_mul (2 ^ 53) (Z.pos a) ltac:(done)) as Hq.
  pose proof (Z.mod_mul (2 ^ 53) (Z.pos a) ltac:(done)) as Hm.
  rewrite (Z.mul_comm (2 ^ 53)) in Hq, Hm.
  unfold Z.div, Z.modulo in Hq, Hm.
  destruct (Z.div_eucl (Z.pos a * 2 ^ 53) (Z.pos a)) as [q r].
  subst q r. unfold new_location.
  by destruct (Z.even (Z.pos a)).
Qed.

(** ** Signs of quotients and products *)

(** A positive mantissa whose value reaches the least number of the
    format does not round to zero, and the sign is kept. *)
Lemma binary_round_aux_sign sx mx ex lx :
  0 < mx → -1073 <= Zdigits2 mx + ex →
  binary_round_aux prec emax sx mx ex lx = S754_infinity sx ∨
  ∃ m e, binary_round_aux prec emax sx mx ex lx = S754_finite sx m e.
Proof.
  intros Hmx Hd.
  destruct (SF.binary_round_aux_spec sx mx ex lx) as (m2 & Hb & ->); [lia|].
  SF.name_rounding mx ex m2 (Z.lt_le_incl _ _ Hmx) Hb.
  assert (1 <= Zdigits2 mx) as Hdx by (apply Hpx in Hmx; lia).
  assert (1 <= Zdigits2 m1) as Hd1'
    by (rewrite Hd1 by done; clear -Hf1 Hd Hdx; lia).
  assert (0 < m2) as Hm2 by (apply Hp2; clear -Hd1' Hd2; lia).
  assert (-1073 <= Zdigits2 m1 + e1) as Hx1'
    by (destruct Hx1 as [Hx1|[Hx1 _]]; [clear -Hx1 Hd; lia|lia]).
  assert (1 <= Zdigits2 m3) as Hd3'
    by (rewrite Hd3 by done; clear -Hf2 Hd2 Hd1' Hx1'; lia).
  destruct m3 as [|p|p]; [done| |done].
  destruct (e2 <=? 971); [right|by left].
  by exists p, e2.
Qed.

(** [SFdiv] on two finite floats: the quotient of the shifted mantissas,
    rounded. *)
Lemma SFdiv_finite_spec sx mx ex sy my ey :
  let e' := Z.min (SF.fexp (Zdigits2 (Z.pos mx) + ex
                            - (Zdigits2 (Z.pos my) + ey))) (ex - ey) in
  ∃ l,
    SFdiv prec emax (S754_finite sx mx ex) (S754_finite sy my ey) =
      binary_round_aux prec emax (xorb sx sy)
        (Z.pos mx * 2 ^ (ex - ey - e') / Z.pos my) e' l.
Proof.
  cbn [SFdiv]. unfold SFdiv_core_binary.
  set (e' := Z.min (SF.fexp (Zdigits2 (Z.pos mx) + ex
                             - (Zdigits2 (Z.pos my) + ey))) (ex - ey)).
  assert (match ex - ey - e' with
          | Z.pos _ => Z.shiftl (Z.pos mx) (ex - ey - e')
          | 0 => Z.pos mx
          | Z.neg _ => 0
          end = Z.pos mx * 2 ^ (ex - ey - e')) as ->.
  { assert (0 <= ex - ey - e') by (subst e'; lia).
    destruct (ex - ey - e') as [|n|n] eqn:Hn.
    - lia.
    - by rewrite Z.shiftl_mul_pow2.
    - lia. }
  unfold Z.div.
  destruct (Z.div_eucl (Z.pos mx * 2 ^ (ex - ey - e')) (Z.pos my)) as [q r].
  by eexists.
Qed.

(** A finite float divided by a finite float below 1 is not zero, and has
    the sign of the quotient. *)
Lemma SFdiv_sign sx mx ex sy my ey :
  -1074 <= ex → Zdigits2 (Z.pos my) + ey <= 0 →
  SFdiv prec emax (S754_finite sx mx ex) (S754_finite sy my ey)
    = S754_infinity (xorb sx sy) ∨
  ∃ m e, SFdiv prec emax (S754_finite sx mx ex) (S754_finite sy my ey)
           = S754_finite (xorb sx sy) m e.
Proof.
  intros Hex Hy.
  destruct (SFdiv_finite_spec sx mx ex sy my ey) as [l ->].
  set (dx := Zdigits2 (Z.pos mx)) in *. set (dy := Zdigits2 (Z.pos my)) in *.
  assert (1 <= dx) as Hdx
    by (subst dx; pose proof (SF.Zdigits2_pos (Z.pos mx)); lia).
  assert (1 <= dy) as Hdy
    by (subst dy; pose proof (SF.Zdigits2_pos (Z.pos my)); lia).
  set (f := SF.fexp (dx + ex - (dy + ey))).
  assert (f = Z.max (dx + ex - (dy + ey) - 53) (-1074)) as Hf
    by apply SF.fexp_eq.
  clearbody f. set (e' := Z.min f (ex - ey)).
  set (s := ex - ey - e').
  assert (0 <= s) as Hs by (subst s e'; lia).
  assert (1 <= dx + s - dy) as Hq by (subst s e'; lia).
  pose proof (SF.Zdigits2_div (Z.pos mx) (Z.pos my) s
                ltac:(done) ltac:(done) Hs Hq) as Hdq.
  fold dx dy in Hdq.
  set (q := Z.pos mx * 2 ^ s / Z.pos my) in *.
  assert (0 < q) as Hq0.
  { assert (0 <= q) by (apply Z.div_pos; [|done];
      apply Z.mul_nonneg_nonneg; [done|by apply Z.pow_nonneg]).
    destruct q; [simpl in Hdq; lia|done|lia]. }
  apply binary_round_aux_sign; [done|].
  clearbody q. subst s e'. lia.
Qed.

(** A finite float multiplied by a finite float of at least 1 is not
    zero, and has the sign of the product. *)
Lemma SFmul_sign sx mx ex sy my ey :
  -1074 <= ex → 1 <= Zdigits2 (Z.pos my) + ey →
  SFmul prec emax (S754_finite sx mx ex) (S754_finite sy my ey)
    = S754_infinity (xorb sx sy) ∨
  ∃ m e, SFmul prec emax (S754_finite sx mx ex) (S754_finite sy my ey)
           = S754_finite (xorb sx sy) m e.
Proof.
  intros Hex Hy. cbn [SFmul].
  apply binary_round_aux_sign; [done|].
  pose proof (SF.Zdigits2_bounds (Z.pos mx) ltac:(done)) as [Hlx _].
  pose proof (SF.Zdigits2_bounds (Z.pos my) ltac:(done)) as [Hly _].
  set (dx := Zdigits2 (Z.pos mx)) in *. set (dy := Zdigits2 (Z.pos my)) in *.
  assert (1 <= dx) as Hdx
    by (subst dx; pose proof (SF.Zdigits2_pos (Z.pos mx)); lia).
  assert (1 <= dy) as Hdy
    by (subst dy; pose proof (SF.Zdigits2_pos (Z.pos my)); lia).
  assert (dx + dy - 1 <= Zdigits2 (Z.pos (mx * my))); [|lia].
  replace (dx + dy - 1) with (dx + dy - 2 + 1) by lia.
  apply SF.Zdigits2_ge; [lia|].
  replace (dx + dy - 2) with ((dx - 1) + (dy - 1)) by lia.
  rewrite Z.pow_add_r, Pos2Z.inj_mul by lia.
  apply Z.mul_le_mono_nonneg; [apply Z.pow_nonneg| |apply Z.pow_nonneg|];
    lia.
Qed.

(** ** calculate_metrics on consistent counts *)

(** A positive finite float up to the integer [K]. *)
Lemma finite_le_int m e K :
  valid_binary (S754_finite false m e) = true →
  e <= 0 → Z.pos m <= K * 2 ^ (- e) →
  Py.le (Py.Int 0) (Py.Float (SF2Prim (S754_finite false m e))) = true ∧
  Py.le (Py.Float (SF2Prim (S754_finite false m e))) (Py.Int K) = true.
Proof.
  intros Hv He Hm. unfold Py.le, Py.float_cmp_int.
  rewrite Prim2SF_SF2Prim by done.
  split; apply bool_decide_eq_true.
  - left. f_equal. apply (SF.cmp_scaled_0 m e).
  - pose proof (cmp_scaled_le m e K He Hm).
    destruct (Py.cmp_scaled m e K); [by right|by left|done].
Qed.

(** A part divided by the whole is a float within [0, 1], whatever the
    size of the integers. *)
Lemma int_truediv_proportion a b :
  0 <= a <= b → 0 < b →
  ∃ q, Py.int_truediv a b = Ok q ∧ within_0_1 (Py.Float q) = true.
Proof.
  intros Ha Hb. unfold Py.int_truediv.
  destruct (Z.eqb_spec b 0) as [|_]; [lia|].
  destruct b as [|b|b]; [lia| |lia]. destruct a as [|a|a]; [| |lia].
  - by eexists.
  - cbn [Py.SF_of_Z].
    destruct (decide (a = b)) as [->|Hne].
    + rewrite SFdiv_Z_self. exists 1%float. by vm_compute.
    + pose proof (SF.SFdiv_Z_valid false a false b) as Hv.
      destruct (SFdiv_Z_below false a false b 1)
        as [Hz|(m & e & Hr & He & Hm)]; [done|lia| |].
      * rewrite Hz. by eexists.
      * rewrite Hr in *. eexists. split; [done|].
        apply andb_true_iff. by apply finite_le_int.
Qed.

Lemma rate_proportion n d :
  0 <= n <= d → ∃ v, rate n d = Ok v ∧ within_0_1 v = true.
Proof.
  intros Hn. unfold rate. destruct (Z.ltb_spec 0 d) as [Hd|Hd].
  - cbn [Py.truediv].
    destruct (int_truediv_proportion n d Hn Hd) as (q & -> & Hq).
    by eexists.
  - by eexists.
Qed.

(** On counts that are parts of [sent], the score is computed without
    an overflow. *)
Lemma _calculate_engagement_score_proportions opens clicks unsubscribes sent :
  0 <= opens <= sent → 0 <= clicks <= sent → 0 <= unsubscribes <= sent →
  ∃ v, _calculate_engagement_score opens clicks unsubscribes sent = Ok v.
Proof.
  intros Ho Hc Hu. unfold _calculate_engagement_score.
  destruct (Z.eqb_spec sent 0) as [|Hs]; [by eexists|].
  cbn [Py.truediv].
  destruct (int_truediv_proportion opens sent) as (qo & -> & _); [lia..|].
  destruct (int_truediv_proportion clicks sent) as (qc & -> & _); [lia..|].
  destruct (int_truediv_proportion unsubscribes sent) as (qu & -> & _);
    [lia..|].
  destruct float_of_weights as (H30 & H50 & H20 & H100).
  run. rewrite (mul_float_int _ _ _ H30). run.
  rewrite (mul_float_int _ _ _ H50). run.
  rewrite (mul_float_int _ _ _ H20). run.
  rewrite add_float. run. rewrite sub_float. run.
  rewrite (mul_float_int _ _ _ H100). run. by eexists.
Qed.

(** X1: on consistent counts, clicks among the opens and opens, bounces and
    unsubscribes among the sent, [calculate_metrics] returns and its five
    rates are within [0, 1]; the counts can be of any size. *)
Theorem calculate_metrics_proportions (raw : gmap string Z) :
  let sent := count raw "sent" in
  let opens := count raw "opens" in
  0 <= count raw "clicks" <= opens → opens <= sent →
  0 <= count raw "bounces" <= sent →
  0 <= count raw "unsubscribes" <= sent →
  ∃ m, calculate_metrics raw = Ok m ∧
    ∀ key, key ∈ rate_keys →
      ∃ v, m !! key = Some v ∧ within_0_1 v = true.
Proof.
  cbv zeta. intros Hc Ho Hb Hu. unfold calculate_metrics.
  fold (count raw "sent") (count raw "opens")
    (count raw "clicks") (count raw "bounces") (count raw "unsubscribes").
  destruct (rate_proportion (count raw "opens") (count raw "sent"))
    as (r1 & -> & H1); [lia|].
  destruct (rate_proportion (count raw "clicks") (count raw "sent"))
    as (r2 & -> & H2); [lia|].
  destruct (rate_proportion (count raw "clicks") (count raw "opens"))
    as (r3 & -> & H3); [lia|].
  destruct (rate_proportion (count raw "bounces") (count raw "sent"))
    as (r4 & -> & H4); [lia|].
  destruct (rate_proportion (count raw "unsubscribes") (count raw "sent"))
    as (r5 & -> & H5); [lia|].
  destruct (_calculate_engagement_score_proportions (count raw "opens")
    (count raw "clicks") (count raw "unsubscribes") (count raw "sent"))
    as [v ->]; [lia..|].
  run. eexists. split; [done|].
  intros key Hk. unfold rate_keys in Hk.
  repeat (apply elem_of_cons in Hk as [->|Hk]);
    [..|by apply elem_of_nil in Hk];
    eexists; (split; [by simplify_map_eq|done]).
Qed.

Lemma calculate_metrics_proportions_witness :
  ∃ m, calculate_metrics scenario_counts = Ok m ∧
    ∀ key, key ∈ rate_keys →
      ∃ v, m !! key = Some v ∧ within_0_1 v = true.
Proof. by apply (calculate_metrics_proportions scenario_counts). Defined.

(** ** The forms of the engagement score *)

Lemma arith_float_l fz ff x b v :
  Py.arith fz ff (Py.Float x) b = Ok v → ∃ y, v = Py.Float y.
Proof.
  unfold Py.arith. intros H. inv_bind H. injection H as <-. by eexists.
Qed.

(** A float strictly between 0 and 100, rounded to 2 places, is a number
    of hundredths from 0 to 10000. *)
Lemma float_round_hundredths x :
  Py.gt (Py.Float x) (Py.Int 0) = true →
  Py.lt (Py.Float x) (Py.Int 100) = true →
  ∃ n, 0 <= n <= 10000 ∧ Py.float_round x 2 = of_hundredths n.
Proof.
  unfold Py.gt, Py.lt, Py.float_round, Py.float_cmp_int.
  intros H0%bool_decide_eq_true H100%bool_decide_eq_true.
  destruct (Prim2SF x) as [s|s| |[] m e]; try done.
  - by destruct s.
  - change (- 0) with 0 in H0. rewrite SF.cmp_scaled_0 in H0. discriminate H0.
  - apply (inj Some) in H100.
    pose proof (scaled_half_even_bounds m e 100 (10 ^ Z.of_nat 2)
                  eq_refl H100) as Hn.
    by eexists.
Qed.

Lemma clamp_round_shape x :
  score_shape (Py.round (Py.max (Py.Int 0)
                           (Py.min (Py.Int 100) (Py.Float x))) 2).
Proof.
  unfold Py.min.
  destruct (Py.lt (Py.Float x) (Py.Int 100)) eqn:H100;
    [|right; by left].
  unfold Py.max. destruct (Py.gt (Py.Float x) (Py.Int 0)) eqn:H0;
    [|by left].
  destruct (float_round_hundredths x H0 H100) as (n & Hn & Hr).
  right; right. exists n. split; [done|]. cbn [Py.round]. by rewrite Hr.
Qed.

Lemma _calculate_engagement_score_shape opens clicks unsubscribes sent v :
  _calculate_engagement_score opens clicks unsubscribes sent = Ok v →
  score_shape v.
Proof.
  unfold _calculate_engagement_score.
  destruct (sent =? 0).
  - intros [= <-]. right; right. by exists 0.
  - intros H. inv_bind H. injection H as <-.
    cbn [Py.truediv] in Hv. apply fmap_Ok in Hv as (q & _ & ->).
    apply arith_float_l in Hv0 as [? ->].
    apply arith_float_l in Hv5 as [? ->].
    apply arith_float_l in Hv6 as [? ->].
    apply arith_float_l in Hv7 as [? ->].
    apply clamp_round_shape.
Qed.

(** X2: the engagement score [calculate_metrics] returns is the [int] 0 or
    the [int] 100 where the clamp applied, and otherwise a [float] that is
    a number of hundredths from 0.00 to 100.00. *)
Theorem calculate_metrics_score_shape (raw : gmap string Z) :
  (counts_in_range raw → ∃ m, calculate_metrics raw = Ok m) ∧
  ∀ m, calculate_metrics raw = Ok m →
    ∃ v, m !! "engagement_score" = Some v ∧ score_shape v.
Proof.
  split; [apply calculate_metrics_returns|].
  intros m (r1 & r2 & r3 & r4 & r5 & v & _ & _ & _ & _ & _ & Hv & Hm)
    %calculate_metrics_Ok.
  exists v. split; [apply Hm|].
  by apply _calculate_engagement_score_shape in Hv.
Qed.

Lemma calculate_metrics_score_shape_witness :
  ∃ m v, calculate_metrics scenario_counts = Ok m ∧
         m !! "engagement_score" = Some v ∧ score_shape v.
Proof.
  destruct (calculate_metrics_score_shape scenario_counts) as [Hex Hin].
  destruct (Hex scenario_counts_in_range) as [m Hm].
  destruct (Hin m Hm) as (v & Hv & Hs).
  exists m, v. exact (conj Hm (conj Hv Hs)).
Defined.

(** ** calculate_metrics on a negative [sent] *)

(** X3: the rates are guarded by [sent > 0], the score by [sent == 0]: on a
    negative [sent] the four rates over [sent] are the [int] 0, and the
    score is still computed from the ratios. *)
Theorem calculate_metrics_negative_sent (raw : gmap string Z) :
  let sent := count raw "sent" in
  let opens := count raw "opens" in
  let clicks := count raw "clicks" in
  let unsubscribes := count raw "unsubscribes" in
  sent < 0 →
  (counts_in_range raw → ∃ m, calculate_metrics raw = Ok m) ∧
  ∀ m, calculate_metrics raw = Ok m →
    m !! "open_rate" = Some (Py.Int 0) ∧
    m !! "click_rate" = Some (Py.Int 0) ∧
    m !! "bounce_rate" = Some (Py.Int 0) ∧
    m !! "unsubscribe_rate" = Some (Py.Int 0) ∧
    ∃ v, m !! "engagement_score" = Some v ∧
         engagement_formula opens clicks unsubscribes sent = Ok v.
Proof.
  cbv zeta. intros Hs. split; [apply calculate_metrics_returns|].
  intros m (r1 & r2 & r3 & r4 & r5 & v & H1 & H2 & _ & H4 & H5 & Hv & Hm)
    %calculate_metrics_Ok.
  unfold rate in H1, H2, H4, H5.
  destruct (Z.ltb_spec 0 (count raw "sent")); [lia|].
  injection H1 as <-. injection H2 as <-. injection H4 as <-.
  injection H5 as <-.
  destruct Hm as (M1 & M2 & _ & M4 & M5 & M6).
  split_and!; [done..|].
  exists v. split; [done|]. apply engagement_formula_score; [lia|done].
Qed.

Lemma calculate_metrics_negative_sent_witness :
  ∃ m, calculate_metrics negative_counts = Ok m ∧
       m !! "open_rate" = Some (Py.Int 0) ∧
       m !! "engagement_score" = Some (Py.Int 100).
Proof.
  destruct (calculate_metrics_negative_sent negative_counts) as [Hex Hin];
    [done|].
  destruct Hex as [m Hm].
  { unfold negative_counts, counts_in_range.
    repeat apply map_Forall_insert_2; [done..|]. apply map_Forall_empty. }
  destruct (Hin m Hm) as (H1 & _ & _ & _ & v & Hv & Hf).
  exists m. split; [done|]. split; [done|].
  rewrite Hv. f_equal.
  assert (engagement_formula (-30) 0 0 (-100) = Ok (Py.Int 100)) as Hc
    by (by vm_compute).
  change (count negative_counts "opens") with (-30) in Hf.
  change (count negative_counts "clicks") with 0 in Hf.
  change (count negative_counts "unsubscribes") with 0 in Hf.
  change (count negative_counts "sent") with (-100) in Hf.
  congruence.
Defined.

(** ** calculate_metrics on a campaign without opens and clicks *)

(** A rounding of a mantissa that is not negative keeps the sign. *)
Lemma binary_round_aux_cases sx mx ex lx :
  0 <= mx →
  binary_round_aux prec emax sx mx ex lx = S754_zero sx ∨
  binary_round_aux prec emax sx mx ex lx = S754_infinity sx ∨
  ∃ m e, binary_round_aux prec emax sx mx ex lx = S754_finite sx m e.
Proof.
  intros Hmx.
  destruct (SF.binary_round_aux_spec sx mx ex lx Hmx) as (m2 & Hb & ->).
  pose proof (SF.rounding_digits mx ex m2 Hmx Hb) as (_ & Hm3 & _).
  cbv zeta in *.
  destruct (m2 / 2 ^ _) as [|p|p]; [by left| |lia].
  right. destruct (_ <=? 971); [right; by eexists _, _|by left].
Qed.

(** The quotient of a count by a positive count is a zero or a positive
    float. *)
Lemma int_truediv_nonneg a b q :
  0 <= a → 0 < b → Py.int_truediv a b = Ok q →
  Prim2SF q = S754_zero false ∨ ∃ m e, Prim2SF q = S754_finite false m e.
Proof.
  intros Ha Hb. unfold Py.int_truediv.
  destruct (Z.eqb_spec b 0); [lia|].
  destruct b as [|b|b]; [lia| |lia]. destruct a as [|a|a]; [| |lia].
  - intros [= <-]. by left.
  - cbn [Py.SF_of_Z].
    pose proof (SF.SFdiv_Z_valid false a false b) as Hv.
    destruct (SF.SFdiv_Z_spec false a false b) as [l Hs].
    rewrite Hs in *.
    destruct (binary_round_aux_cases (xorb false false)
                (Z.pos a * 2 ^ (- Z.min (SF.fexp (Zdigits2 (Z.pos a)
                    - Zdigits2 (Z.pos b))) 0) / Z.pos b)
                (Z.min (SF.fexp (Zdigits2 (Z.pos a)
                    - Zdigits2 (Z.pos b))) 0) l)
      as [Hr|[Hr|(m & e & Hr)]].
    { apply Z.div_pos; [|done].
      apply Z.mul_nonneg_nonneg; [done|apply Z.pow_nonneg; lia]. }
    all: rewrite Hr in *.
    + intros [= <-]. by left.
    + done.
    + intros Hq.
      assert (q = SF2Prim (S754_finite (xorb false false) m e)) as ->
        by congruence.
      rewrite Prim2SF_SF2Prim by done. right. by eexists _, _.
Qed.

(** The penalty alone, taken from 0 and scaled, is not above 0. *)
Lemma penalty_not_positive u :
  (Prim2SF u = S754_zero false ∨
   ∃ m e, Prim2SF u = S754_finite false m e) →
  not_positive (Prim2SF ((0 + 0 - u * 20) * 100)).
Proof.
  intros Hu.
  rewrite FloatAxioms.mul_spec, FloatAxioms.sub_spec, FloatAxioms.mul_spec.
  change (Prim2SF (0 + 0)) with (S754_zero false).
  change (Prim2SF 20) with (S754_finite false 5629499534213120 (-48)).
  change (Prim2SF 100) with (S754_finite false 7036874417766400 (-46)).
  unfold SF64mul, SF64sub.
  destruct Hu as [->|(m & e & ->)]; [done|].
  cbn [SFmul xorb].
  destruct (binary_round_aux_cases false
              (Z.pos (m * 5629499534213120)) (e + -48) loc_Exact)
    as [->|[->|(mp & ep & ->)]]; [done|done|done|].
  cbn [SFsub negb SFmul xorb].
  by destruct (binary_round_aux_cases true
                 (Z.pos (mp * 7036874417766400)) (ep + -46) loc_Exact)
    as [->|[->|(mr & er & ->)]].
Qed.

(** A float that is not above 0 is clamped to the [int] 0. *)
Lemma clamp_not_positive x :
  not_positive (Prim2SF x) →
  Py.round (Py.max (Py.Int 0) (Py.min (Py.Int 100) (Py.Float x))) 2
    = Py.Int 0.
Proof.
  intros Hx.
  assert (Py.lt (Py.Float x) (Py.Int 100) = true) as Hlt.
  { unfold Py.lt, Py.float_cmp_int, Py.cmp_scaled.
    destruct (Prim2SF x) as [s|[]| |[] m e]; try done.
    apply bool_decide_eq_true. f_equal.
    destruct (Z.leb_spec 0 e); cbn [CompOpp].
    - assert (0 < Z.pos m * 2 ^ e)
        by (apply Z.mul_pos_pos; [done|by apply Z.pow_pos_nonneg]).
      destruct (Z.compare_spec (Z.pos m * 2 ^ e) (Z.opp 100));
        [lia|lia|done].
    - assert (0 < 2 ^ (- e)) by (apply Z.pow_pos_nonneg; lia).
      destruct (Z.compare_spec (Z.pos m) (Z.opp 100 * 2 ^ (- e)));
        [lia|lia|done]. }
  assert (Py.gt (Py.Float x) (Py.Int 0) = false) as Hgt.
  { unfold Py.gt, Py.lt. rewrite float_cmp_int_0.
    by destruct (Prim2SF x) as [s|[]| |[] m e]. }
  unfold Py.min. rewrite Hlt. unfold Py.max. by rewrite Hgt.
Qed.

Lemma _calculate_engagement_score_unopened unsubscribes sent v :
  0 < sent → 0 <= unsubscribes →
  _calculate_engagement_score 0 0 unsubscribes sent = Ok v → v = Py.Int 0.
Proof.
  intros Hs Hu. unfold _calculate_engagement_score.
  destruct (Z.eqb_spec sent 0); [lia|].
  assert (Py.truediv (Py.Int 0) (Py.Int sent) = Ok (Py.Float 0)) as ->.
  { cbn [Py.truediv]. unfold Py.int_truediv.
    destruct (Z.eqb_spec sent 0); [lia|]. by destruct sent. }
  run. destruct float_of_weights as (H30 & H50 & H20 & H100).
  rewrite (mul_float_int _ _ _ H30), (mul_float_int _ _ _ H50). run.
  cbn [Py.truediv].
  destruct (Py.int_truediv unsubscribes sent) as [u|] eqn:Eu; [|done].
  apply int_truediv_nonneg in Eu; [|done..].
  run. rewrite (mul_float_int _ _ _ H20). run.
  rewrite add_float. run. rewrite sub_float. run.
  rewrite (mul_float_int _ _ _ H100). run. intros [= <-].
  change (0 * 30 + 0 * 50)%float with (0 + 0)%float.
  by apply clamp_not_positive, penalty_not_positive.
Qed.

(** X4: a campaign that was sent and had no opens and no clicks scores the
    [int] 0 whatever its unsubscribes, where a campaign that was not sent
    scores the [float] 0.0. *)
Theorem calculate_metrics_unopened (raw : gmap string Z) (m : num_dict) :
  calculate_metrics raw = Ok m →
  count raw "opens" = 0 → count raw "clicks" = 0 →
  0 <= count raw "unsubscribes" →
  (0 < count raw "sent" → m !! "engagement_score" = Some (Py.Int 0)) ∧
  (count raw "sent" = 0 → m !! "engagement_score" = Some (Py.Float 0)).
Proof.
  intros (r1 & r2 & r3 & r4 & r5 & v & _ & _ & _ & _ & _ & Hv & Hm)
    %calculate_metrics_Ok Ho Hc Hu.
  destruct Hm as (_ & _ & _ & _ & _ & ->). rewrite Ho, Hc in Hv.
  split; intros Hs.
  - f_equal. by apply _calculate_engagement_score_unopened in Hv.
  - rewrite Hs in Hv. by injection Hv as <-.
Qed.

Lemma calculate_metrics_unopened_witness :
  ∃ m, calculate_metrics unopened_counts = Ok m ∧
       m !! "engagement_score" = Some (Py.Int 0).
Proof.
  destruct (calculate_metrics_returns unopened_counts) as [m Hm].
  { unfold unopened_counts, counts_in_range.
    repeat apply map_Forall_insert_2; [done..|]. apply map_Forall_empty. }
  exists m. split; [done|].
  by apply (calculate_metrics_unopened unopened_counts m Hm).
Defined.

(** ** compare_to_benchmarks: the metrics it reads *)

(** X5: a benchmarked metric that the metrics set does not hold is compared
    as 0: it is 100 percent below its benchmark. *)
Theorem compare_to_benchmarks_missing_metric (metrics : num_dict)
    (metric : string) (c : float) :
  (metric, c) ∈ benchmarks → metrics !! metric = None →
  ((∀ metric' c', (metric', c') ∈ benchmarks →
      convertible (get0 metrics metric')) →
   ∃ cmp, compare_to_benchmarks metrics = Ok cmp) ∧
  ∀ cmp, compare_to_benchmarks metrics = Ok cmp →
    ∃ e, performance cmp !! metric = Some e ∧
      actual e = Py.Int 0 ∧
      difference e = Py.Float (- c) ∧
      difference_percent e = Py.Float (-100) ∧
      bench_status e = "below".
Proof.
  intros Hin Hnone. split; [apply compare_to_benchmarks_returns|].
  intros cmp Hcmp.
  destruct (compare_to_benchmarks_Ok metrics cmp Hcmp metric c Hin)
    as (e & Hlook & He).
  exists e. split; [done|].
  unfold compare_metric, get0 in He. rewrite Hnone in He.
  unfold benchmarks in Hin. rewrite !elem_of_cons, elem_of_nil in Hin.
  destruct Hin as [[= -> ->]|[[= -> ->]|[[= -> ->]|[]]]];
    vm_compute in He; by injection He as <-.
Qed.

Lemma compare_to_benchmarks_missing_metric_witness :
  ∃ cmp e, compare_to_benchmarks strong_metrics = Ok cmp ∧
    performance cmp !! "unsubscribe_rate" = Some e ∧
    actual e = Py.Int 0 ∧
    difference e = Py.Float (-0.005) ∧
    difference_percent e = Py.Float (-100) ∧
    bench_status e = "below".
Proof.
  destruct (compare_to_benchmarks_missing_metric strong_metrics
              "unsubscribe_rate" 0.005) as [Hret Hent];
    [do 2 apply list_elem_of_further; apply list_elem_of_here|done|].
  destruct (Hret strong_metrics_convertible) as [cmp Hcmp].
  destruct (Hent cmp Hcmp) as (e & He).
  exists cmp, e. exact (conj Hcmp He).
Defined.

(** X6: the comparison covers the three benchmarked metrics and nothing else:
    whatever the metrics set holds, [performance] has exactly the keys
    [open_rate], [click_rate] and [unsubscribe_rate], and the metrics set
    and the benchmarks are handed back as they are. *)
Theorem compare_to_benchmarks_keys (metrics : num_dict) (cmp : comparison) :
  compare_to_benchmarks metrics = Ok cmp →
  dom (performance cmp)
    = ({["open_rate"; "click_rate"; "unsubscribe_rate"]} : gset string) ∧
  comparison_metrics cmp = metrics ∧
  comparison_benchmarks cmp = benchmarks.
Proof.
  unfold compare_to_benchmarks. cbn [foldl benchmarks]. run.
  intros H. inv_binds. subst. cbn [performance comparison_metrics
    comparison_benchmarks].
  split; [|done]. rewrite !dom_insert_L, dom_empty_L. set_solver.
Qed.

Lemma compare_to_benchmarks_keys_witness :
  ∃ cmp, compare_to_benchmarks strong_metrics = Ok cmp ∧
    dom (performance cmp)
      = ({["open_rate"; "click_rate"; "unsubscribe_rate"]} : gset string).
Proof.
  destruct (compare_to_benchmarks_returns strong_metrics
              strong_metrics_convertible) as [cmp Hcmp].
  exists cmp. split; [done|].
  by apply (compare_to_benchmarks_keys strong_metrics cmp).
Defined.

(** ** compare_to_benchmarks: the percentage and the status *)

(** Dividing by a benchmark and multiplying by 100 keeps the sign of a
    float: the quotient by a number below 1 does not underflow. *)
Lemma percent_sign d c :
  small_positive c →
  SFcompare (Prim2SF (d / c * 100)) (S754_zero false)
    = SFcompare (Prim2SF d) (S754_zero false).
Proof.
  intros (m & e & Hc & He).
  pose proof (Prim2SF_valid c) as Hvc. rewrite Hc in Hvc.
  apply andb_true_iff in Hvc as [Hvc _].
  apply SF.canonical_bounds in Hvc as (_ & Hm & _).
  assert (Zdigits2 (Z.pos m) + e <= 0) as Hdc.
  { pose proof (SF.Zdigits2_lt_pow2 (Z.pos m) 53 ltac:(lia)). lia. }
  pose proof (Prim2SF_valid (d / c)) as Hvq.
  rewrite FloatAxioms.div_spec, Hc in Hvq.
  rewrite FloatAxioms.mul_spec, FloatAxioms.div_spec, Hc.
  unfold SF64mul, SF64div in *.
  change (Prim2SF 100) with (S754_finite false 7036874417766400 (-46)).
  pose proof (Prim2SF_valid d) as Hvd.
  destruct (Prim2SF d) as [s|s| |s md ed]; [by destruct s..|done|].
  apply andb_true_iff in Hvd as [Hvd _].
  apply SF.canonical_bounds in Hvd as (Hed & _ & _).
  destruct (SFdiv_sign s md ed false m e Hed Hdc)
    as [->|(mq & eq & Hq)]; [by destruct s|].
  rewrite Hq in *.
  apply andb_true_iff in Hvq as [Hvq _].
  apply SF.canonical_bounds in Hvq as (Heq & _ & _).
  destruct (SFmul_sign (xorb s false) mq eq false 7036874417766400 (-46)
              Heq ltac:(done)) as [->|(mp & ep & ->)];
    by destruct s.
Qed.

Lemma arith_float_r fz ff a y v :
  Py.arith fz ff a (Py.Float y) = Ok v → ∃ z, v = Py.Float z.
Proof.
  unfold Py.arith. intros H.
  destruct a; inv_bind H; injection H as <-; by eexists.
Qed.

(** The difference and the percentage of an entry are floats, the
    percentage computed from the difference. *)
Lemma compare_metric_floats metrics metric c e :
  (metric, c) ∈ benchmarks →
  compare_metric metrics metric c = Ok e →
  ∃ d, difference e = Py.Float d ∧
       difference_percent e = Py.Float (d / c * 100).
Proof.
  intros Hin He. pose proof (benchmarks_small _ _ Hin) as (_ & _ & Hnz).
  destruct (compare_metric_Ok _ _ _ _ Hin He) as (_ & _ & Hd & Hp & _).
  destruct (arith_float_r _ _ _ _ _ Hd) as [d Hd']. exists d.
  split; [done|]. rewrite Hd' in Hp. unfold binop, lit in Hp.
  revert Hp. run. unfold Py.truediv. cbn [Py.to_float]. run.
  unfold Py.float_truediv. rewrite Hnz. run.
  destruct float_of_weights as (_ & _ & _ & H100).
  rewrite (mul_float_int _ _ _ H100). by intros [= <-].
Qed.

Lemma sign_status_percent d c :
  small_positive c →
  sign_status (Py.Float (d / c * 100)) = sign_status (Py.Float d).
Proof.
  intros Hc. unfold sign_status, Py.gt, Py.lt.
  by rewrite !float_cmp_int_0, percent_sign.
Qed.

(** X7: the sign of [difference_percent] is the one the status reports: the
    percentage is greater than 0 exactly under "above" and smaller than 0
    exactly under "below". *)
Theorem compare_to_benchmarks_percent_sign (metrics : num_dict)
    (cmp : comparison) (metric : string) (c : float) :
  compare_to_benchmarks metrics = Ok cmp → (metric, c) ∈ benchmarks →
  ∃ e, performance cmp !! metric = Some e ∧
    (bench_status e = "above" ↔
       Py.gt (difference_percent e) (Py.Int 0) = true) ∧
    (bench_status e = "below" ↔
       Py.lt (difference_percent e) (Py.Int 0) = true).
Proof.
  intros Hcmp Hin.
  destruct (compare_to_benchmarks_Ok metrics cmp Hcmp metric c Hin)
    as (e & Hlook & He).
  exists e. split; [done|].
  destruct (compare_metric_floats _ _ _ _ Hin He) as (d & Hd & Hp).
  destruct (compare_metric_Ok _ _ _ _ Hin He) as (_ & _ & _ & _ & Hs).
  pose proof (benchmarks_small _ _ Hin) as (Hsmall & _ & _).
  rewrite Hs, Hd, Hp, <- (sign_status_percent d c Hsmall).
  unfold sign_status, Py.gt, Py.lt.
  destruct (Py.float_cmp_int (d / c * 100) 0) as [[]|]; by vm_compute.
Qed.

Lemma compare_to_benchmarks_percent_sign_witness :
  ∃ cmp e, compare_to_benchmarks strong_metrics = Ok cmp ∧
    performance cmp !! "open_rate" = Some e ∧
    (bench_status e = "above" ↔
       Py.gt (difference_percent e) (Py.Int 0) = true).
Proof.
  destruct (compare_to_benchmarks_returns strong_metrics
              strong_metrics_convertible) as [cmp Hcmp].
  destruct (compare_to_benchmarks_percent_sign strong_metrics cmp
              "open_rate" 0.21 Hcmp) as (e & He & Ha & _);
    [apply list_elem_of_here|].
  exists cmp, e. exact (conj Hcmp (conj He Ha)).
Defined.

(** ** compare_to_benchmarks on the metrics of calculate_metrics *)

(** A rounding of a mantissa that is not negative is a number. *)
Lemma binary_round_aux_not_nan sx mx ex lx :
  0 <= mx → binary_round_aux prec emax sx mx ex lx ≠ S754_nan.
Proof.
  intros Hmx.
  destruct (SF.binary_round_aux_spec sx mx ex lx Hmx) as (m2 & Hb & ->).
  pose proof (SF.rounding_digits mx ex m2 Hmx Hb) as (_ & Hm3 & _).
  cbv zeta in *.
  destruct (m2 / 2 ^ _) as [|p|p]; [done| |lia].
  by destruct (_ <=? 971).
Qed.

(** The quotient of two integers is a number. *)
Lemma int_truediv_not_nan a b q : Py.int_truediv a b = Ok q → q ≠ nan.
Proof.
  unfold Py.int_truediv. destruct (Z.eqb_spec b 0) as [|Hb]; [done|].
  set (s := SFdiv prec emax (Py.SF_of_Z a) (Py.SF_of_Z b)).
  assert (valid_binary s = true ∧ s ≠ S754_nan) as [Hv Hn].
  { subst s. destruct a as [|a|a], b as [|b|b]; try done;
      cbn [Py.SF_of_Z];
      (split; [apply SF.SFdiv_Z_valid|]);
      match goal with
      | |- SFdiv _ _ (S754_finite ?sa _ _) (S754_finite ?sb _ _) ≠ _ =>
          destruct (SF.SFdiv_Z_spec sa a sb b) as [l ->]
      end;
      apply binary_round_aux_not_nan;
      (apply Z.div_pos; [|done]);
      (apply Z.mul_nonneg_nonneg; [done|apply Z.pow_nonneg; lia]). }
  intros Hq. assert (q = SF2Prim s) as -> by (by destruct s; simplify_eq).
  intros Hnan%Prim2SF_nan. by rewrite Prim2SF_SF2Prim in Hnan.
Qed.

(** A rate is the [int] 0 of the guard or a float that is a number. *)
Lemma rate_number n d v :
  rate n d = Ok v → v = Py.Int 0 ∨ ∃ x, v = Py.Float x ∧ x ≠ nan.
Proof.
  unfold rate. destruct (0 <? d); [|intros [= <-]; by left].
  cbn [Py.truediv]. intros (q & Hq & ->)%fmap_Ok. right. exists q.
  split; [done|]. by apply int_truediv_not_nan in Hq.
Qed.

Lemma number_convertible v :
  v = Py.Int 0 ∨ (∃ x, v = Py.Float x ∧ x ≠ nan) →
  convertible v ∧ v ≠ Py.Float nan.
Proof. intros [->|(x & -> & Hx)]; [done|]. split; [done|congruence]. Qed.

(** X8: the metrics [calculate_metrics] returns can always be compared: no
    exception is raised, and since a computed rate is never a NaN each
    status is exact, "above" iff the rate is greater than the benchmark,
    "below" iff it is smaller, "at" iff it is equal. *)
Theorem compare_to_benchmarks_calculated (raw : gmap string Z)
    (m : num_dict) :
  calculate_metrics raw = Ok m →
  ∃ cmp, compare_to_benchmarks m = Ok cmp ∧
    ∀ metric c, (metric, c) ∈ benchmarks →
      ∃ e, performance cmp !! metric = Some e ∧
        actual e = get0 m metric ∧
        status_spec (bench_status e) (actual e) (Py.Float c).
Proof.
  intros (r1 & r2 & r3 & r4 & r5 & v & H1 & H2 & _ & _ & H5 & _ & Hm)
    %calculate_metrics_Ok.
  destruct Hm as (M1 & M2 & _ & _ & M5 & _).
  apply rate_number, number_convertible in H1, H2, H5.
  assert (∀ metric c, (metric, c) ∈ benchmarks →
            convertible (get0 m metric) ∧ get0 m metric ≠ Py.Float nan)
    as Hnum.
  { intros metric c. unfold benchmarks, get0.
    rewrite !elem_of_cons, elem_of_nil.
    intros [[= -> ->]|[[= -> ->]|[[= -> ->]|[]]]];
      by rewrite ?M1, ?M2, ?M5. }
  destruct (compare_to_benchmarks_returns m) as [cmp Hcmp].
  { intros metric c Hin. by apply (Hnum metric c). }
  exists cmp. split; [done|]. intros metric c Hin.
  destruct (compare_to_benchmarks_Ok m cmp Hcmp metric c Hin)
    as (e & Hlook & He).
  destruct (compare_metric_Ok _ _ _ _ Hin He) as (Ha & _).
  exists e. split_and!; [done..|].
  apply (compare_metric_status m metric); [done..|].
  rewrite Ha. by apply (Hnum metric c).
Qed.

Lemma compare_to_benchmarks_calculated_witness :
  ∃ m cmp e, calculate_metrics scenario_counts = Ok m ∧
    compare_to_benchmarks m = Ok cmp ∧
    performance cmp !! "open_rate" = Some e ∧
    status_spec (bench_status e) (actual e) (Py.Float 0.21).
Proof.
  destruct (calculate_metrics_returns scenario_counts
              scenario_counts_in_range) as [m Hm].
  destruct (compare_to_benchmarks_calculated scenario_counts m Hm)
    as (cmp & Hcmp & Hent).
  destruct (Hent "open_rate" 0.21%float) as (e & He & _ & Hs);
    [apply list_elem_of_here|].
  exists m, cmp, e. exact (conj Hm (conj Hcmp (conj He Hs))).
Defined.

(** ** identify_trends: what the entries say *)

(** The sign of a float difference is the comparison of its operands,
    whatever the operands. *)
Lemma float_sub_gt x y :
  Py.float_cmp_int (x - y) 0 = Some Gt ↔
  SFcompare (Prim2SF x) (Prim2SF y) = Some Gt.
Proof.
  rewrite float_cmp_int_0, FloatAxioms.sub_spec.
  pose proof (Prim2SF_valid y) as Hy. pose proof (Prim2SF_valid x) as Hx.
  destruct (Prim2SF y) as [sy|sy| |sy my ey] eqn:Ey.
  - by destruct (Prim2SF x) as [[]|[]| |[] ? ?], sy.
  - by destruct (Prim2SF x) as [[]|[]| |[] ? ?], sy.
  - by destruct (Prim2SF x).
  - apply andb_true_iff in Hy as [Hy _].
    unfold SF64sub.
    destruct (Prim2SF x) as [sx|sx| |sx mx ex] eqn:Ex; [| |done|];
      by rewrite SF.SFsub_compare_zero.
Qed.

Lemma truediv_Ok_float a b v : Py.truediv a b = Ok v → ∃ x, v = Py.Float x.
Proof.
  unfold Py.truediv. intros H.
  destruct a, b; try (inv_bind H); apply fmap_Ok in H as (q & _ & ->);
    by eexists.
Qed.

Lemma mean_of_Ok_float key records n v :
  mean_of key records n = Ok v → ∃ x, v = Py.Float x.
Proof.
  unfold mean_of. intros H. inv_bind H. by apply truediv_Ok_float in H.
Qed.

(** A trend is "improving" exactly when the change is positive. *)
Lemma trend_label_change x y :
  (trend_label (Py.Float x) (Py.Float y) = "improving" ↔
     Py.gt (Py.Float (x - y)) (Py.Int 0) = true) ∧
  (trend_label (Py.Float x) (Py.Float y) = "declining" ↔
     Py.gt (Py.Float (x - y)) (Py.Int 0) = false).
Proof.
  unfold trend_label, Py.gt, Py.lt. rewrite float_gtb_cmp.
  rewrite <- (bool_decide_ext _ _ (float_sub_gt x y)).
  by destruct (bool_decide _).
Qed.

Lemma analyze_records_label_change g e :
  analyze_records g = Ok e →
  (open_rate_trend e = "improving" ↔
     Py.gt (open_rate_change e) (Py.Int 0) = true) ∧
  (open_rate_trend e = "declining" ↔
     Py.gt (open_rate_change e) (Py.Int 0) = false) ∧
  (click_rate_trend e = "improving" ↔
     Py.gt (click_rate_change e) (Py.Int 0) = true) ∧
  (click_rate_trend e = "declining" ↔
     Py.gt (click_rate_change e) (Py.Int 0) = false).
Proof.
  unfold analyze_records. intros H. inv_bind H. injection H as <-.
  apply mean_of_Ok_float in Hv1 as [fo ->].
  apply mean_of_Ok_float in Hv2 as [so ->].
  apply mean_of_Ok_float in Hv3 as [fc ->].
  apply mean_of_Ok_float in Hv4 as [sc ->].
  rewrite sub_float in Hv5, Hv6.
  injection Hv5 as <-. injection Hv6 as <-.
  cbn [open_rate_trend open_rate_change click_rate_trend click_rate_change].
  pose proof (trend_label_change so fo). pose proof (trend_label_change sc fc).
  tauto.
Qed.

(** A report with a [trends] map comes from the loop over the groups. *)
Lemma identify_trends_trends now h r t :
  identify_trends now h = Ok r → trends r = Some t →
  collect_trends (group_by_persona h) = Ok t ∧
  personas_analyzed r = Some (size t).
Proof.
  unfold identify_trends. destruct (length h <? 2)%nat.
  - by intros [= <-].
  - intros (t' & Ht & [= <-])%bind_Ok. cbn. by intros [= <-].
Qed.

Lemma identify_trends_entry now h r t p e :
  identify_trends now h = Ok r → trends r = Some t → t !! p = Some e →
  (2 <= length (persona_group p h))%nat ∧
  analyze_records (persona_group p h) = Ok e.
Proof.
  intros Hr Ht Hp.
  destruct (identify_trends_trends now h r t Hr Ht) as [Hc _].
  pose proof (collect_trends_lookup h t p Hc) as Hl.
  destruct (Nat.ltb_spec (length (persona_group p h)) 2) as [Hlt|Hge];
    [congruence|].
  destruct Hl as (e' & He' & Hp'). split; [done|]. congruence.
Qed.

(** X9: in every entry of a report, the label of a trend and the sign of the
    change agree: the trend is "improving" exactly when the change is
    greater than 0, and "declining" in every other case, a change of 0 or
    one that is not a number included. *)
Theorem identify_trends_label_change now (h : list history_record)
    (r : trend_report) (t : gmap string trend_entry) (p : string)
    (e : trend_entry) :
  identify_trends now h = Ok r → trends r = Some t → t !! p = Some e →
  (open_rate_trend e = "improving" ↔
     Py.gt (open_rate_change e) (Py.Int 0) = true) ∧
  (open_rate_trend e = "declining" ↔
     Py.gt (open_rate_change e) (Py.Int 0) = false) ∧
  (click_rate_trend e = "improving" ↔
     Py.gt (click_rate_change e) (Py.Int 0) = true) ∧
  (click_rate_trend e = "declining" ↔
     Py.gt (click_rate_change e) (Py.Int 0) = false).
Proof.
  intros Hr Ht Hp.
  destruct (identify_trends_entry now h r t p e Hr Ht Hp) as [_ He].
  by apply analyze_records_label_change in He.
Qed.

(** The report on [three_campaigns], with its entry for the founders. *)
Lemma three_campaigns_report :
  ∃ r t e,
    identify_trends "2024-01-01T00:00:00" three_campaigns = Ok r ∧
    trends r = Some t ∧ t !! "founders" = Some e.
Proof.
  destruct (identify_trends_returns "2024-01-01T00:00:00" three_campaigns
              three_campaigns_float_rates) as [r Hr]; [done|].
  pose proof Hr as Hr'.
  rewrite identify_trends_success in Hr' by (simpl; lia).
  apply bind_Ok in Hr' as (t & Ht & [= <-]).
  pose proof (collect_trends_lookup three_campaigns t "founders" Ht) as Hl.
  change (length (persona_group "founders" three_campaigns) <? 2)%nat
    with false in Hl.
  destruct Hl as (e & _ & He). eexists _, t, e. by split_and!.
Qed.

Lemma identify_trends_label_change_witness :
  ∃ r t e,
    identify_trends "2024-01-01T00:00:00" three_campaigns = Ok r ∧
    trends r = Some t ∧ t !! "founders" = Some e ∧
    (open_rate_trend e = "improving" ↔
       Py.gt (open_rate_change e) (Py.Int 0) = true).
Proof.
  destruct three_campaigns_report as (r & t & e & Hr & Ht & He).
  exists r, t, e. split_and!; [done..|].
  apply (identify_trends_label_change _ _ r t "founders" e Hr Ht He).
Defined.

(** ** identify_trends: how many records and personas *)

Lemma dict_append_total {A} (d : list (string * list A)) k x :
  sum_list (length <$> (dict_append d k x).*2)
    = S (sum_list (length <$> d.*2)).
Proof.
  induction d as [|[k' xs] d IH]; [done|].
  cbn [dict_append]. destruct (decide (k' = k)) as [->|Hk].
  - rewrite !fmap_cons. cbn [snd sum_list_with fmap list_fmap id].
    rewrite length_app. simpl. lia.
  - rewrite !fmap_cons. cbn [snd sum_list_with fmap list_fmap id].
    rewrite IH. lia.
Qed.

(** The groups share out the records of the history. *)
Lemma group_by_persona_total h :
  sum_list (length <$> (group_by_persona h).*2) = length h.
Proof.
  induction h as [|r h IH] using rev_ind; [done|].
  rewrite group_by_persona_snoc, dict_append_total, IH, length_app.
  simpl. lia.
Qed.

(** Each entry the loop adds stands for at least two records. *)
Lemma collect_foldl_size d t0 t :
  NoDup d.*1 → (∀ k, k ∈ d.*1 → t0 !! k = None) →
  foldl collect_step (Ok t0) d = Ok t →
  (2 * size t <= 2 * size t0 + sum_list (length <$> d.*2))%nat.
Proof.
  revert t0. induction d as [|[k g] d IH]; intros t0 Hd Hnew Hfold.
  - simpl in *. injection Hfold as <-. lia.
  - rewrite fmap_cons in Hd. apply NoDup_cons in Hd as [Hk Hd].
    cbn [foldl collect_step fst mbind result_bind] in Hfold.
    rewrite !fmap_cons. cbn [snd sum_list_with fmap list_fmap id].
    destruct (Nat.ltb_spec (length g) 2) as [Hlt|Hge].
    + apply IH in Hfold; [lia|done|].
      intros k' Hk'. apply Hnew. rewrite fmap_cons.
      by apply list_elem_of_further.
    + destruct (analyze_records g) as [e|err] eqn:He; cbn in Hfold.
      * apply IH in Hfold; [|done|].
        -- rewrite map_size_insert_None in Hfold; [lia|].
           apply Hnew. rewrite fmap_cons. apply list_elem_of_here.
        -- intros k' Hk'. rewrite lookup_insert_ne by (by intros ->).
           apply Hnew. rewrite fmap_cons. by apply list_elem_of_further.
      * rewrite foldl_Raise in Hfold by apply collect_step_Raise. done.
Qed.

Lemma analyze_records_campaigns g e :
  analyze_records g = Ok e → campaigns_analyzed e = length g.
Proof.
  unfold analyze_records. intros H. inv_bind H. by injection H as <-.
Qed.

(** X10: the counts of a report: [personas_analyzed] is the number of entries
    of [trends], at most half the number of records of the history, and
    the [campaigns_analyzed] of an entry is the number of records of its
    persona in the history, at least two. *)
Theorem identify_trends_counts now (h : list history_record)
    (r : trend_report) (t : gmap string trend_entry) :
  identify_trends now h = Ok r → trends r = Some t →
  personas_analyzed r = Some (size t) ∧
  (2 * size t <= length h)%nat ∧
  ∀ p e, t !! p = Some e →
    campaigns_analyzed e = length (persona_group p h) ∧
    (2 <= campaigns_analyzed e)%nat.
Proof.
  intros Hr Ht.
  destruct (identify_trends_trends now h r t Hr Ht) as [Hc Hn].
  split; [done|]. split.
  - rewrite collect_trends_foldl in Hc.
    apply collect_foldl_size in Hc; [|apply group_by_persona_NoDup|done].
    rewrite group_by_persona_total, map_size_empty in Hc. lia.
  - intros p e Hp.
    destruct (identify_trends_entry now h r t p e Hr Ht Hp) as [Hlen He].
    apply analyze_records_campaigns in He. by rewrite He.
Qed.

Lemma identify_trends_counts_witness :
  ∃ r t e,
    identify_trends "2024-01-01T00:00:00" three_campaigns = Ok r ∧
    trends r = Some t ∧ t !! "founders" = Some e ∧
    personas_analyzed r = Some (size t) ∧
    (2 * size t <= 3)%nat ∧ campaigns_analyzed e = 2%nat.
Proof.
  destruct three_campaigns_report as (r & t & e & Hr & Ht & He).
  destruct (identify_trends_counts _ _ r t Hr Ht) as (Hn & Hs & Hp).
  destruct (Hp "founders" e He) as [Hc _].
  exists r, t, e. split_and!; done.
Defined.

(** ** identify_trends: no division by zero *)

Lemma sum_Raise vs e : Py.sum vs = Raise e → e = OverflowError.
Proof.
  unfold Py.sum.
  assert (∀ acc : result Py.num,
            (∀ e', acc = Raise e' → e' = OverflowError) →
            foldl (fun acc v => a ← acc; Py.add a v) acc vs = Raise e →
            e = OverflowError) as Hgen.
  { induction vs as [|v vs IH]; intros acc Hacc; [apply Hacc|].
    cbn [foldl]. apply IH. intros e' [He'|(a & _ & He')]%bind_Raise.
    - by apply Hacc.
    - by apply arith_Raise in He'. }
  by apply Hgen.
Qed.

(** A division by a positive [int] is not a division by zero. *)
Lemma truediv_positive_Raise a n e :
  0 < n → Py.truediv a (Py.Int n) = Raise e → e = OverflowError.
Proof.
  intros Hn. destruct a as [z|x].
  - apply truediv_int_Raise. lia.
  - cbn [Py.truediv Py.to_float]. run.
    destruct (Py.float_of_int n) as [y|e'] eqn:Hy; run.
    + apply float_of_int_Ok in Hy.
      destruct n as [|n|n]; [lia| |lia]. destruct Hy as (m & ex & Hy & _).
      unfold Py.float_truediv.
      rewrite float_eqb_cmp, Hy. by vm_compute.
    + intros [= <-]. by apply float_of_int_Raise in Hy.
Qed.

Lemma mean_of_Raise key records n e :
  (0 < n)%nat → mean_of key records n = Raise e → e = OverflowError.
Proof.
  intros Hn. unfold mean_of. intros [H|(s & _ & H)]%bind_Raise.
  - by apply sum_Raise in H.
  - apply truediv_positive_Raise in H; [done|lia].
Qed.

Lemma analyze_records_Raise g e :
  (2 <= length g)%nat → analyze_records g = Raise e → e = OverflowError.
Proof.
  intros Hlen. unfold analyze_records.
  assert (1 <= length g / 2)%nat as Hmid1
    by (apply Nat.div_le_lower_bound; lia).
  assert (length g / 2 < length g)%nat as Hmid2 by (apply Nat.div_lt; lia).
  intros H. inv_raise H;
    first [apply mean_of_Raise in H; [done|lia]
          |by apply arith_Raise in H
          |done].
Qed.

Lemma collect_foldl_Raise d acc e :
  (∀ e', acc = Raise e' → e' = OverflowError) →
  foldl collect_step acc d = Raise e → e = OverflowError.
Proof.
  revert acc. induction d as [|[k g] d IH]; intros acc Hacc; [apply Hacc|].
  cbn [foldl]. apply IH. intros e'. unfold collect_step.
  intros [He'|(t & _ & He')]%bind_Raise; [by apply Hacc|].
  destruct (Nat.ltb_spec (length g) 2) as [|Hge]; [done|].
  apply bind_Raise in He' as [He'|(? & _ & ?)]; [|done].
  by apply analyze_records_Raise in He'.
Qed.

(** *** Histories of readable rates *)

Lemma mean_rate_readable key records :
  Forall (fun r => zero_or_float (rate_of key r)) records →
  0 < Z.of_nat (length records) < 2 ^ 1023 →
  ∃ x, mean_rate key records = Ok (Py.Float x).
Proof.
  intros Hr Hn. unfold mean_rate.
  destruct (sum_zero_or_float (map (rate_of key) records)) as (s & -> & Hs);
    [by apply Forall_map|].
  run. by apply truediv_count.
Qed.

Lemma readable_rates_key records :
  readable_rates records →
  Forall (fun r => zero_or_float (rate_of "open_rate" r)) records ∧
  Forall (fun r => zero_or_float (rate_of "click_rate" r)) records.
Proof.
  intros Hr. split; (eapply Forall_impl; [exact Hr|]); by intros r [? ?].
Qed.

Lemma analyze_records_readable records :
  readable_rates records →
  (2 <= length records)%nat → Z.of_nat (length records) < 2 ^ 1023 →
  ∃ e, analyze_records records = Ok e.
Proof.
  intros [Ho Hc]%readable_rates_key Hlen Hbig. unfold analyze_records.
  set (n := length records) in *. set (mid := (n / 2)%nat).
  assert (1 <= mid ∧ mid < n)%nat as [Hmid1 Hmid2].
  { subst mid. split.
    - apply Nat.div_le_lower_bound; lia.
    - apply Nat.div_lt; lia. }
  assert (length (take mid records) = mid) as Hlt
    by (rewrite length_take_le; [done|subst n; lia]).
  assert (length (drop mid records) = (n - mid)%nat) as Hld
    by (by rewrite length_drop).
  rewrite !(mean_of_mean_rate _ records n) by done.
  rewrite !(mean_of_mean_rate _ (take mid records) mid) by done.
  rewrite !(mean_of_mean_rate _ (drop mid records) (n - mid)) by done.
  destruct (mean_rate_readable "open_rate" records Ho) as [? ->]; [lia|].
  destruct (mean_rate_readable "click_rate" records Hc) as [? ->]; [lia|].
  destruct (mean_rate_readable "open_rate" (take mid records))
    as [? ->]; [by apply Forall_take|lia|].
  destruct (mean_rate_readable "open_rate" (drop mid records))
    as [? ->]; [by apply Forall_drop|lia|].
  destruct (mean_rate_readable "click_rate" (take mid records))
    as [? ->]; [by apply Forall_take|lia|].
  destruct (mean_rate_readable "click_rate" (drop mid records))
    as [? ->]; [by apply Forall_drop|lia|].
  run. rewrite !sub_float. run. by eexists.
Qed.

Lemma identify_trends_readable now h :
  readable_rates h → Z.of_nat (length h) < 2 ^ 1023 →
  ∃ r, identify_trends now h = Ok r ∧
       status r = if (length h <? 2)%nat then "insufficient_data"
                  else "success".
Proof.
  intros Hr Hlen. unfold identify_trends.
  destruct (length h <? 2)%nat; [by eexists|].
  destruct (collect_foldl_total (group_by_persona h) ∅) as [t Ht].
  { intros k g Hin Hg. apply group_by_persona_elem_of in Hin as ->.
    apply analyze_records_readable; [|done|].
    - unfold readable_rates, persona_group in *.
      rewrite !Forall_forall in *.
      intros r [_ Hin]%list_elem_of_filter. by apply Hr.
    - pose proof (length_filter (fun r => persona_of r = k) h) as Hle.
      unfold persona_group. lia. }
  rewrite collect_trends_foldl, Ht. run. by eexists.
Qed.

(** X11: [identify_trends] divides by the size of a group and by the sizes
    of its halves, which are at least 1 past the test on the size of the
    group: on records whose rates are [int]s or [float]s it never raises
    ZeroDivisionError.  And when the rates the records hold are [float]s,
    whatever their other fields, it returns a report. *)
Theorem identify_trends_no_zero_division now (h : list history_record) :
  identify_trends now h ≠ Raise ZeroDivisionError ∧
  (readable_rates h → Z.of_nat (length h) < 2 ^ 1023 →
   ∃ r, identify_trends now h = Ok r).
Proof.
  split.
  - unfold identify_trends. destruct (length h <? 2)%nat; [done|].
    intros [H|(t & _ & H)]%bind_Raise; [|done].
    by apply collect_foldl_Raise in H.
  - intros Hr Hlen.
    destruct (identify_trends_readable now h Hr Hlen) as (r & Hok & _).
    by exists r.
Qed.

Lemma identify_trends_no_zero_division_witness :
  identify_trends "2024-01-01T00:00:00" huge_rate_history
    = Raise OverflowError ∧
  ∃ r, identify_trends "2024-01-01T00:00:00" two_founders = Ok r.
Proof.
  destruct (identify_trends_no_zero_division "2024-01-01T00:00:00"
              huge_rate_history) as [Hz _].
  destruct (identify_trends_no_zero_division "2024-01-01T00:00:00"
              two_founders) as [_ Hr].
  split.
  - destruct (identify_trends "2024-01-01T00:00:00" huge_rate_history)
      as [r|[]] eqn:E; [by vm_compute in E|done|done].
  - apply Hr; [|done].
    repeat apply Forall_cons_2; [..|apply Forall_nil_2];
      (split; [right; by eexists|by left]).
Defined.

(** ** identify_trends: a rate the records lack *)

Lemma sum_lacking key records :
  lacks_key key records →
  Py.sum (map (fun r => get0 (fields r) key) records) = Ok (Py.Int 0).
Proof.
  unfold Py.sum, get0. intros Hl.
  induction Hl as [|r records Hr _ IH]; [done|].
  cbn [map foldl]. by rewrite Hr.
Qed.

Lemma mean_of_lacking key records n :
  lacks_key key records → (0 < n)%nat →
  mean_of key records n = Ok (Py.Float 0).
Proof.
  intros Hl Hn. unfold mean_of. rewrite sum_lacking by done. run.
  unfold Py.truediv, Py.int_truediv.
  destruct (Z.eqb_spec (Z.of_nat n) 0); [lia|].
  destruct (Z.of_nat n) as [|p|p] eqn:E; [lia|done|lia].
Qed.

(** X12: a rate that no record of a persona holds reads as 0 in each of them:
    its average is 0.0, its change is 0.0 and its trend is "declining". *)
Theorem identify_trends_lacking_rate now (h : list history_record)
    (r : trend_report) (t : gmap string trend_entry) (p : string)
    (e : trend_entry) :
  identify_trends now h = Ok r → trends r = Some t → t !! p = Some e →
  (lacks_key "open_rate" (persona_group p h) →
     avg_open_rate e = Py.Float 0 ∧ open_rate_change e = Py.Float 0 ∧
     open_rate_trend e = "declining") ∧
  (lacks_key "click_rate" (persona_group p h) →
     avg_click_rate e = Py.Float 0 ∧ click_rate_change e = Py.Float 0 ∧
     click_rate_trend e = "declining").
Proof.
  intros Hr Ht Hp.
  destruct (identify_trends_entry now h r t p e Hr Ht Hp) as [Hlen He].
  set (g := persona_group p h) in *. clearbody g.
  assert (1 <= length g / 2)%nat by (apply Nat.div_le_lower_bound; lia).
  assert (length g / 2 < length g)%nat by (apply Nat.div_lt; lia).
  unfold analyze_records in He. inv_bind He. injection He as <-.
  cbn [avg_open_rate open_rate_change open_rate_trend avg_click_rate
       click_rate_change click_rate_trend].
  split; intros Hl;
    pose proof (Forall_take _ (length g / 2)%nat _ Hl) as Hlt;
    pose proof (Forall_drop _ (length g / 2)%nat _ Hl) as Hld.
  - rewrite (mean_of_lacking _ _ _ Hl) in Hv by lia.
    rewrite (mean_of_lacking _ _ _ Hlt) in Hv1 by lia.
    rewrite (mean_of_lacking _ _ _ Hld) in Hv2 by lia.
    injection Hv as <-. injection Hv1 as <-. injection Hv2 as <-.
    vm_compute in Hv5. by injection Hv5 as <-.
  - rewrite (mean_of_lacking _ _ _ Hl) in Hv0 by lia.
    rewrite (mean_of_lacking _ _ _ Hlt) in Hv3 by lia.
    rewrite (mean_of_lacking _ _ _ Hld) in Hv4 by lia.
    injection Hv0 as <-. injection Hv3 as <-. injection Hv4 as <-.
    vm_compute in Hv6. by injection Hv6 as <-.
Qed.

Lemma identify_trends_lacking_rate_witness :
  ∃ r t e,
    identify_trends "2024-01-01T00:00:00" two_founders = Ok r ∧
    trends r = Some t ∧ t !! "founders" = Some e ∧
    avg_click_rate e = Py.Float 0 ∧ click_rate_change e = Py.Float 0 ∧
    click_rate_trend e = "declining".
Proof.
  assert (∃ r t e,
            identify_trends "2024-01-01T00:00:00" two_founders = Ok r ∧
            trends r = Some t ∧ t !! "founders" = Some e)
    as (r & t & e & Hr & Ht & He).
  { destruct (identify_trends "2024-01-01T00:00:00" two_founders)
      as [r|err] eqn:E; [|by vm_compute in E].
    pose proof E as E'.
    rewrite identify_trends_success in E' by (simpl; lia).
    apply bind_Ok in E' as (t & Hc & [= <-]).
    pose proof (collect_trends_lookup two_founders t "founders" Hc) as Hl.
    change (length (persona_group "founders" two_founders) <? 2)%nat
      with false in Hl.
    destruct Hl as (e & _ & He). eexists _, t, e. by split_and!. }
  exists r, t, e. split_and!; [done..| | |];
    apply (identify_trends_lacking_rate _ _ r t "founders" e Hr Ht He);
    repeat constructor.
Defined.

(** ** suggest_optimization: rules that go together and rules that exclude
    each other *)

Lemma rule_1_rule_5 m : rule_1 m = true → rule_5 m = true.
Proof.
  pose proof thresholds_small as Hs. rewrite !Forall_cons in Hs.
  apply lt_threshold_mono; [intuition..|done].
Qed.

Lemma rule_5_rule_4 m : rule_5 m = true → rule_4 m = false.
Proof.
  pose proof thresholds_small as Hs. rewrite !Forall_cons in Hs.
  intros H5. unfold rule_4.
  by rewrite (lt_gt_threshold _ 0.22 0.25) by intuition.
Qed.

Lemma rule_5_rule_6 m : rule_5 m = true → rule_6 m = false.
Proof.
  pose proof thresholds_small as Hs. rewrite !Forall_cons in Hs.
  intros H5. unfold rule_6.
  by rewrite (lt_gt_threshold _ 0.22 0.30) by intuition.
Qed.

Lemma rule_2_rule_6 m : rule_2 m = true → rule_6 m = false.
Proof.
  pose proof thresholds_small as Hs. rewrite !Forall_cons in Hs.
  intros H2. unfold rule_6.
  rewrite (lt_gt_threshold (get0 m "click_rate") 0.08 0.12) by intuition.
  apply andb_false_r.
Qed.

Lemma rule_4_rule_6 m : rule_4 m = true → rule_6 m = false.
Proof.
  pose proof thresholds_small as Hs. rewrite !Forall_cons in Hs.
  intros [_ H4]%andb_true_iff. unfold rule_6.
  rewrite (lt_gt_threshold (get0 m "click_rate") 0.10 0.12) by intuition.
  apply andb_false_r.
Qed.

(** A message is among the fired ones exactly when a rule of the table
    that carries it matches. *)
Lemma elem_of_fired m x :
  x ∈ fired m ↔ ∃ r, r ∈ rule_table ∧ r.1 m = true ∧ r.2 = x.
Proof.
  rewrite fired_matching. unfold matching_messages.
  rewrite list_elem_of_In, in_map_iff. split.
  - intros (r & <- & [Hr Hm]%filter_In). exists r.
    by rewrite list_elem_of_In.
  - intros (r & Hr & Hm & <-). exists r. split; [done|].
    apply filter_In. split; [by apply list_elem_of_In|done].
Qed.

Ltac rule_cases H :=
  unfold rule_table in H;
  repeat (apply elem_of_cons in H as [->|H]); [..|by apply elem_of_nil in H].

Lemma subject_line_fired m : msg_subject_line ∈ fired m ↔ rule_1 m = true.
Proof.
  rewrite elem_of_fired. split.
  - intros (r & Hr & Hm & Hx). by rule_cases Hr.
  - intros H1. exists (rule_1, msg_subject_line).
    split; [apply list_elem_of_In; cbn; tauto|done].
Qed.

Lemma call_to_action_fired m :
  msg_call_to_action ∈ fired m ↔ rule_2 m = true.
Proof.
  rewrite elem_of_fired. split.
  - intros (r & Hr & Hm & Hx). by rule_cases Hr.
  - intros H1. exists (rule_2, msg_call_to_action).
    split; [apply list_elem_of_In; cbn; tauto|done].
Qed.

Lemma send_time_fired m : msg_send_time ∈ fired m ↔ rule_4 m = true.
Proof.
  rewrite elem_of_fired. split.
  - intros (r & Hr & Hm & Hx). by rule_cases Hr.
  - intros H1. exists (rule_4, msg_send_time).
    split; [apply list_elem_of_In; cbn; tauto|done].
Qed.

Lemma segmentation_fired m : msg_segmentation ∈ fired m ↔ rule_5 m = true.
Proof.
  rewrite elem_of_fired. split.
  - intros (r & Hr & Hm & Hx). by rule_cases Hr.
  - intros H1. exists (rule_5, msg_segmentation).
    split; [apply list_elem_of_In; cbn; tauto|done].
Qed.

Lemma strong_performance_fired m :
  msg_strong_performance ∈ fired m ↔ rule_6 m = true.
Proof.
  rewrite elem_of_fired. split.
  - intros (r & Hr & Hm & Hx). by rule_cases Hr.
  - intros H1. exists (rule_6, msg_strong_performance).
    split; [apply list_elem_of_In; cbn; tauto|done].
Qed.

(** A rule message is in the result exactly when it is among the fired
    ones. *)
Lemma elem_of_suggest_optimization m ctx x :
  x ∈ rule_messages →
  x ∈ suggest_optimization m ctx ↔ x ∈ fired m.
Proof.
  intros Hx. rewrite suggest_optimization_fired.
  destruct (fired m) as [|y l] eqn:E; [|done].
  split; [|by intros ?%elem_of_nil].
  intros ->%list_elem_of_singleton.
  by apply normal_ranges_not_a_rule_message in Hx.
Qed.

(** X13: no metrics set draws more than four suggestions: the rules on a low
    open rate (1 and 5) exclude those on a high one (4 and 6), and rule 6
    excludes rules 2 and 4 on the click rate. *)
Theorem suggest_optimization_at_most_four (m : num_dict) ctx :
  (length (suggest_optimization m ctx) <= 4)%nat.
Proof.
  rewrite suggest_optimization_fired.
  pose proof (rule_1_rule_5 m) as H15. pose proof (rule_5_rule_4 m) as H54.
  pose proof (rule_5_rule_6 m) as H56. pose proof (rule_2_rule_6 m) as H26.
  pose proof (rule_4_rule_6 m) as H46.
  unfold fired, append_if.
  destruct (rule_1 m), (rule_2 m), (rule_3 m), (rule_4 m), (rule_5 m),
    (rule_6 m);
    repeat match goal with
           | H : true = true → _ |- _ => specialize (H eq_refl)
           end;
    try discriminate; cbn [app length]; lia.
Qed.

(** X14: the suggestions that come together and those that never do: the
    subject-line suggestion always brings the segmentation suggestion, and
    the strong-performance message never stands beside the subject-line,
    call-to-action, send-time or segmentation suggestion. *)
Theorem suggest_optimization_companions (m : num_dict) ctx :
  let r := suggest_optimization m ctx in
  (msg_subject_line ∈ r → msg_segmentation ∈ r) ∧
  (msg_strong_performance ∈ r →
     (msg_subject_line ∉ r) ∧ (msg_call_to_action ∉ r) ∧
     (msg_send_time ∉ r) ∧ (msg_segmentation ∉ r)).
Proof.
  assert (∀ x, x ∈ rule_messages →
               x ∈ suggest_optimization m ctx ↔ x ∈ fired m) as Hin
    by apply elem_of_suggest_optimization.
  assert (Forall (.∈ rule_messages) rule_messages) as Hall
    by (by apply Forall_forall).
  unfold rule_messages at 2 in Hall. rewrite !Forall_cons in Hall.
  destruct Hall as (M1 & M2 & M3 & M4 & M5 & M6 & _).
  cbv zeta. rewrite !Hin by done.
  rewrite subject_line_fired, call_to_action_fired, send_time_fired,
    segmentation_fired, strong_performance_fired.
  pose proof (rule_1_rule_5 m) as H15. pose proof (rule_5_rule_4 m) as H54.
  pose proof (rule_5_rule_6 m) as H56. pose proof (rule_2_rule_6 m) as H26.
  pose proof (rule_4_rule_6 m) as H46.
  destruct (rule_1 m), (rule_2 m), (rule_4 m), (rule_5 m), (rule_6 m);
    repeat match goal with
           | H : true = true → _ |- _ => specialize (H eq_refl)
           end;
    try discriminate; intuition discriminate.
Qed.

Lemma suggest_optimization_companions_witness :
  msg_segmentation ∈ suggest_optimization weak_metrics ∅ ∧
  (msg_subject_line ∉ suggest_optimization strong_metrics ∅).
Proof.
  split.
  - apply (suggest_optimization_companions weak_metrics ∅).
    vm_compute. apply list_elem_of_here.
  - apply (suggest_optimization_companions strong_metrics ∅).
    vm_compute. apply list_elem_of_further, list_elem_of_here.
Defined.

(** X15: with none of the three rates in the metrics set every rate reads as
    0: rules 1, 2, 3 and 5 fire, whatever else the set holds. *)
Theorem suggest_optimization_missing_rates (m : num_dict) ctx :
  m !! "open_rate" = None → m !! "click_rate" = None →
  m !! "click_to_open_rate" = None →
  suggest_optimization m ctx =
    [msg_subject_line; msg_call_to_action; msg_email_design;
     msg_segmentation].
Proof.
  intros H1 H2 H3. unfold suggest_optimization, get0.
  rewrite H1, H2, H3. by vm_compute.
Qed.

Lemma suggest_optimization_missing_rates_witness :
  suggest_optimization (<["bounce_rate" := Py.Float 0.02]> ∅) ∅ =
    [msg_subject_line; msg_call_to_action; msg_email_design;
     msg_segmentation].
Proof. by apply suggest_optimization_missing_rates. Defined.

(** ** The route of the trends *)

(** X16: on the rows of the table, at most 20 of them with float rates, the
    route answers 200 with the body of a success.  With fewer than two
    rows the report inside has status "insufficient_data" and no trends:
    the status of the body does not tell. *)
Theorem get_trends_answer now (historical : list history_record) :
  readable_rates historical → (length historical <= 20)%nat →
  ∃ r, get_trends now (inr historical) = (body_success r, 200) ∧
    ((length historical < 2)%nat →
       status r = "insufficient_data" ∧ trends r = None) ∧
    ((2 <= length historical)%nat → status r = "success").
Proof.
  intros Hr Hlen. unfold get_trends.
  destruct (identify_trends_readable now historical Hr) as (r & Hok & Hs).
  { apply Z.le_lt_trans with 20; [lia|done]. }
  rewrite Hok. exists r. split; [done|].
  destruct (Nat.ltb_spec (length historical) 2) as [Hlt|Hge].
  - split; [|lia]. intros _. split; [done|].
    unfold identify_trends in Hok.
    destruct (Nat.ltb_spec (length historical) 2); [|lia].
    by injection Hok as <-.
  - split; [lia|done].
Qed.

Lemma get_trends_answer_witness :
  ∃ r, get_trends "2024-01-01T00:00:00" (inr [table_row])
         = (body_success r, 200) ∧
       status r = "insufficient_data" ∧ trends r = None.
Proof.
  destruct (get_trends_answer "2024-01-01T00:00:00" [table_row])
    as (r & Hr & Hshort & _).
  - apply Forall_cons_2; [|apply Forall_nil_2].
    split; right; [exists 0.3%float|exists 0.1%float]; by vm_compute.
  - simpl. lia.
  - exists r. split; [done|]. apply Hshort. simpl. lia.
Defined.

